(** * cluster-mode: the orchestration engine of [src/process.js]

    A shallow embedding of the master/worker orchestrator.  The module-level
    variables of [process.js] become one record [State]; the functions of the
    file become computations in a small state-and-output monad [M] whose
    outputs are the calls the file makes to its collaborators (logger, the
    public event emitter [ee], [msg.send], [cluster.fork], the shutdown tasks
    and [process.exit]).  The event loop of Node is the function [step]: it
    takes one stimulus (an API call, a signal, a worker exit, an inbound
    message, a task calling its completion callback) and runs the handlers
    the file registered for it.

    The read-only lookups [ee.getWorkers], [ee.getWorkerIdByPid] and
    [ee.getWorkerPidById], and [ee.send], assign no variable of the file;
    they are not inputs of the event loop and come after it, as functions
    of the state.  The text of log lines is shortened to its fixed part. *)

From stdpp Require Import base option list sorting gmap strings.
From Stdlib Require Import ZArith Lia.

Local Open Scope Z_scope.

(** ** Values *)

(** The JavaScript values that travel through [error], [sig] and the
    arguments of emitted events.  [JObj m s] is an object seen through its
    [message] and [stack] properties ([None] when the property is absent);
    an [Error] has both. *)
Inductive JsVal : Type :=
  | JUndefined
  | JNull
  | JNum (n : Z)
  | JStr (s : string)
  | JObj (message stack : option string).

(** Truthiness, as tested by [if (v)], [v ? a : b] and [v || w]. *)
Definition truthy (v : JsVal) : bool :=
  match v with
  | JUndefined | JNull => false
  | JNum n => negb (n =? 0)
  | JStr s => negb (String.eqb s EmptyString)
  | JObj _ _ => true
  end.

(** [v || w] *)
Definition js_or (v w : JsVal) : JsVal := if truthy v then v else w.

(** [v.message] and [v.stack]: a property read on a primitive is undefined. *)
Definition prop_message (v : JsVal) : option string :=
  match v with JObj m _ => m | _ => None end.
Definition prop_stack (v : JsVal) : option string :=
  match v with JObj _ s => s | _ => None end.

(** ** Constants of the file *)

Definition SIGHUP : string := "SIGHUP".
Definition SIGINT : string := "SIGINT".
Definition SIGQUIT : string := "SIGQUIT".
Definition SIGTERM : string := "SIGTERM".

Definition MASTER : string := "master".
Definition PREFIX : string := "cLuSToR-mOdE".
Definition CMD_RELOAD : string := PREFIX +:+ "__reload__".
Definition CMD_EXIT : string := PREFIX +:+ "__exit__".
Definition CMD_SYNC : string := PREFIX +:+ "__sync__".
Definition CMD_MSG : string := PREFIX +:+ "__msg__".

(** Workers must be alive for at least ten seconds to be respawned. *)
Definition MIN_LIFE : Z := 10000.

(** ** Data model *)

(** An entry of [workerMap]. *)
Record WorkerData : Type := { started : Z; pid : Z }.

Definition WorkerMap : Type := gmap Z WorkerData.

(** A [cluster.Worker] as the file reads it: [worker.id],
    [worker.process.pid] and [worker.suicide].  The object has no [pid]
    property of its own. *)
Record Worker : Type :=
  { worker_id : Z; worker_process_pid : Z; worker_suicide : bool }.

(** [worker.pid] *)
Definition worker_pid (w : Worker) : JsVal := JUndefined.

(** Shutdown tasks and the exit hook are functions of the embedding
    application; they are named, and calling one is an output. *)
Definition TaskId : Type := nat.
Definition HookId : Type := nat.

(** An element of [shutdownTasks]; [runOnMaster] is kept by its truthiness. *)
Record ShutdownTask : Type := { task : TaskId; runOnMaster : bool }.

(** A command envelope, as built for [msg.send] and as read from a parsed
    inbound message ([data.command], [data.error], [data.sig], [data.map],
    [data.from], [data.msg]).  [command] is [None] when absent. *)
Record Envelope : Type :=
  { command : option string;
    error : JsVal;
    sig : JsVal;
    map : WorkerMap;
    from : JsVal;
    msg : JsVal }.

Definition envelope (c : string) : Envelope :=
  {| command := Some c; error := JUndefined; sig := JUndefined;
     map := ∅; from := JUndefined; msg := JUndefined |}.

(** What [JSON.parse] returns when it does not throw. *)
Inductive Json : Type :=
  | JsonNull
  | JsonPrim
  | JsonObj (e : Envelope).

(** What the channel delivers: any value that can be sent.  A string; null;
    a number or a boolean, with the text [String(data)] gives for it; an
    object or an array, with that text ("[object Object]" for a plain
    object) and with its properties, as a listener reads them. *)
Inductive Payload : Type :=
  | PString (s : string)
  | PNull
  | PPrim (text : string)
  | PObject (text : string) (d : Envelope).

Coercion PString : string >-> Payload.

(** [String(data)]: what [JSON.parse(data)] parses. *)
Definition ToString (data : Payload) : string :=
  match data with
  | PString s => s
  | PNull => "null"
  | PPrim text => text
  | PObject text _ => text
  end.

(** The payload itself, as the listener reads its properties when
    [JSON.parse] has thrown and [data] is still what was delivered. *)
Definition unparsed (data : Payload) : Json :=
  match data with
  | PString _ | PPrim _ => JsonPrim
  | PNull => JsonNull
  | PObject _ d => JsonObj d
  end.

(** The configuration object given to [ee.start]; an absent property is
    [None]. *)
Record Config : Type :=
  { max : option Z; cfg_autoSpawn : option bool; sync : option bool }.

(** ** The host: Node, the cluster module and the libraries under [lib/] *)

Record Host : Type :=
  { MAX : Z;                          (* os.cpus().length *)
    cluster_isMaster : bool;          (* cluster.isMaster *)
    process_pid : Z;                  (* process.pid *)
    fork_pid : Z -> Z;                (* pid of the process forked as worker [id] *)
    clock : nat -> Z;                 (* the value of the n-th call of Date.now() *)
    JSON_parse : string -> option Json;  (* [None]: JSON.parse throws *)
    CODES_FATAL_ERROR : JsVal;        (* sigCode.CODES.FATAL_ERROR *)
    CODES_EXPECTED : JsVal }.         (* sigCode.CODES.EXPECTED *)

(** ** Outputs *)

Inductive Level : Type := LInfo | LWarn | LError | LFatal | LVerbose.

Inductive Output : Type :=
  | Log (lvl : Level) (text : string)              (* logger.<lvl>(...) *)
  | Emit (event : string) (args : list JsVal)      (* ee.emit(event, ...args) *)
  | EmitSync (m : WorkerMap)                       (* ee.emit('sync', workerMap) *)
  | EmitMessage (sender payload : JsVal)           (* ee.emit('message', {from, msg}) *)
  | Send (e : Envelope) (target : option Worker)   (* msg.send(e, target) *)
  | Relay (e : Envelope) (source : Worker)         (* msg.relay(CMD.MSG, e, source) *)
  | Fork (w : Worker)                              (* cluster.fork() *)
  | RunTask (run : nat) (t : TaskId)               (* item.task(next) *)
  | RunExitHook (run : nat) (h : HookId).          (* onExit(callback) *)

(** ** Pending continuations *)

(** The [next] callback of the series over worker ids in [exit], parked by
    [emitter.once('workerExit', next)]: the ids still to visit and the
    [errorExit] captured by the iteratee. *)
Record ExitCont : Type := { ec_keys : list Z; ec_error : JsVal }.

Inductive Phase : Type :=
  | AwaitTask              (* a shutdown task holds [next] *)
  | AwaitHook (code : Z).  (* the onExit hook holds its callback *)

(** One call of [shutdown]: its arguments, its [counter], [taskList.length],
    the tasks the series over [taskList] has not started yet, and what the
    call is waiting for. *)
Record Run : Type :=
  { run_error : JsVal;
    run_sig : JsVal;
    run_total : nat;
    run_counter : nat;
    run_rest : list ShutdownTask;
    run_phase : Phase }.

(** ** State *)

(** The module-level variables of [process.js], the once-listeners of the
    private [emitter], the calls of [shutdown] in flight, and the part of the
    Node runtime the file reads: [cluster.workers] (in creation order, which
    is the order of [Object.keys]), the id of the next forked worker, the
    number of [Date.now()] calls made, and how many times each group of
    listeners was registered. *)
Record State : Type :=
  { numOfWorkers : Z;
    autoSpawn : bool;
    syncWorker : bool;
    isReloading : bool;
    isShutdown : bool;
    isMaster : bool;
    shutdownLock : bool;
    reloaded : Z;
    shutdownTasks : list ShutdownTask;
    workerMap : WorkerMap;
    onExit : option HookId;
    onceReloaded : list (list Z);
    onceWorkerExit : list ExitCont;
    runs : list Run;
    cluster_workers : list Worker;
    nextId : Z;
    ticks : nat;
    processListeners : nat;
    clusterExitListeners : nat;
    messageListeners : nat }.

(** The variables as the file initialises them, in a fresh process. *)
Definition initial : State :=
  {| numOfWorkers := 0; autoSpawn := false; syncWorker := true;
     isReloading := false; isShutdown := false; isMaster := false;
     shutdownLock := false; reloaded := 0; shutdownTasks := [];
     workerMap := ∅; onExit := None;
     onceReloaded := []; onceWorkerExit := []; runs := [];
     cluster_workers := []; nextId := 1; ticks := 0%nat;
     processListeners := 0%nat; clusterExitListeners := 0%nat;
     messageListeners := 0%nat |}.

(** ** Assignments

    [set_x v s] is the state after [x = v]. *)

Definition set_numOfWorkers (v : Z) (s : State) : State :=
  Build_State v (autoSpawn s) (syncWorker s) (isReloading s) (isShutdown s)
    (isMaster s) (shutdownLock s) (reloaded s) (shutdownTasks s) (workerMap s)
    (onExit s) (onceReloaded s) (onceWorkerExit s) (runs s)
    (cluster_workers s) (nextId s) (ticks s) (processListeners s)
    (clusterExitListeners s) (messageListeners s).

Definition set_autoSpawn (v : bool) (s : State) : State :=
  Build_State (numOfWorkers s) v (syncWorker s) (isReloading s) (isShutdown s)
    (isMaster s) (shutdownLock s) (reloaded s) (shutdownTasks s) (workerMap s)
    (onExit s) (onceReloaded s) (onceWorkerExit s) (runs s)
    (cluster_workers s) (nextId s) (ticks s) (processListeners s)
    (clusterExitListeners s) (messageListeners s).

Definition set_syncWorker (v : bool) (s : State) : State :=
  Build_State (numOfWorkers s) (autoSpawn s) v (isReloading s) (isShutdown s)
    (isMaster s) (shutdownLock s) (reloaded s) (shutdownTasks s) (workerMap s)
    (onExit s) (onceReloaded s) (onceWorkerExit s) (runs s)
    (cluster_workers s) (nextId s) (ticks s) (processListeners s)
    (clusterExitListeners s) (messageListeners s).

Definition set_isReloading (v : bool) (s : State) : State :=
  Build_State (numOfWorkers s) (autoSpawn s) (syncWorker s) v (isShutdown s)
    (isMaster s) (shutdownLock s) (reloaded s) (shutdownTasks s) (workerMap s)
    (onExit s) (onceReloaded s) (onceWorkerExit s) (runs s)
    (cluster_workers s) (nextId s) (ticks s) (processListeners s)
    (clusterExitListeners s) (messageListeners s).

Definition set_isShutdown (v : bool) (s : State) : State :=
  Build_State (numOfWorkers s) (autoSpawn s) (syncWorker s) (isReloading s) v
    (isMaster s) (shutdownLock s) (reloaded s) (shutdownTasks s) (workerMap s)
    (onExit s) (onceReloaded s) (onceWorkerExit s) (runs s)
    (cluster_workers s) (nextId s) (ticks s) (processListeners s)
    (clusterExitListeners s) (messageListeners s).

Definition set_isMaster (v : bool) (s : State) : State :=
  Build_State (numOfWorkers s) (autoSpawn s) (syncWorker s) (isReloading s)
    (isShutdown s) v (shutdownLock s) (reloaded s) (shutdownTasks s)
    (workerMap s) (onExit s) (onceReloaded s) (onceWorkerExit s) (runs s)
    (cluster_workers s) (nextId s) (ticks s) (processListeners s)
    (clusterExitListeners s) (messageListeners s).

Definition set_shutdownLock (v : bool) (s : State) : State :=
  Build_State (numOfWorkers s) (autoSpawn s) (syncWorker s) (isReloading s)
    (isShutdown s) (isMaster s) v (reloaded s) (shutdownTasks s) (workerMap s)
    (onExit s) (onceReloaded s) (onceWorkerExit s) (runs s)
    (cluster_workers s) (nextId s) (ticks s) (processListeners s)
    (clusterExitListeners s) (messageListeners s).

Definition set_reloaded (v : Z) (s : State) : State :=
  Build_State (numOfWorkers s) (autoSpawn s) (syncWorker s) (isReloading s)
    (isShutdown s) (isMaster s) (shutdownLock s) v (shutdownTasks s)
    (workerMap s) (onExit s) (onceReloaded s) (onceWorkerExit s) (runs s)
    (cluster_workers s) (nextId s) (ticks s) (processListeners s)
    (clusterExitListeners s) (messageListeners s).

Definition set_shutdownTasks (v : list ShutdownTask) (s : State) : State :=
  Build_State (numOfWorkers s) (autoSpawn s) (syncWorker s) (isReloading s)
    (isShutdown s) (isMaster s) (shutdownLock s) (reloaded s) v (workerMap s)
    (onExit s) (onceReloaded s) (onceWorkerExit s) (runs s)
    (cluster_workers s) (nextId s) (ticks s) (processListeners s)
    (clusterExitListeners s) (messageListeners s).

Definition set_workerMap (v : WorkerMap) (s : State) : State :=
  Build_State (numOfWorkers s) (autoSpawn s) (syncWorker s) (isReloading s)
    (isShutdown s) (isMaster s) (shutdownLock s) (reloaded s)
    (shutdownTasks s) v (onExit s) (onceReloaded s) (onceWorkerExit s)
    (runs s) (cluster_workers s) (nextId s) (ticks s) (processListeners s)
    (clusterExitListeners s) (messageListeners s).

Definition set_onExit (v : option HookId) (s : State) : State :=
  Build_State (numOfWorkers s) (autoSpawn s) (syncWorker s) (isReloading s)
    (isShutdown s) (isMaster s) (shutdownLock s) (reloaded s)
    (shutdownTasks s) (workerMap s) v (onceReloaded s) (onceWorkerExit s)
    (runs s) (cluster_workers s) (nextId s) (ticks s) (processListeners s)
    (clusterExitListeners s) (messageListeners s).

Definition set_onceReloaded (v : list (list Z)) (s : State) : State :=
  Build_State (numOfWorkers s) (autoSpawn s) (syncWorker s) (isReloading s)
    (isShutdown s) (isMaster s) (shutdownLock s) (reloaded s)
    (shutdownTasks s) (workerMap s) (onExit s) v (onceWorkerExit s) (runs s)
    (cluster_workers s) (nextId s) (ticks s) (processListeners s)
    (clusterExitListeners s) (messageListeners s).

Definition set_onceWorkerExit (v : list ExitCont) (s : State) : State :=
  Build_State (numOfWorkers s) (autoSpawn s) (syncWorker s) (isReloading s)
    (isShutdown s) (isMaster s) (shutdownLock s) (reloaded s)
    (shutdownTasks s) (workerMap s) (onExit s) (onceReloaded s) v (runs s)
    (cluster_workers s) (nextId s) (ticks s) (processListeners s)
    (clusterExitListeners s) (messageListeners s).

Definition set_runs (v : list Run) (s : State) : State :=
  Build_State (numOfWorkers s) (autoSpawn s) (syncWorker s) (isReloading s)
    (isShutdown s) (isMaster s) (shutdownLock s) (reloaded s)
    (shutdownTasks s) (workerMap s) (onExit s) (onceReloaded s)
    (onceWorkerExit s) v (cluster_workers s) (nextId s) (ticks s)
    (processListeners s) (clusterExitListeners s) (messageListeners s).

Definition set_cluster_workers (v : list Worker) (s : State) : State :=
  Build_State (numOfWorkers s) (autoSpawn s) (syncWorker s) (isReloading s)
    (isShutdown s) (isMaster s) (shutdownLock s) (reloaded s)
    (shutdownTasks s) (workerMap s) (onExit s) (onceReloaded s)
    (onceWorkerExit s) (runs s) v (nextId s) (ticks s) (processListeners s)
    (clusterExitListeners s) (messageListeners s).

Definition set_nextId (v : Z) (s : State) : State :=
  Build_State (numOfWorkers s) (autoSpawn s) (syncWorker s) (isReloading s)
    (isShutdown s) (isMaster s) (shutdownLock s) (reloaded s)
    (shutdownTasks s) (workerMap s) (onExit s) (onceReloaded s)
    (onceWorkerExit s) (runs s) (cluster_workers s) v (ticks s)
    (processListeners s) (clusterExitListeners s) (messageListeners s).

Definition set_ticks (v : nat) (s : State) : State :=
  Build_State (numOfWorkers s) (autoSpawn s) (syncWorker s) (isReloading s)
    (isShutdown s) (isMaster s) (shutdownLock s) (reloaded s)
    (shutdownTasks s) (workerMap s) (onExit s) (onceReloaded s)
    (onceWorkerExit s) (runs s) (cluster_workers s) (nextId s) v
    (processListeners s) (clusterExitListeners s) (messageListeners s).

Definition set_processListeners (v : nat) (s : State) : State :=
  Build_State (numOfWorkers s) (autoSpawn s) (syncWorker s) (isReloading s)
    (isShutdown s) (isMaster s) (shutdownLock s) (reloaded s)
    (shutdownTasks s) (workerMap s) (onExit s) (onceReloaded s)
    (onceWorkerExit s) (runs s) (cluster_workers s) (nextId s) (ticks s) v
    (clusterExitListeners s) (messageListeners s).

Definition set_clusterExitListeners (v : nat) (s : State) : State :=
  Build_State (numOfWorkers s) (autoSpawn s) (syncWorker s) (isReloading s)
    (isShutdown s) (isMaster s) (shutdownLock s) (reloaded s)
    (shutdownTasks s) (workerMap s) (onExit s) (onceReloaded s)
    (onceWorkerExit s) (runs s) (cluster_workers s) (nextId s) (ticks s)
    (processListeners s) v (messageListeners s).

Definition set_messageListeners (v : nat) (s : State) : State :=
  Build_State (numOfWorkers s) (autoSpawn s) (syncWorker s) (isReloading s)
    (isShutdown s) (isMaster s) (shutdownLock s) (reloaded s)
    (shutdownTasks s) (workerMap s) (onExit s) (onceReloaded s)
    (onceWorkerExit s) (runs s) (cluster_workers s) (nextId s) (ticks s)
    (processListeners s) (clusterExitListeners s) v.
(** ** The monad of handlers

    A handler reads and assigns the state and produces outputs.  It runs to
    its end ([Ret]) unless the process stops under it ([Halt]): by
    [process.exit(code)], or by an exception no one catches. *)

Inductive Stop : Type :=
  | Exited (code : Z)
  | Threw (what : string).

Inductive Res (A : Type) : Type :=
  | Ret (x : A) (s : State) (o : list Output)
  | Halt (why : Stop) (s : State) (o : list Output).
Arguments Ret {A} x s o.
Arguments Halt {A} why s o.

Definition M (A : Type) : Type := State -> Res A.

Definition ret {A} (x : A) : M A := fun s => Ret x s [].

(** The outputs [o] were made before [r] was reached. *)
Definition prefix {A} (o : list Output) (r : Res A) : Res A :=
  match r with
  | Ret x s o2 => Ret x s (o ++ o2)
  | Halt w s o2 => Halt w s (o ++ o2)
  end.

Definition bind {A B} (m : M A) (f : A -> M B) : M B := fun s =>
  match m s with
  | Ret x s1 o1 => prefix o1 (f x s1)
  | Halt w s1 o1 => Halt w s1 o1
  end.

Notation "'let!' x ':=' m 'in' k" := (bind m (fun x => k))
  (at level 10, x name, m at level 100, k at level 200).
Notation "m >> k" := (bind m (fun _ => k))
  (at level 100, k at level 200, right associativity).

Definition gets {A} (f : State -> A) : M A := fun s => Ret (f s) s [].
Definition modify (f : State -> State) : M unit := fun s => Ret tt (f s) [].
Definition out (o : Output) : M unit := fun s => Ret tt s [o].
Definition halt {A} (w : Stop) : M A := fun s => Halt w s [].

Definition log (lvl : Level) (text : string) : M unit := out (Log lvl text).
Definition emit (event : string) (args : list JsVal) : M unit :=
  out (Emit event args).

(** [when b m]: [if (b) { m }] *)
Definition when (b : bool) (m : M unit) : M unit := if b then m else ret tt.

(** [n] listeners of one event, called one after the other. *)
Fixpoint repeatM (n : nat) (m : M unit) : M unit :=
  match n with
  | O => ret tt
  | S n' => m >> repeatM n' m
  end.

Fixpoint forM {A} (l : list A) (f : A -> M unit) : M unit :=
  match l with
  | [] => ret tt
  | x :: l' => f x >> forM l' f
  end.

(** The state and the outputs a handler leaves behind, however it ends. *)
Definition final {A} (r : Res A) : State :=
  match r with Ret _ s _ => s | Halt _ s _ => s end.
Definition outputs {A} (r : Res A) : list Output :=
  match r with Ret _ _ o => o | Halt _ _ o => o end.
Definition stopped {A} (r : Res A) : option Stop :=
  match r with Ret _ _ _ => None | Halt w _ _ => Some w end.

(** A process: the state, everything it has output so far, and whether it
    has stopped. *)
Record Proc : Type :=
  { state : State; history : list Output; status : option Stop }.

Definition boot : Proc :=
  {| state := initial; history := []; status := None |}.

(** The process runs the handler [m], if it has not stopped. *)
Definition perform (m : M unit) (p : Proc) : Proc :=
  match status p with
  | Some _ => p
  | None =>
      let r := m (state p) in
      {| state := final r;
         history := history p ++ outputs r;
         status := stopped r |}
  end.

(** ** Role queries *)

(** [ee.isMaster] *)
Definition ee_isMaster (s : State) : bool :=
  if isMaster s && negb (numOfWorkers s =? 0) then true else false.

(** [ee.isCluster] *)
Definition ee_isCluster (s : State) : bool :=
  if negb (numOfWorkers s =? 0) then true else false.

(** [cluster.workers[id]] *)
Definition lookup_worker (i : Z) (s : State) : option Worker :=
  List.find (fun w => worker_id w =? i) (cluster_workers s).

(** [Object.keys(cluster.workers)] *)
Definition worker_keys (s : State) : list Z :=
  List.map worker_id (cluster_workers s).

(** [print = (e) ? (logger.fatal || logger.error) : logger.info] *)
Definition printLevel (e : JsVal) : Level :=
  if truthy e then LFatal else LInfo.

(** [e = null; if (errorExit) e = { message: ..., stack: ... }] *)
Definition serializeError (errorExit : JsVal) : JsVal :=
  if truthy errorExit
  then JObj (prop_message errorExit) (prop_stack errorExit)
  else JNull.

(** ** The functions of [process.js] *)

Section Process.

Variable host : Host.

(** [Date.now()] *)
Definition Date_now : M Z := fun s =>
  Ret (clock host (ticks s)) (set_ticks (S (ticks s)) s) [].

(** [cluster.fork()]: the cluster module numbers workers from its own
    counter and adds the new one to [cluster.workers]. *)
Definition cluster_fork : M Worker := fun s =>
  let w := {| worker_id := nextId s;
              worker_process_pid := fork_pid host (nextId s);
              worker_suicide := false |} in
  Ret w (set_nextId (nextId s + 1) (set_cluster_workers (cluster_workers s ++ [w]) s))
      [Fork w].

(** [process.exit(code)]: the listeners of the process's 'exit' event, set up
    by [startListeners], run first; then the process is gone. *)
Definition process_exit (code : Z) : M unit :=
  let! n := gets processListeners in
  repeatM n (when (negb (code =? 0)) (log LError "Error termination")) >>
  halt (Exited code).

(** [noMoreWorkers] *)
Definition noMoreWorkers : M bool :=
  gets (fun s => negb (0 <? Z.of_nat (length (worker_keys s)))).

(** [syncWorkerMap] *)
Definition syncWorkerMap : M unit :=
  let! sw := gets syncWorker in
  when sw
    (log LVerbose "Dispatch synchronize worker command" >>
     let! wm := gets workerMap in
     out (Send {| command := Some CMD_SYNC; error := JUndefined;
                  sig := JUndefined; map := wm; from := JUndefined;
                  msg := JUndefined |} None)).

(** [createWorker].  The listener it attaches to the new worker is
    [onWorkerMessage] below; [step] calls it for messages of that worker. *)
Definition createWorker : M Worker :=
  let! worker := cluster_fork in
  let! now := Date_now in
  modify (fun s =>
    set_workerMap
      (<[worker_id worker := {| started := now; pid := worker_process_pid worker |}]>
         (workerMap s)) s) >>
  log LInfo "Worker created" >>
  syncWorkerMap >>
  ret worker.

(** *** The series over the shutdown tasks

    [async.eachSeries(taskList, iteratee, done)] calls the iteratee on the
    first item and hands it [next]; a call of [next] without an error moves
    to the following item, or to [done()] after the last one; a call of
    [next] with an error goes to [done(error)] at once and visits no further
    item; an empty list goes to [done()] directly. *)

(** [done] of [shutdown], for run [k]. *)
Definition shutdown_done (k : nat) (r : Run) (err : JsVal) : M unit :=
  let code := if truthy err then 1 else 0 in
  let print := log (printLevel (run_error r)) in
  print "Exit" >>
  when (truthy (run_error r)) (print "errorShutdown") >>
  emit "exit" [JNum code; js_or (run_sig r) JNull] >>
  let! hook := gets onExit in
  match hook with
  | Some h =>
      out (RunExitHook k h) >>
      modify (fun s =>
        set_runs (<[k := {| run_error := run_error r; run_sig := run_sig r;
                            run_total := run_total r;
                            run_counter := run_counter r;
                            run_rest := run_rest r;
                            run_phase := AwaitHook code |}]> (runs s)) s)
  | None => process_exit code
  end.

(** The series of run [k] moves on: the iteratee on the next task, or
    [done()]. *)
Definition eachSeries_tasks (k : nat) (r : Run) : M unit :=
  match run_rest r with
  | [] => shutdown_done k r JUndefined
  | item :: rest =>
      let counter := S (run_counter r) in
      log (printLevel (run_error r)) "Execute shutdown task" >>
      out (RunTask k (task item)) >>
      modify (fun s =>
        set_runs (<[k := {| run_error := run_error r; run_sig := run_sig r;
                            run_total := run_total r;
                            run_counter := counter;
                            run_rest := rest;
                            run_phase := AwaitTask |}]> (runs s)) s)
  end.

(** The task run [k] is waiting for calls [next(err)]. *)
Definition task_callback (k : nat) (err : JsVal) : M unit :=
  let! rs := gets runs in
  match rs !! k with
  | Some r =>
      match run_phase r with
      | AwaitTask =>
          if truthy err then shutdown_done k r err else eachSeries_tasks k r
      | AwaitHook _ => ret tt
      end
  | None => ret tt
  end.

(** The exit hook of run [k] calls its callback: [process.exit(code)]. *)
Definition hook_callback (k : nat) : M unit :=
  let! rs := gets runs in
  match rs !! k with
  | Some r =>
      match run_phase r with
      | AwaitHook code => process_exit code
      | AwaitTask => ret tt
      end
  | None => ret tt
  end.

(** [shutdown] *)
Definition shutdown (errorShutdown sig : JsVal) : M unit :=
  let! master := gets ee_isMaster in
  let! tasks := gets shutdownTasks in
  let taskList :=
    List.filter (fun item => if master then runOnMaster item else true) tasks in
  log LVerbose "Number of shutdown tasks before shutting down" >>
  let! k := gets (fun s => length (runs s)) in
  let r := {| run_error := errorShutdown; run_sig := sig;
              run_total := length taskList; run_counter := 0%nat;
              run_rest := taskList; run_phase := AwaitTask |} in
  modify (fun s => set_runs (runs s ++ [r]) s) >>
  eachSeries_tasks k r.

(** *** Workers leaving *)

(** [handleAutoSpawn].  [workerData] is [workerMap[worker.id]], read before
    the entry was deleted; reading [workerData.pid] throws when there was no
    entry. *)
Definition handleAutoSpawn (worker : Worker) (workerData : option WorkerData)
    (code sig : JsVal) : M unit :=
  let! down := gets isShutdown in
  if negb down then
    match workerData with
    | None => halt (Threw "TypeError")
    | Some wd =>
        log LError "A worker process exited unexpectedly" >>
        let! now := Date_now in
        if now - started wd <? MIN_LIFE then
          modify (fun s => set_numOfWorkers (numOfWorkers s - 1) s) >>
          log LError "A worker process must be alive for at least MIN_LIFE ms: auto-respawning ignored"
        else
          let! newWorker := createWorker in
          emit "auto.spawn"
            [JNum (worker_process_pid newWorker); JNum (worker_id newWorker)]
    end
  else
    log LInfo "Master process is instructing to shutdown: no auto-respawning".

(** The series over the worker ids in [reload] moves on to [keys]: the
    iteratee parks [next] on 'reloaded' and sends RELOAD to the worker; after
    the last id, [done] does nothing. *)
Definition eachSeries_reload (keys : list Z) : M unit :=
  match keys with
  | [] => ret tt
  | i :: rest =>
      modify (fun s => set_onceReloaded (onceReloaded s ++ [rest]) s) >>
      let! w := gets (lookup_worker i) in
      out (Send (envelope CMD_RELOAD) w)
  end.

(** [emitter.emit('reloaded')]: every parked [next] is removed and called. *)
Definition emitter_emit_reloaded : M unit :=
  let! ls := gets onceReloaded in
  modify (set_onceReloaded []) >>
  forM ls eachSeries_reload.

(** [handleReloading] *)
Definition handleReloading : M unit :=
  let! worker := createWorker in
  emitter_emit_reloaded >>
  modify (fun s => set_reloaded (reloaded s + 1) s) >>
  log LInfo "Reloaded a worker process" >>
  emit "reload"
    [JStr "reloading"; JNum (worker_process_pid worker); JNum (worker_id worker)] >>
  emit "reload.reloading" [worker_pid worker; JNum (worker_id worker)] >>
  let! r := gets reloaded in
  let! n := gets numOfWorkers in
  when (r =? n)
    (modify (set_isReloading false) >>
     modify (set_reloaded 0) >>
     emit "reload" [JStr "complete"] >>
     emit "reload.complete" [] >>
     log LInfo "All worker processes have reloaded").

(** The series over the worker ids in [exit] moves on: the iteratee parks
    [next] on 'workerExit', prints, and sends EXIT to the worker.  The series
    has no final callback. *)
Definition eachSeries_exit (c : ExitCont) : M unit :=
  match ec_keys c with
  | [] => ret tt
  | i :: rest =>
      modify (fun s =>
        set_onceWorkerExit
          (onceWorkerExit s ++ [{| ec_keys := rest; ec_error := ec_error c |}]) s) >>
      log (printLevel (ec_error c)) "Instruct worker process to exit" >>
      let e := serializeError (ec_error c) in
      let! w := gets (lookup_worker i) in
      out (Send {| command := Some CMD_EXIT; error := e; sig := JUndefined;
                   map := ∅; from := JUndefined; msg := JUndefined |} w)
  end.

(** [emitter.emit('workerExit')] *)
Definition emitter_emit_workerExit : M unit :=
  let! ls := gets onceWorkerExit in
  modify (set_onceWorkerExit []) >>
  forM ls eachSeries_exit.

(** [handleWorkerExit] *)
Definition handleWorkerExit (worker : Worker) (code sig : JsVal) : M unit :=
  log LInfo "Cluster process is exiting" >>
  let! workerData := gets (fun s => workerMap s !! worker_id worker) in
  modify (fun s => set_workerMap (delete (worker_id worker) (workerMap s)) s) >>
  let! reloading := gets isReloading in
  if reloading then handleReloading
  else
    let! auto := gets autoSpawn in
    when (negb (worker_suicide worker) && auto)
      (handleAutoSpawn worker workerData code sig) >>
    let! none := noMoreWorkers in
    if none then
      log LInfo "No more workers running" >>
      let! down := gets isShutdown in
      when (down || truthy code)
        (log LInfo "All worker processes have disconnected" >>
         shutdown JNull code)
    else
      syncWorkerMap >>
      emitter_emit_workerExit.

(** *** Reload and exit *)

(** [reload] *)
Definition reload : M unit :=
  let! master := gets isMaster in
  if negb master then ret tt
  else
    log LInfo "Reloading" >>
    let! n := gets numOfWorkers in
    when (negb (n =? 0))
      (modify (set_isReloading true) >>
       modify (set_reloaded 0) >>
       let! keys := gets worker_keys in
       eachSeries_reload keys).

(** [exit] *)
Definition exit (errorExit sig : JsVal) : M unit :=
  let print := log (printLevel errorExit) in
  let! master := gets isMaster in
  if negb master then
    out (Send {| command := Some CMD_EXIT; error := serializeError errorExit;
                 sig := sig; map := ∅; from := JUndefined;
                 msg := JUndefined |} None)
  else
    let! lock := gets shutdownLock in
    if lock then
      when (truthy errorExit) (print "Exit instruction by error")
    else
      modify (set_shutdownLock true) >>
      (if truthy errorExit then print "Exiting with an error"
       else print "Exiting") >>
      let! n := gets numOfWorkers in
      if negb (n =? 0) && cluster_isMaster host then
        modify (set_isShutdown true) >>
        let! none := noMoreWorkers in
        if none then
          print "Master is exiting" >>
          shutdown sig JUndefined
        else
          let! keys := gets worker_keys in
          eachSeries_exit {| ec_keys := keys; ec_error := errorExit |}
      else
        when (n =? 0) (shutdown errorExit sig).

(** *** Inbound messages

    The library under [lib/msg] sends serialized envelopes, strings, but a
    listener is handed whatever arrives.  When [JSON.parse] throws, the
    listener logs and goes on with [data] still what was delivered: a
    string has no [command] property, an object has its own. *)

(** [try { data = JSON.parse(data); } catch (e) { logger.warn(...); }] *)
Definition parse_or_keep (data : Payload) : M Json :=
  match JSON_parse host (ToString data) with
  | Some parsed => ret parsed
  | None => log LWarn "Message data not JSON" >> ret (unparsed data)
  end.

(** The listener [createWorker] attaches to [worker]: worker to master. *)
Definition onWorkerMessage (worker : Worker) (data : Payload) : M unit :=
  let! data := parse_or_keep data in
  match data with
  | JsonNull => halt (Threw "TypeError")
  | JsonPrim => ret tt
  | JsonObj d =>
      match command d with
      | Some c =>
          if String.eqb c CMD_MSG then out (Relay d worker)
          else if String.eqb c CMD_EXIT then
            log LInfo "Exit instruction from worker" >>
            exit (error d) (js_or (sig d) (JStr SIGTERM))
          else ret tt
      | None => ret tt
      end
  end.

(** The listener [startWorker] sets up: master to worker. *)
Definition onMasterMessage (data : Payload) : M unit :=
  let! data := parse_or_keep data in
  match data with
  | JsonNull => halt (Threw "TypeError")
  | JsonPrim => ret tt
  | JsonObj d =>
      match command d with
      | None => ret tt
      | Some c =>
          if String.eqb c EmptyString then ret tt
          else if String.eqb c CMD_EXIT then
            log LInfo "Shutting down worker process for exit" >>
            shutdown (js_or (error d) JNull) JUndefined
          else if String.eqb c CMD_RELOAD then
            log LInfo "Shutting down worker process for reload" >>
            shutdown JUndefined JUndefined
          else if String.eqb c CMD_SYNC then
            log LInfo "Synchronize worker map" >>
            log LVerbose "synched map" >>
            modify (set_workerMap (map d)) >>
            out (EmitSync (map d))
          else if String.eqb c CMD_MSG then
            out (EmitMessage (from d) (msg d))
          else ret tt
      end
  end.

(** *** Start-up *)

(** [startListeners]: one more listener on each of SIGHUP, SIGINT, SIGQUIT,
    SIGTERM and the process's 'exit'. *)
Definition startListeners : M unit :=
  log LInfo "Start listeners" >>
  modify (fun s => set_processListeners (S (processListeners s)) s).

(** [startMaster] *)
Definition startMaster : M unit :=
  log LInfo "Starting master process" >>
  modify (fun s => set_clusterExitListeners (S (clusterExitListeners s)) s) >>
  let! n := gets numOfWorkers in
  repeatM (Z.to_nat n) (let! w := createWorker in ret tt).

(** [startWorker] *)
Definition startWorker : M unit :=
  modify (fun s => set_messageListeners (S (messageListeners s)) s) >>
  log LInfo "Worker process started".

(** [startClusterMode] *)
Definition startClusterMode : M bool :=
  let! n := gets numOfWorkers in
  if 1 <? n then
    (if cluster_isMaster host then
       startMaster >>
       emit "cluster" [JStr "master.ready"; JNum (process_pid host)] >>
       emit "cluster.master.ready" [JNum (process_pid host)]
     else
       startWorker >>
       emit "cluster" [JStr "worker.ready"; JNum (process_pid host)] >>
       emit "cluster.worker.ready" [JNum (process_pid host)]) >>
    ret true
  else
    emit "cluster" [JStr "non.ready"] >>
    emit "cluster.non.ready" [] >>
    ret false.

(** [start] *)
Definition start : M unit :=
  startListeners >>
  let! inClusterMode := startClusterMode in
  let! master := gets isMaster in
  when master (log LInfo "Starting in cluster mode").

(** *** The public surface *)

(** [ee.addShutdownTask(task, runOnMaster)]; [task] is [None] when the
    argument is not a function, [runOnMaster] is [None] when undefined. *)
Definition ee_addShutdownTask (t : option TaskId) (onMaster : option bool)
    : M bool :=
  match t with
  | None => ret false
  | Some f =>
      let onMaster := match onMaster with None => true | Some b => b end in
      modify (fun s =>
        set_shutdownTasks
          (shutdownTasks s ++ [{| task := f; runOnMaster := onMaster |}]) s) >>
      ret true
  end.

(** [ee.onExit(task)] *)
Definition ee_onExit (t : option HookId) : M unit :=
  match t with
  | None => ret tt
  | Some f => modify (set_onExit (Some f))
  end.

(** [ee.start(config)].  The calls that only configure the logger are left
    out. *)
Definition ee_start (config : option Config) : M unit :=
  when (cluster_isMaster host) (modify (set_isMaster true)) >>
  let config :=
    match config with
    | Some c => c
    | None => {| max := None; cfg_autoSpawn := None; sync := None |}
    end in
  modify (set_numOfWorkers
            (match max config with
             | Some 0 => 0
             | Some n => n
             | None => MAX host
             end)) >>
  modify (set_autoSpawn
            (match cfg_autoSpawn config with Some b => b | None => false end)) >>
  modify (set_syncWorker
            (match sync config with None => true | Some b => b end)) >>
  let! inCluster := gets ee_isCluster in
  when (negb inCluster) (modify (set_syncWorker false)) >>
  let! master := gets isMaster in
  when master
    (log LInfo "Number of workers" >>
     log LInfo "Auto re-spawn" >>
     log LInfo "Synchronaize worker map") >>
  start.

(** [ee.stop(error)] *)
Definition ee_stop (err : JsVal) : M unit :=
  exit err (if truthy err then CODES_FATAL_ERROR host else CODES_EXPECTED host).

(** ** The event loop *)

Inductive Signal : Type := SigHup | SigInt | SigQuit | SigTerm.

(** What can happen to the process: the application calls the public
    surface, a signal arrives, the cluster module reports that worker [i] has
    exited, a message arrives from worker [i] (in the master) or from the
    master (in a worker), the task that run [k] is waiting for calls
    [next(err)], the exit hook of run [k] calls its callback. *)
Inductive Input : Type :=
  | CallAddShutdownTask (t : option TaskId) (onMaster : option bool)
  | CallOnExit (t : option HookId)
  | CallStart (config : option Config)
  | CallStop (err : JsVal)
  | Signalled (sg : Signal)
  | WorkerExited (i : Z) (code sig : JsVal) (suicide : bool)
  | WorkerMessage (i : Z) (data : Payload)
  | MasterMessage (data : Payload)
  | TaskCalledBack (k : nat) (err : JsVal)
  | HookCalledBack (k : nat).

(** The listeners [startListeners] puts on the signals. *)
Definition onSignal (sg : Signal) : M unit :=
  match sg with
  | SigHup => reload
  | SigInt => exit JNull (JStr SIGINT)
  | SigQuit => exit JNull (JStr SIGQUIT)
  | SigTerm => exit JNull (JStr SIGTERM)
  end.

(** The cluster module's 'exit' event for the worker with id [i]: the worker
    has left [cluster.workers] when the listeners run. *)
Definition onClusterExit (i : Z) (code sig : JsVal) (suicide : bool) : M unit :=
  let! found := gets (lookup_worker i) in
  match found with
  | None => ret tt
  | Some w =>
      let worker := {| worker_id := worker_id w;
                       worker_process_pid := worker_process_pid w;
                       worker_suicide := suicide |} in
      modify (fun s =>
        set_cluster_workers
          (List.filter (fun x => negb (worker_id x =? i)) (cluster_workers s)) s) >>
      let! n := gets clusterExitListeners in
      repeatM n (handleWorkerExit worker code sig)
  end.

Definition handle (i : Input) : M unit :=
  match i with
  | CallAddShutdownTask t b => let! r := ee_addShutdownTask t b in ret tt
  | CallOnExit t => ee_onExit t
  | CallStart config => ee_start config
  | CallStop err => ee_stop err
  | Signalled sg =>
      let! n := gets processListeners in repeatM n (onSignal sg)
  | WorkerExited i code sig suicide => onClusterExit i code sig suicide
  | WorkerMessage i data =>
      let! found := gets (lookup_worker i) in
      match found with
      | Some w => onWorkerMessage w data
      | None => ret tt
      end
  | MasterMessage data =>
      let! n := gets messageListeners in repeatM n (onMasterMessage data)
  | TaskCalledBack k err => task_callback k err
  | HookCalledBack k => hook_callback k
  end.

(** One turn of the event loop.  A stopped process handles nothing. *)
Definition step (p : Proc) (i : Input) : Proc := perform (handle i) p.

Definition run (p : Proc) (inputs : list Input) : Proc :=
  fold_left step inputs p.

End Process.

(** ** The read-only surface and [ee.send] *)

(** [ee.getWorkers]: a fresh object with a copy of every entry, or an empty
    one when the synchronisation of the worker map is off. *)
Definition ee_getWorkers (s : State) : WorkerMap :=
  if negb (syncWorker s) then ∅
  else (fun wd => {| started := started wd; pid := pid wd |}) <$> workerMap s.

(** A key that is an array index: a whole number from 0 to 2^32 - 2. *)
Definition array_index (k : Z) : bool := (0 <=? k) && (k <? 4294967295).

Section Enumeration.

(** The keys of [workerMap] that are not array indices, in the order in
    which they were created on the object; the state does not record it. *)
Variable created : list Z.

(** The keys [for (var id in workerMap)] visits: first the keys that are
    array indices, in ascending order, then the other keys, in the order of
    their creation.  The key, which the loop yields as a string, is kept as
    the number it spells. *)
Definition for_in (m : WorkerMap) : list Z :=
  merge_sort Z.le (List.filter array_index (fst <$> map_to_list m)) ++
  List.filter (fun k => negb (array_index k) && bool_decide (is_Some (m !! k)))
    created.

(** [ee.getWorkerIdByPid]; [None] is [null]. *)
Definition ee_getWorkerIdByPid (p : Z) (s : State) : option Z :=
  if negb (syncWorker s) then None
  else
    List.find
      (fun i =>
         match workerMap s !! i with
         | Some wd => p =? pid wd
         | None => false
         end)
      (for_in (workerMap s)).

End Enumeration.

(** [ee.getWorkerPidById]; [None] is [null]. *)
Definition ee_getWorkerPidById (i : Z) (s : State) : option Z :=
  if negb (syncWorker s) then None
  else
    match workerMap s !! i with
    | Some wd => Some (pid wd)
    | None => None
    end.

Section Send.

(** [msg.createMsgData(command, workerId, msgData)], of [lib/msg], and
    the id of [cluster.worker]; in a process that is not a worker,
    [cluster.worker] is undefined. *)
Variable createMsgData : string -> option Z -> JsVal -> Envelope.
Variable cluster_worker : option Z.

(** [data.from = v] *)
Definition set_from (v : JsVal) (data : Envelope) : Envelope :=
  {| command := command data; error := error data; sig := sig data;
     map := map data; from := v; msg := msg data |}.

(** [ee.send(workerId, msgData)]; [workerId] is [None] when null or
    undefined, and the id 0 is falsy. *)
Definition ee_send (workerId : option Z) (msgData : JsVal) : M bool :=
  let data := createMsgData CMD_MSG workerId msgData in
  let! master := gets isMaster in
  if master then
    let! targetWorker :=
      gets (fun s =>
              match workerId with
              | Some i => lookup_worker i s
              | None => None
              end) in
    let given :=
      match workerId with Some i => negb (i =? 0) | None => false end in
    if given && negb (bool_decide (is_Some targetWorker)) then
      log LError "Message target worker no longer exists" >>
      ret false
    else
      out (Send (set_from (JStr MASTER) data) targetWorker) >>
      ret true
  else
    match cluster_worker with
    | None => halt (Threw "TypeError")
    | Some id =>
        out (Send (set_from (JNum id) data) None) >>
        ret true
    end.

End Send.

(** ** Observations on a history *)

(** The tasks called, in order. *)
Definition tasksRun (h : list Output) : list TaskId :=
  omap (fun o => match o with RunTask _ t => Some t | _ => None end) h.

(** The events published on [ee], in order. *)
Definition emitted (event : string) (h : list Output) : list (list JsVal) :=
  omap (fun o =>
          match o with
          | Emit e args => if String.eqb e event then Some args else None
          | _ => None
          end) h.

(** The workers forked, in order. *)
Definition forked (h : list Output) : list Worker :=
  omap (fun o => match o with Fork w => Some w | _ => None end) h.

(** The envelopes handed to [msg.send], in order. *)
Definition sent (h : list Output) : list Envelope :=
  omap (fun o => match o with Send e _ => Some e | _ => None end) h.

(** The lines logged at one level, in order. *)
Definition logged (lvl : Level) (h : list Output) : list string :=
  omap (fun o =>
          match o with
          | Log l text =>
              match l, lvl with
              | LInfo, LInfo | LWarn, LWarn | LError, LError
              | LFatal, LFatal | LVerbose, LVerbose => Some text
              | _, _ => None
              end
          | _ => None
          end) h.

(** * The vocabulary of the properties *)

(** A log line. *)
Definition is_log (o : Output) : Prop :=
  match o with Log _ _ => True | _ => False end.

(** Outputs that are log lines only. *)
Definition quiet (h : list Output) : Prop := Forall is_log h.

(** A handler that returns, leaves the state as it was and only logs. *)
Definition noop (m : M unit) (s : State) : Prop :=
  exists o, m s = Ret tt s o /\ quiet o.

(** The handler returned, the state is exactly as it was, no envelope was
    sent, no worker forked and no event published. *)
Definition leaves_no_trace (s : State) (r : Res unit) : Prop :=
  stopped r = None /\
  final r = s /\
  sent (outputs r) = [] /\
  forked (outputs r) = [] /\
  forall event, emitted event (outputs r) = [].

(** The warning of the two message listeners. *)
Definition not_json : Output := Log LWarn "Message data not JSON".


(** [within R Q m]: however [m] ends, the state it leaves is related by [R]
    to the state it started from, and every output it made satisfies [Q]. *)
Definition within (R : State -> State -> Prop) (Q : Output -> Prop)
    {A} (m : M A) : Prop :=
  forall s, R s (final (m s)) /\ Forall Q (outputs (m s)).

(** The number of workers, the lock and the primary flag are as they were. *)
Definition same_setup (s s' : State) : Prop :=
  numOfWorkers s' = numOfWorkers s /\
  shutdownLock s' = shutdownLock s /\
  isMaster s' = isMaster s.

(** The lock and the primary flag, once set, are still set. *)
Definition keeps (s s' : State) : Prop :=
  (shutdownLock s = true -> shutdownLock s' = true) /\
  (isMaster s = true -> isMaster s' = true).

(** As [keeps], and the number of workers has not grown. *)
Definition calm (s s' : State) : Prop :=
  keeps s s' /\ numOfWorkers s' <= numOfWorkers s.

(** An output that is neither a fork nor an 'auto.spawn' event. *)
Definition spawns_nothing (o : Output) : Prop :=
  match o with
  | Fork _ => False
  | Emit e _ => if String.eqb e "auto.spawn" then False else True
  | _ => True
  end.

(** Any output. *)
Definition anything (o : Output) : Prop := True.

(** Log lines and sent envelopes. *)
Definition chatter (o : Output) : Prop :=
  match o with Log _ _ | Send _ _ => True | _ => False end.

(** An input other than a call of [ee.start]. *)
Definition not_start (i : Input) : Prop :=
  match i with CallStart _ => False | _ => True end.

(** What [q] has output since it was [p]. *)
Definition since (p q : Proc) : list Output :=
  drop (length (history p)) (history q).

(** The 'reload.reloading' event of one replacement: [worker.pid] is not a
    property of the worker object. *)
Definition reloading_alias (i : Z) : list JsVal := [JUndefined; JNum i].

(** Run [r] once [next] has been called [n] more times without an error and
    the series has moved on each time. *)
Definition advance (n : nat) (r : Run) : Run :=
  {| run_error := run_error r; run_sig := run_sig r;
     run_total := run_total r; run_counter := (n + run_counter r)%nat;
     run_rest := drop n (run_rest r); run_phase := AwaitTask |}.

(** Run [r] once [done] has handed over to the exit hook. *)
Definition hooked (code : Z) (r : Run) : Run :=
  {| run_error := run_error r; run_sig := run_sig r;
     run_total := run_total r; run_counter := run_counter r;
     run_rest := run_rest r; run_phase := AwaitHook code |}.

(** [code] of [done(error)] *)
Definition exit_code (err : JsVal) : Z := if truthy err then 1 else 0.

(** A value that [if (v)] takes for false: a call [next(v)] without an
    error. *)
Definition falsy (v : JsVal) : Prop := truthy v = false.

(** The inputs by which the tasks of run [k] call [next], one after the
    other, with these arguments. *)
Definition completions (k : nat) (errs : list JsVal) : list Input :=
  List.map (TaskCalledBack k) errs.

(** [taskList] of [shutdown]: the tasks that pass its filter. *)
Definition taskList (s : State) : list ShutdownTask :=
  List.filter (fun item => if ee_isMaster s then runOnMaster item else true)
    (shutdownTasks s).

(** The run a call [shutdown(e, sg)] sets up. *)
Definition new_run (e sg : JsVal) (s : State) : Run :=
  {| run_error := e; run_sig := sg; run_total := length (taskList s);
     run_counter := 0; run_rest := taskList s; run_phase := AwaitTask |}.

(** The task list as the specification words it: the tasks tagged
    [runOnMaster] when the process is a master with more than one worker,
    all tasks otherwise. *)
Definition taskList_as_specified (s : State) : list ShutdownTask :=
  if isMaster s && (1 <? numOfWorkers s)
  then List.filter runOnMaster (shutdownTasks s)
  else shutdownTasks s.

Section Vocabulary.

Variable host : Host.

(** The worker [cluster.fork()] makes in state [s]. *)
Definition nextWorker (s : State) : Worker :=
  {| worker_id := nextId s; worker_process_pid := fork_pid host (nextId s);
     worker_suicide := false |}.

(** The 'reload' event of one replacement. *)
Definition reloading_event (i : Z) : list JsVal :=
  [JStr "reloading"; JNum (fork_pid host i); JNum i].

(** Every input is the exit of a worker that is in [cluster.workers] when
    its turn comes. *)
Fixpoint live_exits (p : Proc) (inputs : list Input) : Prop :=
  match inputs with
  | [] => True
  | i :: rest =>
      (exists w code sig suicide,
         i = WorkerExited w code sig suicide /\
         is_Some (lookup_worker w (state p))) /\
      live_exits (step host p i) rest
  end.

(** The process once the exit hook, if one is registered, has called back. *)
Definition conclude (k : nat) (q : Proc) : Proc :=
  match onExit (state q) with
  | Some _ => step host q (HookCalledBack k)
  | None => q
  end.

End Vocabulary.

(** Every task that passes the filter has been called when the process has
    exited: what C2 states for the case of a failing task. *)
Definition every_task_ran_before_exit (before after : Proc) : Prop :=
  status after <> None ->
  forall item, In item (taskList (state before)) ->
    In (task item) (tasksRun (history after)).


(** The reload of a master with [n] workers has run as C6 words it: the
    'reload' events published from [before] to [after] are [n] reports of a
    replacement and then one of the completion, 'reload.complete' was
    published once, and the reload is over. *)
Definition reload_completed (n : nat) (before after : Proc) : Prop :=
  (exists progress,
     length progress = n /\
     Forall (fun args => head args = Some (JStr "reloading")) progress /\
     emitted "reload" (since before after) = progress ++ [[JStr "complete"]]) /\
  emitted "reload.complete" (since before after) = [[]] /\
  isReloading (state after) = false /\
  reloaded (state after) = 0.

(** ** More vocabulary *)

(** The envelope by which a process that is not the primary hands an exit
    request over to the master. *)
Definition forwarded (e sg : JsVal) : Output :=
  Send {| command := Some CMD_EXIT; error := serializeError e; sig := sg;
          map := ∅; from := JUndefined; msg := JUndefined |} None.

(** The workers that were sent an EXIT envelope, in order; [None] is a
    send without a target. *)
Definition told_to_exit (h : list Output) : list (option Worker) :=
  omap (fun o =>
          match o with
          | Send e target =>
              match command e with
              | Some c => if String.eqb c CMD_EXIT then Some target else None
              | None => None
              end
          | _ => None
          end) h.

(** The exit hooks called, in order. *)
Definition hooksRun (h : list Output) : list HookId :=
  omap (fun o => match o with RunExitHook _ f => Some f | _ => None end) h.

(** The worker exit does not call for a replacement: it was intentional, or
    [autoSpawn] is off, or the master is shutting down. *)
Definition no_respawn_due (s : State) (worker : Worker) : Prop :=
  worker_suicide worker = true \/ autoSpawn s = false \/ isShutdown s = true.

(** The rest of [handleWorkerExit] once the question of a replacement is
    settled, outside a reload. *)
Definition after_respawn (code : JsVal) : M unit :=
  let! none := noMoreWorkers in
  if none then
    log LInfo "No more workers running" >>
    let! down := gets isShutdown in
    when (down || truthy code)
      (log LInfo "All worker processes have disconnected" >>
       shutdown JNull code)
  else
    syncWorkerMap >>
    emitter_emit_workerExit.

(** Nothing differs but the calls of [shutdown] in flight and the parked
    continuations of the series in [exit]. *)
Definition parks_only (s s' : State) : Prop :=
  s' = set_runs (runs s') (set_onceWorkerExit (onceWorkerExit s') s).

(** A handler that throws no exception, from any state. *)
Definition safe {A} (m : M A) : Prop :=
  forall s what, stopped (m s) <> Some (Threw what).

(** The worker object as the cluster module hands it to the 'exit'
    listeners: [w] with [suicide] set or not. *)
Definition departing (w : Worker) (suicide : bool) : Worker :=
  {| worker_id := worker_id w; worker_process_pid := worker_process_pid w;
     worker_suicide := suicide |}.

(** The outputs of the series of run [k] over [items], as long as no task
    reports a failure: each task is announced at level [lvl] and called. *)
Definition task_calls (lvl : Level) (k : nat) (items : list ShutdownTask)
    : list Output :=
  flat_map (fun item => [Log lvl "Execute shutdown task"; RunTask k (task item)])
    items.

(** The outputs of [done] of run [k] when the exit hook [h] is registered. *)
Definition done_outputs (e sg : JsVal) (code : Z) (k : nat) (h : HookId)
    : list Output :=
  [Log (printLevel e) "Exit"] ++
  (if truthy e then [Log (printLevel e) "errorShutdown"] else []) ++
  [Emit "exit" [JNum code; js_or sg JNull]; RunExitHook k h].

(** The input is the exit of worker [w], with whatever code and signal. *)
Definition departs (w : Worker) (i : Input) : Prop :=
  exists code sig suicide, i = WorkerExited (worker_id w) code sig suicide.

(** An output that addresses no other process: no envelope, no relay, no
    fork. *)
Definition local (o : Output) : Prop :=
  match o with Send _ _ | Relay _ _ | Fork _ => False | _ => True end.

(** Nothing differs but [cluster.workers], [workerMap] and the parked
    continuations of the series in [exit]. *)
Definition pool_only (s s' : State) : Prop :=
  s' = set_onceWorkerExit (onceWorkerExit s')
         (set_workerMap (workerMap s')
            (set_cluster_workers (cluster_workers s') s)).

(** A master in the middle of a graceful shutdown: it is shutting down, the
    workers [ws] are left, the first of them has been told to exit, and the
    series over the worker ids is parked with the ids of the others. *)
Definition draining (e : JsVal) (ws : list Worker) (p : Proc) : Prop :=
  status p = None /\
  isShutdown (state p) = true /\
  isReloading (state p) = false /\
  clusterExitListeners (state p) = 1%nat /\
  cluster_workers (state p) = ws /\
  onceWorkerExit (state p) =
    [{| ec_keys := List.map worker_id (tail ws); ec_error := e |}] /\
  NoDup (List.map worker_id ws).

(** What a process never takes back: the registered tasks stay registered,
    in their order; the shutdown flag and the exit hook, once set, stay set;
    the listeners stay registered; the worker ids, the clock readings and
    the calls of [shutdown] are counted upwards. *)
Definition grows (s s' : State) : Prop :=
  shutdownTasks s `prefix_of` shutdownTasks s' /\
  (isShutdown s = true -> isShutdown s' = true) /\
  (is_Some (onExit s) -> is_Some (onExit s')) /\
  (processListeners s <= processListeners s')%nat /\
  nextId s <= nextId s' /\
  (length (runs s) <= length (runs s'))%nat.

(** The worker has an entry in [workerMap], with its pid. *)
Definition recorded (s : State) (w : Worker) : Prop :=
  exists wd, workerMap s !! worker_id w = Some wd /\ pid wd = worker_process_pid w.

(** The books of a master are in order: [workerMap] has an entry for every
    worker in [cluster.workers], with the worker's pid, and no other entry;
    the ids of the workers are distinct, positive and below the cluster
    module's counter; the ids in [gone] are below the counter and belong to
    no worker.  The process listens to the exits of its workers, once, and
    to no master. *)
Definition registry (gone : list Z) (s : State) : Prop :=
  messageListeners s = 0%nat /\
  clusterExitListeners s = 1%nat /\
  Forall (recorded s) (cluster_workers s) /\
  (forall i, is_Some (workerMap s !! i) ->
             i ∈ List.map worker_id (cluster_workers s)) /\
  NoDup (List.map worker_id (cluster_workers s)) /\
  0 < nextId s /\
  Forall (fun w => 0 < worker_id w < nextId s) (cluster_workers s) /\
  Forall (fun i => i < nextId s /\ i ∉ List.map worker_id (cluster_workers s)) gone.

(** A handler under which the books stay in order. *)
Definition settles (s s' : State) : Prop :=
  forall gone, registry gone s -> registry gone s'.

(** The workers that were sent a RELOAD envelope, in order. *)
Definition told_to_reload (h : list Output) : list (option Worker) :=
  omap (fun o =>
          match o with
          | Send e target =>
              match command e with
              | Some c => if String.eqb c CMD_RELOAD then Some target else None
              | None => None
              end
          | _ => None
          end) h.

(** A master in the middle of a reload: of the workers it had when the
    reload began, [olds] are left, ahead of the workers forked since; the
    first of them has been told to reload, and the series over the worker
    ids is parked with the ids of the others. *)
Definition rolling (olds : list Worker) (p : Proc) : Prop :=
  status p = None /\
  isReloading (state p) = true /\
  clusterExitListeners (state p) = 1%nat /\
  (exists news, cluster_workers (state p) = olds ++ news) /\
  onceReloaded (state p) = [List.map worker_id (tail olds)] /\
  NoDup (List.map worker_id (cluster_workers (state p))) /\
  Forall (fun w => worker_id w < nextId (state p)) (cluster_workers (state p)) /\
  reloaded (state p) + Z.of_nat (length olds) <= numOfWorkers (state p).

(** A call of [ee.addShutdownTask], and the element it adds to
    [shutdownTasks], if any. *)
Definition register (call : option TaskId * option bool) : Input :=
  CallAddShutdownTask (fst call) (snd call).

Definition registered (call : option TaskId * option bool) : option ShutdownTask :=
  match fst call with
  | Some f =>
      Some {| task := f;
              runOnMaster := match snd call with None => true | Some b => b end |}
  | None => None
  end.

Section MoreVocabulary.

Variable host : Host.

(** The calls of [exit] an input leads to: its two arguments. *)
Definition exit_request (i : Input) : option (JsVal * JsVal) :=
  match i with
  | CallStop err =>
      Some (err, if truthy err then CODES_FATAL_ERROR host else CODES_EXPECTED host)
  | Signalled SigInt => Some (JNull, JStr SIGINT)
  | Signalled SigQuit => Some (JNull, JStr SIGQUIT)
  | Signalled SigTerm => Some (JNull, JStr SIGTERM)
  | _ => None
  end.

(** How many times the input calls [exit]: once for [stop], once per
    registered listener for a signal. *)
Definition exit_calls (s : State) (i : Input) : nat :=
  match i with
  | CallStop _ => 1%nat
  | _ => processListeners s
  end.

(** The worker [cluster.fork()] returns when the cluster module's counter
    stands at [i]. *)
Definition worker_numbered (i : Z) : Worker :=
  {| worker_id := i; worker_process_pid := fork_pid host i;
     worker_suicide := false |}.

(** The state after one call of [createWorker]. *)
Definition with_new_worker (s : State) : State :=
  set_workerMap
    (<[nextId s := {| started := clock host (ticks s);
                      pid := fork_pid host (nextId s) |}]> (workerMap s))
    (set_ticks (S (ticks s))
       (set_nextId (nextId s + 1)
          (set_cluster_workers
             (cluster_workers s ++ [worker_numbered (nextId s)]) s))).

(** The state after [n] calls of [createWorker]. *)
Fixpoint pool (n : nat) (s : State) : State :=
  match n with
  | O => s
  | S n' => pool n' (with_new_worker s)
  end.

(** The value a listener goes on with: what [JSON.parse] has made of the
    payload, or the payload itself when [JSON.parse] has thrown. *)
Definition received (data : Payload) : Json :=
  match JSON_parse host (ToString data) with
  | Some parsed => parsed
  | None => unparsed data
  end.

(** The value the listener of an inbound message goes on with is not
    [null]. *)
Definition parses (i : Input) : Prop :=
  match i with
  | WorkerMessage _ data | MasterMessage data => received data <> JsonNull
  | _ => True
  end.

(** The input asks the primary to exit, by one call [exit(e, sg)]: a call
    of [stop], a signal with one listener registered, or the EXIT envelope
    of a worker, which stands for the signal SIGTERM when it names none. *)
Definition requests_exit (s : State) (i : Input) (e sg : JsVal) : Prop :=
  (exit_request i = Some (e, sg) /\ exit_calls s i = 1%nat) \/
  (exists j data d,
     i = WorkerMessage j data /\
     is_Some (lookup_worker j s) /\
     received data = JsonObj d /\
     command d = Some CMD_EXIT /\
     e = error d /\ sg = js_or (sig d) (JStr SIGTERM)).

End MoreVocabulary.

(** * The processes of the scenarios *)

(** The double quote character. *)
Definition quote : string := String (Ascii.ascii_of_nat 34) EmptyString.

(** The EXIT envelope on the wire. *)
Definition exit_document : string :=
  "{" +:+ quote +:+ "command" +:+ quote +:+ ":" +:+ quote +:+ CMD_EXIT +:+ quote +:+ "}".

(** A [JSON.parse] that knows two documents, [null] and the EXIT envelope,
    and throws on anything else. *)
Definition demo_parse (data : string) : option Json :=
  if String.eqb data "null" then Some JsonNull
  else if String.eqb data exit_document then Some (JsonObj (envelope CMD_EXIT))
  else None.

(** A host to run scenarios on: four CPUs, pids counted from 4000, a clock
    that moves [tick] milliseconds between two readings, [FATAL_ERROR = 1]
    and [EXPECTED = 0]. *)
Definition demo (primary : bool) (tick : Z) : Host :=
  {| MAX := 4; cluster_isMaster := primary; process_pid := 4000;
     fork_pid := fun i => 4000 + i; clock := fun n => tick * Z.of_nat n;
     JSON_parse := demo_parse;
     CODES_FATAL_ERROR := JNum 1; CODES_EXPECTED := JNum 0 |}.

(** [{ max: n, autoSpawn: respawn }] *)
Definition config (n : Z) (respawn : bool) : option Config :=
  Some {| max := Some n; cfg_autoSpawn := Some respawn; sync := None |}.

(** An [Error]. *)
Definition boom : JsVal := JObj (Some "boom") (Some "at main").

(** The primary started standalone with one task, seven, registered. *)
Definition standalone_with_task : Proc :=
  run (demo true 1) boot [CallStart (config 0 false); CallAddShutdownTask (Some 7%nat) None].

(** The primary started standalone with two tasks, seven and eight. *)
Definition standalone_with_two_tasks : Proc :=
  run (demo true 1) boot
    [CallStart (config 0 false); CallAddShutdownTask (Some 7%nat) None;
     CallAddShutdownTask (Some 8%nat) None].

(** The primary started with [max = 1] and two tasks: seven, registered
    with [runOnMaster = false], and eight, with the default. *)
Definition single_worker_master : Proc :=
  run (demo true 1) boot
    [CallStart (config 1 false);
     CallAddShutdownTask (Some 7%nat) (Some false);
     CallAddShutdownTask (Some 8%nat) None].

(** A master of two workers, with one task and an exit hook, whose workers
    both die with code 1; then [stop()] is called while the task is still
    running; then both calls of the task complete. *)
Definition stop_during_crash_shutdown : list Input :=
  [CallStart (config 2 false);
   CallAddShutdownTask (Some 7%nat) None;
   CallOnExit (Some 0%nat);
   WorkerExited 1 (JNum 1) JNull false;
   WorkerExited 2 (JNum 1) JNull false;
   CallStop JUndefined;
   TaskCalledBack 0 JUndefined;
   TaskCalledBack 1 JUndefined].

(** A master of four workers with [autoSpawn] on, on a clock that moves
    [tick] milliseconds between readings. *)
Definition four_workers (tick : Z) : Proc :=
  run (demo true tick) boot [CallStart (config 4 true)].

(** The first worker the master forks on that host. *)
Definition first_worker : Worker :=
  {| worker_id := 1; worker_process_pid := 4001; worker_suicide := false |}.

(** A master of two workers. *)
Definition two_workers : Proc :=
  run (demo true 1) boot [CallStart (config 2 false)].

(** A worker process: started with [max = 2] where [cluster.isMaster] is
    false. *)
Definition worker_process : Proc :=
  run (demo false 1) boot [CallStart (config 2 false)].

(** The second worker forked on that host. *)
Definition second_worker : Worker :=
  {| worker_id := 2; worker_process_pid := 4002; worker_suicide := false |}.





(** The standalone process above with an exit hook, three. *)
Definition standalone_with_hook : Proc :=
  run (demo true 1) standalone_with_task [CallOnExit (Some 3%nat)].


(** A master started for three workers, without [autoSpawn], whose first
    worker has exited. *)
Definition one_worker_missing : Proc :=
  run (demo true 1) boot
    [CallStart (config 3 false); WorkerExited 1 (JNum 0) JNull true].

(** * Properties *)

(** Unfolds the plumbing of [M] so that a handler applied to a state
    computes. *)
Ltac run_handler :=
  cbv beta delta
    [bind ret gets modify out halt log emit when final outputs stopped] in *;
  cbn in *.

(** ** Running a handler step by step *)

Lemma final_prefix {A} (o : list Output) (r : Res A) : final (prefix o r) = final r.
Proof. destruct r; reflexivity. Qed.

Lemma outputs_prefix {A} (o : list Output) (r : Res A) :
  outputs (prefix o r) = o ++ outputs r.
Proof. destruct r; reflexivity. Qed.

Lemma stopped_prefix {A} (o : list Output) (r : Res A) :
  stopped (prefix o r) = stopped r.
Proof. destruct r; reflexivity. Qed.

Lemma prefix_nil {A} (r : Res A) : prefix [] r = r.
Proof. destruct r; reflexivity. Qed.

Lemma prefix_prefix {A} (o1 o2 : list Output) (r : Res A) :
  prefix o1 (prefix o2 r) = prefix (o1 ++ o2) r.
Proof. destruct r; cbn; rewrite app_assoc; reflexivity. Qed.

Lemma bind_Ret {A B} (m : M A) (f : A -> M B) s x s1 o1 :
  m s = Ret x s1 o1 -> bind m f s = prefix o1 (f x s1).
Proof. intros E. unfold bind. rewrite E. reflexivity. Qed.

Lemma bind_Halt {A B} (m : M A) (f : A -> M B) s w s1 o1 :
  m s = Halt w s1 o1 -> bind m f s = Halt w s1 o1.
Proof. intros E. unfold bind. rewrite E. reflexivity. Qed.

Lemma bind_bind {A B C} (m : M A) (f : A -> M B) (g : B -> M C) s :
  bind (bind m f) g s = bind m (fun x => bind (f x) g) s.
Proof.
  unfold bind. destruct (m s) as [x s1 o1 | w s1 o1]; [|reflexivity].
  destruct (f x s1) as [y s2 o2 | w s2 o2]; cbn; [|reflexivity].
  symmetry. apply prefix_prefix.
Qed.

Lemma bind_ret {A B} (x : A) (f : A -> M B) s : bind (ret x) f s = f x s.
Proof. unfold bind, ret. apply prefix_nil. Qed.

Lemma bind_gets {A B} (g : State -> A) (f : A -> M B) s :
  bind (gets g) f s = f (g s) s.
Proof. unfold bind, gets. apply prefix_nil. Qed.

Lemma bind_unit (m : M unit) (s : State) : bind m (fun _ => ret tt) s = m s.
Proof.
  unfold bind. destruct (m s) as [[] s1 o1 | w s1 o1]; cbn;
    rewrite ?app_nil_r; reflexivity.
Qed.

Lemma bind_modify {B} (g : State -> State) (f : unit -> M B) s :
  bind (modify g) f s = f tt (g s).
Proof. unfold bind, modify. apply prefix_nil. Qed.

Lemma bind_out {B} (o : Output) (f : unit -> M B) s :
  bind (out o) f s = prefix [o] (f tt s).
Proof. reflexivity. Qed.

Lemma bind_log {B} lvl text (f : unit -> M B) s :
  bind (log lvl text) f s = prefix [Log lvl text] (f tt s).
Proof. reflexivity. Qed.

Lemma bind_emit {B} event args (f : unit -> M B) s :
  bind (emit event args) f s = prefix [Emit event args] (f tt s).
Proof. reflexivity. Qed.

Lemma bind_halt {A B} (w : Stop) (f : A -> M B) s :
  bind (halt w) f s = Halt w s [].
Proof. reflexivity. Qed.

Lemma bind_Date_now {B} host (f : Z -> M B) s :
  bind (Date_now host) f s = f (clock host (ticks s)) (set_ticks (S (ticks s)) s).
Proof. unfold bind, Date_now. apply prefix_nil. Qed.

Lemma bind_cluster_fork {B} host (f : Worker -> M B) s :
  bind (cluster_fork host) f s =
  let w := {| worker_id := nextId s;
              worker_process_pid := fork_pid host (nextId s);
              worker_suicide := false |} in
  prefix [Fork w]
    (f w (set_nextId (nextId s + 1)
            (set_cluster_workers (cluster_workers s ++ [w]) s))).
Proof. reflexivity. Qed.

Lemma tasksRun_app h1 h2 : tasksRun (h1 ++ h2) = tasksRun h1 ++ tasksRun h2.
Proof. apply omap_app. Qed.

Lemma emitted_app event h1 h2 :
  emitted event (h1 ++ h2) = emitted event h1 ++ emitted event h2.
Proof. apply omap_app. Qed.

Lemma forked_app h1 h2 : forked (h1 ++ h2) = forked h1 ++ forked h2.
Proof. apply omap_app. Qed.

Lemma sent_app h1 h2 : sent (h1 ++ h2) = sent h1 ++ sent h2.
Proof. apply omap_app. Qed.

#[local] Arguments bind : simpl never.
#[local] Arguments when !b m.

(** One step of the handler at the head of the goal. *)
Ltac exec_step :=
  first
    [ rewrite bind_bind
    | rewrite bind_ret
    | rewrite bind_gets
    | rewrite bind_modify
    | rewrite bind_out
    | rewrite bind_log
    | rewrite bind_emit
    | rewrite bind_halt
    | rewrite bind_Date_now
    | rewrite bind_cluster_fork
    | rewrite prefix_prefix ];
  cbv beta zeta.

Ltac exec := repeat (repeat exec_step; cbn).

(** ** Start-up *)

Section Startup.

Variable host : Host.

(** C9.  Starting with [max = 0], in any process and from any state,
    publishes exactly one 'cluster' event, with state 'non.ready', and
    exactly one 'cluster.non.ready' event, forks nothing and does not stop
    the process; afterwards [isCluster()] and [isMaster()] both return
    false. *)
Theorem start_max_zero_is_standalone (s : State) (a b : option bool) :
  let r := ee_start host (Some {| max := Some 0; cfg_autoSpawn := a; sync := b |}) s in
  emitted "cluster" (outputs r) = [[JStr "non.ready"]] /\
  emitted "cluster.non.ready" (outputs r) = [[]] /\
  forked (outputs r) = [] /\
  stopped r = None /\
  ee_isCluster (final r) = false /\
  ee_isMaster (final r) = false.
Proof.
  unfold ee_start, start, startListeners, startClusterMode, ee_isCluster, ee_isMaster.
  run_handler.
  destruct (cluster_isMaster host); run_handler.
  - repeat split; reflexivity.
  - destruct (isMaster s) eqn:E; run_handler; rewrite ?E; run_handler;
      rewrite ?E; repeat split; reflexivity.
Qed.

(** C10.  Starting with [max = 1] in the primary process forks no worker and
    publishes the same two non-ready events as the standalone start, and yet
    [isCluster()] and [isMaster()] both return true afterwards. *)
Theorem start_max_one_is_master_without_workers (s : State) (a b : option bool) :
  cluster_isMaster host = true ->
  let r := ee_start host (Some {| max := Some 1; cfg_autoSpawn := a; sync := b |}) s in
  forked (outputs r) = [] /\
  cluster_workers (final r) = cluster_workers s /\
  emitted "cluster" (outputs r) = [[JStr "non.ready"]] /\
  emitted "cluster.non.ready" (outputs r) = [[]] /\
  emitted "cluster.master.ready" (outputs r) = [] /\
  stopped r = None /\
  ee_isCluster (final r) = true /\
  ee_isMaster (final r) = true.
Proof.
  intros primary.
  unfold ee_start, start, startListeners, startClusterMode, ee_isCluster, ee_isMaster.
  run_handler. rewrite primary. run_handler.
  repeat split; reflexivity.
Qed.

End Startup.

(** ** Histories made of log lines only *)

Lemma quiet_nil : quiet [].
Proof. constructor. Qed.

Lemma quiet_log lvl text : quiet [Log lvl text].
Proof. repeat constructor. Qed.

Lemma quiet_app h1 h2 : quiet h1 -> quiet h2 -> quiet (h1 ++ h2).
Proof. apply Forall_app_2. Qed.

Lemma quiet_sent h : quiet h -> sent h = [].
Proof.
  induction 1 as [|o h Ho _ IH]; [reflexivity|].
  destruct o; try contradiction. exact IH.
Qed.

Lemma quiet_emitted event h : quiet h -> emitted event h = [].
Proof.
  induction 1 as [|o h Ho _ IH]; [reflexivity|].
  destruct o; try contradiction. exact IH.
Qed.

Lemma quiet_forked h : quiet h -> forked h = [].
Proof.
  induction 1 as [|o h Ho _ IH]; [reflexivity|].
  destruct o; try contradiction. exact IH.
Qed.

Lemma quiet_tasksRun h : quiet h -> tasksRun h = [].
Proof.
  induction 1 as [|o h Ho _ IH]; [reflexivity|].
  destruct o; try contradiction. exact IH.
Qed.

Create HintDb quiet.
#[local] Hint Resolve quiet_nil quiet_log quiet_app : quiet.

Lemma noop_repeatM (m : M unit) (s : State) (n : nat) :
  noop m s -> noop (repeatM n m) s.
Proof.
  intros (o & Hm & Ho). induction n as [|n (o' & IH & Ho')].
  - exists []. split; [reflexivity | auto with quiet].
  - exists (o ++ o'). split; [| auto with quiet].
    cbn. unfold bind. rewrite Hm, IH. reflexivity.
Qed.

(** ** A reload trigger outside the master *)

Section Reload.

Variable host : Host.

Lemma reload_noop (s : State) : ee_isMaster s = false -> noop reload s.
Proof.
  unfold ee_isMaster, noop, reload. intros role. run_handler.
  destruct (isMaster s); run_handler.
  - destruct (numOfWorkers s =? 0); [|discriminate]. run_handler.
    eexists. split; [reflexivity | auto with quiet].
  - eexists. split; [reflexivity | auto with quiet].
Qed.

Lemma noop_leaves_no_trace (m : M unit) (s : State) :
  noop m s -> leaves_no_trace s (m s).
Proof.
  intros (o & Hr & Ho). rewrite Hr. unfold leaves_no_trace. cbn.
  repeat split; intros;
    [apply quiet_sent | apply quiet_forked | apply quiet_emitted]; exact Ho.
Qed.

(** C7.  In a process whose role is not Master ([isMaster()] is false: a
    worker, or a standalone process), a call of [reload] and a hang-up
    signal, whatever the number of listeners [start] has registered, return
    with the state exactly as it was: no reload state changes; they send no
    envelope and publish no event. *)
Theorem reload_outside_master_is_noop (s : State) :
  ee_isMaster s = false ->
  leaves_no_trace s (reload s) /\
  leaves_no_trace s (handle host (Signalled SigHup) s).
Proof.
  intros role. split; apply noop_leaves_no_trace.
  - apply reload_noop, role.
  - destruct (noop_repeatM reload s (processListeners s)
                (reload_noop s role)) as (o & Hr & Ho).
    exists o. split; [| exact Ho].
    cbn. unfold bind, gets. rewrite Hr. reflexivity.
Qed.

End Reload.

(** ** Malformed messages *)

Section Messages.

Variable host : Host.

Lemma repeatM_constant (m : M unit) (s : State) (o : Output) (n : nat) :
  m s = Ret tt s [o] -> repeatM n m s = Ret tt s (replicate n o).
Proof.
  intros Hm. induction n as [|n IH]; [reflexivity|].
  cbn. unfold bind. rewrite Hm, IH. reflexivity.
Qed.



Lemma parse_or_keep_received (data : Payload) (s : State) :
  exists o, quiet o /\ parse_or_keep host data s = Ret (received host data) s o.
Proof.
  unfold parse_or_keep, received.
  destruct (JSON_parse host (ToString data)).
  - exists []. split; [constructor | reflexivity].
  - exists [not_json]. split; [repeat constructor | reflexivity].
Qed.













End Messages.

(** ** Effect summaries *)

Section Within.

Context (R : State -> State -> Prop) `{!PreOrder R} (Q : Output -> Prop).

Lemma within_ret {A} (x : A) : within R Q (ret x).
Proof. intros s. split; [reflexivity | constructor]. Qed.

Lemma within_gets {A} (f : State -> A) : within R Q (gets f).
Proof. intros s. split; [reflexivity | constructor]. Qed.

Lemma within_halt {A} (w : Stop) : within R Q (halt (A:=A) w).
Proof. intros s. split; [reflexivity | constructor]. Qed.

Lemma within_modify (f : State -> State) :
  (forall s, R s (f s)) -> within R Q (modify f).
Proof. intros Hf s. split; [apply Hf | constructor]. Qed.

Lemma within_out (o : Output) : Q o -> within R Q (out o).
Proof. intros Ho s. split; [reflexivity | repeat constructor; exact Ho]. Qed.

Lemma within_bind {A B} (m : M A) (f : A -> M B) :
  within R Q m -> (forall x, within R Q (f x)) -> within R Q (bind m f).
Proof.
  intros Hm Hf s. unfold bind.
  destruct (Hm s) as [Rm Qm]. destruct (m s) as [x s1 o1 | w s1 o1]; cbn in *.
  - destruct (Hf x s1) as [Rf Qf]. rewrite final_prefix, outputs_prefix.
    split; [etransitivity; eassumption | apply Forall_app_2; assumption].
  - split; assumption.
Qed.

Lemma within_when (b : bool) (m : M unit) :
  within R Q m -> within R Q (when b m).
Proof. destruct b; [trivial | intros _; apply within_ret]. Qed.

Lemma within_repeatM (n : nat) (m : M unit) :
  within R Q m -> within R Q (repeatM n m).
Proof.
  intros Hm. induction n as [|n IH]; cbn.
  - apply within_ret.
  - apply within_bind; [exact Hm | intros _; exact IH].
Qed.

Lemma within_forM {A} (l : list A) (f : A -> M unit) :
  (forall x, within R Q (f x)) -> within R Q (forM l f).
Proof.
  intros Hf. induction l as [|x l IH]; cbn.
  - apply within_ret.
  - apply within_bind; [apply Hf | intros _; exact IH].
Qed.

End Within.

Lemma within_weaken (R R' : State -> State -> Prop) (Q Q' : Output -> Prop)
    {A} (m : M A) :
  (forall s s', R s s' -> R' s s') -> (forall o, Q o -> Q' o) ->
  within R Q m -> within R' Q' m.
Proof.
  intros HR HQ Hm s. destruct (Hm s) as [H1 H2]. split.
  - apply HR, H1.
  - eapply Forall_impl; [exact H2 | exact HQ].
Qed.

(** Takes a handler apart along its structure; what is left are the
    assignments and the outputs, and the calls of other handlers. *)
Ltac within_step leaf :=
  lazymatch goal with
  | |- within _ _ (bind _ _) =>
      apply within_bind; [typeclasses eauto | | intros ?]
  | |- within _ _ (ret _) => apply within_ret; typeclasses eauto
  | |- within _ _ (gets _) => apply within_gets; typeclasses eauto
  | |- within _ _ (halt _) => apply within_halt; typeclasses eauto
  | |- within _ _ (modify _) => apply within_modify; intros ?; leaf
  | |- within _ _ (out _) => apply within_out; [typeclasses eauto | leaf]
  | |- within _ _ (log _ _) => apply within_out; [typeclasses eauto | leaf]
  | |- within _ _ (emit _ _) => apply within_out; [typeclasses eauto | leaf]
  | |- within _ _ (when _ _) => apply within_when; [typeclasses eauto |]
  | |- within _ _ (repeatM _ _) => apply within_repeatM; [typeclasses eauto |]
  | |- within _ _ (forM _ _) =>
      apply within_forM; [typeclasses eauto | intros ?]
  | |- within _ _ (if ?b then _ else _) => destruct b
  | |- within _ _ (match ?x with _ => _ end) => destruct x
  end.

(** ** What the handlers leave alone *)

#[local] Instance same_setup_preorder : PreOrder same_setup.
Proof.
  split.
  - intros s. repeat split.
  - intros a b c (H1 & H2 & H3) (H4 & H5 & H6). unfold same_setup. repeat split; congruence.
Qed.

#[local] Instance keeps_preorder : PreOrder keeps.
Proof.
  split.
  - intros s. split; trivial.
  - intros a b c (H1 & H2) (H3 & H4). split; auto.
Qed.

#[local] Instance calm_preorder : PreOrder calm.
Proof.
  split.
  - intros s. split; [reflexivity | lia].
  - intros a b c (H1 & H2) (H3 & H4). split; [etransitivity; eassumption | lia].
Qed.

Lemma same_setup_calm s s' : same_setup s s' -> calm s s'.
Proof. intros (H1 & H2 & H3). unfold calm, keeps. rewrite H1, H2, H3. repeat split; auto; lia. Qed.

Lemma calm_keeps s s' : calm s s' -> keeps s s'.
Proof. intros [H _]. exact H. Qed.

Lemma spawns_nothing_forked h : Forall spawns_nothing h -> forked h = [].
Proof.
  induction 1 as [|o h Ho _ IH]; [reflexivity|].
  destruct o; try contradiction; exact IH.
Qed.

Lemma spawns_nothing_emitted h :
  Forall spawns_nothing h -> emitted "auto.spawn" h = [].
Proof.
  induction 1 as [|o h Ho _ IH]; [reflexivity|].
  destruct o; cbn in *; try exact IH.
  destruct (String.eqb event "auto.spawn"); [contradiction | exact IH].
Qed.

Ltac leaf :=
  cbn; unfold same_setup, calm, keeps, anything; cbn;
  try tauto; try (intuition (auto; lia)).

Create HintDb handlers.

Ltac summarise :=
  repeat first [within_step ltac:(leaf) | solve [eauto with handlers]].

Lemma noMoreWorkers_quiet : within same_setup spawns_nothing noMoreWorkers.
Proof. unfold noMoreWorkers. summarise. Qed.
#[local] Hint Resolve noMoreWorkers_quiet : handlers.

Lemma process_exit_quiet code : within same_setup spawns_nothing (process_exit code).
Proof. unfold process_exit. summarise. Qed.
#[local] Hint Resolve process_exit_quiet : handlers.

Lemma shutdown_done_quiet k r err :
  within same_setup spawns_nothing (shutdown_done k r err).
Proof. unfold shutdown_done. summarise. Qed.
#[local] Hint Resolve shutdown_done_quiet : handlers.

Lemma eachSeries_tasks_quiet k r :
  within same_setup spawns_nothing (eachSeries_tasks k r).
Proof. unfold eachSeries_tasks. summarise. Qed.
#[local] Hint Resolve eachSeries_tasks_quiet : handlers.

Lemma shutdown_quiet e sg : within same_setup spawns_nothing (shutdown e sg).
Proof. unfold shutdown. summarise. Qed.
#[local] Hint Resolve shutdown_quiet : handlers.

Lemma task_callback_quiet k err :
  within same_setup spawns_nothing (task_callback k err).
Proof. unfold task_callback. summarise. Qed.

Lemma hook_callback_quiet k : within same_setup spawns_nothing (hook_callback k).
Proof. unfold hook_callback. summarise. Qed.
#[local] Hint Resolve task_callback_quiet hook_callback_quiet : handlers.

Lemma syncWorkerMap_quiet : within same_setup spawns_nothing syncWorkerMap.
Proof. unfold syncWorkerMap. summarise. Qed.
#[local] Hint Resolve syncWorkerMap_quiet : handlers.

Lemma eachSeries_exit_quiet c : within same_setup spawns_nothing (eachSeries_exit c).
Proof. unfold eachSeries_exit. summarise. Qed.
#[local] Hint Resolve eachSeries_exit_quiet : handlers.

Lemma emitter_emit_workerExit_quiet :
  within same_setup spawns_nothing emitter_emit_workerExit.
Proof. unfold emitter_emit_workerExit. summarise. Qed.
#[local] Hint Resolve emitter_emit_workerExit_quiet : handlers.

(** ** Nothing unlocks, nothing adds workers

    Every handler other than [ee.start] is [calm]; [ee.start] [keeps]. *)

Lemma quiet_calm {A} (m : M A) :
  within same_setup spawns_nothing m -> within calm anything m.
Proof.
  apply within_weaken; [apply same_setup_calm | intros; exact I].
Qed.

Lemma calm_within_keeps {A} (m : M A) :
  within calm anything m -> within keeps anything m.
Proof. apply within_weaken; [apply calm_keeps | trivial]. Qed.

#[local] Hint Resolve quiet_calm : handlers.

Section Calm.

Variable host : Host.

Lemma Date_now_calm : within calm anything (Date_now host).
Proof. intros s. split; [leaf | constructor]. Qed.

Lemma cluster_fork_calm : within calm anything (cluster_fork host).
Proof. intros s. split; [leaf | repeat constructor]. Qed.

Hint Resolve Date_now_calm cluster_fork_calm : handlers.

Lemma createWorker_calm : within calm anything (createWorker host).
Proof. unfold createWorker. summarise. Qed.
Hint Resolve createWorker_calm : handlers.

Lemma handleAutoSpawn_calm w wd code sg :
  within calm anything (handleAutoSpawn host w wd code sg).
Proof. unfold handleAutoSpawn. summarise. Qed.
Hint Resolve handleAutoSpawn_calm : handlers.

Lemma eachSeries_reload_calm keys : within calm anything (eachSeries_reload keys).
Proof. unfold eachSeries_reload. summarise. Qed.
Hint Resolve eachSeries_reload_calm : handlers.

Lemma emitter_emit_reloaded_calm : within calm anything emitter_emit_reloaded.
Proof. unfold emitter_emit_reloaded. summarise. Qed.
Hint Resolve emitter_emit_reloaded_calm : handlers.

Lemma handleReloading_calm : within calm anything (handleReloading host).
Proof. unfold handleReloading. summarise. Qed.
Hint Resolve handleReloading_calm : handlers.

Lemma handleWorkerExit_calm w code sg :
  within calm anything (handleWorkerExit host w code sg).
Proof. unfold handleWorkerExit. summarise. Qed.
Hint Resolve handleWorkerExit_calm : handlers.

Lemma reload_calm : within calm anything reload.
Proof. unfold reload. summarise. Qed.
Hint Resolve reload_calm : handlers.

Lemma exit_calm e sg : within calm anything (exit host e sg).
Proof. unfold exit. summarise. Qed.
Hint Resolve exit_calm : handlers.

Lemma onWorkerMessage_calm w data :
  within calm anything (onWorkerMessage host w data).
Proof. unfold onWorkerMessage, parse_or_keep. summarise. Qed.
Hint Resolve onWorkerMessage_calm : handlers.

Lemma onMasterMessage_calm data : within calm anything (onMasterMessage host data).
Proof. unfold onMasterMessage, parse_or_keep. summarise. Qed.
Hint Resolve onMasterMessage_calm : handlers.

Lemma startMaster_calm : within calm anything (startMaster host).
Proof. unfold startMaster. summarise. Qed.
Hint Resolve startMaster_calm : handlers.

Lemma start_calm : within calm anything (start host).
Proof. unfold start, startClusterMode, startListeners, startWorker. summarise. Qed.
Hint Resolve start_calm : handlers.

Lemma onSignal_calm sg : within calm anything (onSignal host sg).
Proof. unfold onSignal. summarise. Qed.
Hint Resolve onSignal_calm : handlers.

Lemma onClusterExit_calm i code sg suicide :
  within calm anything (onClusterExit host i code sg suicide).
Proof. unfold onClusterExit. summarise. Qed.
Hint Resolve onClusterExit_calm : handlers.

Lemma ee_start_keeps config : within keeps anything (ee_start host config).
Proof.
  unfold ee_start. summarise; apply calm_within_keeps; eauto with handlers.
Qed.

Lemma handle_calm i : not_start i -> within calm anything (handle host i).
Proof.
  destruct i; cbn; [| |contradiction| | | | | | |]; intros _;
    unfold ee_addShutdownTask, ee_onExit, ee_stop; summarise.
Qed.

Lemma handle_keeps i : within keeps anything (handle host i).
Proof.
  destruct i; try (apply calm_within_keeps, handle_calm; exact I).
  apply ee_start_keeps.
Qed.

Lemma step_keeps p i : keeps (state p) (state (step host p i)).
Proof.
  unfold step, perform. destruct (status p); [reflexivity|]. cbn. apply handle_keeps.
Qed.

Lemma step_calm p i : not_start i -> calm (state p) (state (step host p i)).
Proof.
  intros Hi. unfold step, perform. destruct (status p); [reflexivity|]. cbn.
  apply handle_calm, Hi.
Qed.

Lemma run_keeps inputs p : keeps (state p) (state (run host p inputs)).
Proof.
  revert p. induction inputs as [|i inputs IH]; intros p; cbn.
  - reflexivity.
  - etransitivity; [apply step_keeps | apply IH].
Qed.

Lemma run_calm inputs p :
  Forall not_start inputs -> calm (state p) (state (run host p inputs)).
Proof.
  intros H. revert p. induction H as [|i inputs Hi _ IH]; intros p; cbn.
  - reflexivity.
  - etransitivity; [apply step_calm, Hi | apply IH].
Qed.

End Calm.

(** ** Handlers that always return *)

Lemma chatter_spawns_nothing h : Forall chatter h -> Forall spawns_nothing h.
Proof. intros H. eapply Forall_impl; [exact H |]. intros []; cbn; tauto. Qed.

Lemma chatter_emitted event h : Forall chatter h -> emitted event h = [].
Proof.
  induction 1 as [|o h Ho _ IH]; [reflexivity|].
  destruct o; try contradiction; exact IH.
Qed.

Lemma chatter_forked h : Forall chatter h -> forked h = [].
Proof.
  induction 1 as [|o h Ho _ IH]; [reflexivity|].
  destruct o; try contradiction; exact IH.
Qed.

Lemma chatter_tasksRun h : Forall chatter h -> tasksRun h = [].
Proof.
  induction 1 as [|o h Ho _ IH]; [reflexivity|].
  destruct o; try contradiction; exact IH.
Qed.

Lemma syncWorkerMap_returns (s : State) :
  exists o, syncWorkerMap s = Ret tt s o /\ Forall chatter o.
Proof.
  unfold syncWorkerMap. exec. destruct (syncWorker s); exec.
  - eexists. split; [reflexivity | repeat constructor].
  - eexists. split; [reflexivity | constructor].
Qed.

Lemma set_onceReloaded_id (s : State) : set_onceReloaded (onceReloaded s) s = s.
Proof. destruct s; reflexivity. Qed.

Lemma forM_reload_returns (ls : list (list Z)) (s : State) :
  exists l o,
    forM ls eachSeries_reload s = Ret tt (set_onceReloaded l s) o /\
    Forall chatter o.
Proof.
  revert s. induction ls as [|keys ls IH]; intros s; cbn.
  - exists (onceReloaded s), []. rewrite set_onceReloaded_id.
    split; [reflexivity | constructor].
  - destruct keys as [|i rest]; unfold eachSeries_reload at 1; exec.
    + apply IH.
    + match goal with |- context [forM ls _ ?s1] =>
        destruct (IH s1) as (l & o & E & Ho); rewrite E end.
      exists l. eexists. split; [reflexivity | repeat constructor; exact Ho].
Qed.

Lemma emitter_emit_reloaded_returns (s : State) :
  exists l o,
    emitter_emit_reloaded s = Ret tt (set_onceReloaded l s) o /\
    Forall chatter o.
Proof.
  unfold emitter_emit_reloaded. exec.
  destruct (forM_reload_returns (onceReloaded s) (set_onceReloaded [] s))
    as (l & o & E & Ho).
  exists l, o. split; [exact E | exact Ho].
Qed.

(** ** Workers that exit unintentionally *)

Section AutoSpawn.

Variable host : Host.

(** C5.  [handleWorkerExit] for a worker that was in [workerMap], exited
    unintentionally ([worker.suicide] false), with [autoSpawn] on, no reload
    in flight and no shutdown in progress.  The uptime is [Date.now()] minus
    the [started] stamp of its entry.  Below [MIN_LIFE], [numOfWorkers] goes
    down by exactly one, nothing is forked and no 'auto.spawn' event is
    published; and the loss is permanent: whatever happens to the process
    afterwards, short of a new call of [ee.start], [numOfWorkers] does not
    come back up.  At [MIN_LIFE] or above, exactly one worker is forked,
    exactly one 'auto.spawn' event is published, carrying its pid and id, and
    [numOfWorkers] is unchanged. *)
Theorem unintentional_exit_respawn_policy
    (s : State) (worker : Worker) (wd : WorkerData) (code sig : JsVal) :
  workerMap s !! worker_id worker = Some wd ->
  worker_suicide worker = false ->
  autoSpawn s = true -> isReloading s = false -> isShutdown s = false ->
  let uptime := clock host (ticks s) - started wd in
  let replacement :=
    {| worker_id := nextId s; worker_process_pid := fork_pid host (nextId s);
       worker_suicide := false |} in
  let r := handleWorkerExit host worker code sig s in
  (uptime < MIN_LIFE ->
     numOfWorkers (final r) = numOfWorkers s - 1 /\
     forked (outputs r) = [] /\
     emitted "auto.spawn" (outputs r) = [] /\
     forall p inputs, state p = final r -> Forall not_start inputs ->
       numOfWorkers (state (run host p inputs)) <= numOfWorkers s - 1) /\
  (MIN_LIFE <= uptime ->
     numOfWorkers (final r) = numOfWorkers s /\
     forked (outputs r) = [replacement] /\
     emitted "auto.spawn" (outputs r) =
       [[JNum (fork_pid host (nextId s)); JNum (nextId s)]]).
Proof.
  intros entry unintended auto idle up uptime replacement r.
  assert (tail : forall k, k = (fun none : bool =>
      if none
      then log LInfo "No more workers running" >>
           let! down := gets isShutdown in
           when (down || truthy code)
             (log LInfo "All worker processes have disconnected" >>
              shutdown JNull code)
      else syncWorkerMap >> emitter_emit_workerExit) ->
    within same_setup spawns_nothing (bind noMoreWorkers k)).
  { intros k ->. summarise. }
  remember (handleWorkerExit host worker code sig s) as r0 eqn:Er. subst r.
  unfold handleWorkerExit, handleAutoSpawn in Er.
  revert Er. exec. rewrite idle. exec. rewrite unintended, auto. exec.
  rewrite up. exec. rewrite entry. exec.
  intros ->. split; intros life.
  - apply Z.ltb_lt in life. fold uptime. rewrite life. exec.
    rewrite final_prefix, outputs_prefix, forked_app, emitted_app.
    edestruct (tail _ eq_refl) as [(same & _) quiet]. rewrite same. clear same.
    rewrite (spawns_nothing_forked _ quiet), (spawns_nothing_emitted _ quiet).
    repeat split.
    intros p inputs start_state later.
    destruct (run_calm host inputs p later) as [_ le].
    rewrite start_state in le.
    edestruct (tail _ eq_refl) as [(same & _) _]. rewrite same in le. exact le.
  - apply Z.ltb_ge in life. fold uptime. rewrite life.
    unfold createWorker. exec.
    match goal with |- context [bind syncWorkerMap ?k ?s2] =>
      destruct (syncWorkerMap_returns s2) as (o & E & chat);
      rewrite (bind_Ret syncWorkerMap k s2 tt s2 o E) end.
    exec.
    rewrite final_prefix, outputs_prefix, forked_app, emitted_app.
    edestruct (tail _ eq_refl) as [(same & _) quiet]. rewrite same. clear same.
    rewrite (spawns_nothing_forked _ quiet), (spawns_nothing_emitted _ quiet).
    pose proof (chatter_forked _ chat) as no_fork.
    pose proof (chatter_emitted "auto.spawn" _ chat) as no_event.
    cbn. unfold forked, emitted in *. cbn.
    rewrite !omap_app, no_fork, no_event.
    repeat split.
Qed.

End AutoSpawn.

(** ** The rolling reload *)

Section Reloading.

Variable host : Host.

(** One replacement: a worker exits while [isReloading] is set. *)
Lemma handleWorkerExit_reloading (s : State) (worker : Worker) (code sig : JsVal) :
  isReloading s = true ->
  let last := reloaded s + 1 =? numOfWorkers s in
  exists s' o,
    handleWorkerExit host worker code sig s = Ret tt s' o /\
    numOfWorkers s' = numOfWorkers s /\
    clusterExitListeners s' = clusterExitListeners s /\
    nextId s' = nextId s + 1 /\
    cluster_workers s' = cluster_workers s ++ [nextWorker host s] /\
    isReloading s' = negb last /\
    reloaded s' = (if last then 0 else reloaded s + 1) /\
    emitted "reload" o =
      reloading_event host (nextId s) :: (if last then [[JStr "complete"]] else []) /\
    emitted "reload.reloading" o = [[JUndefined; JNum (nextId s)]] /\
    emitted "reload.complete" o = (if last then [[]] else []) /\
    forked o = [nextWorker host s].
Proof.
  intros busy last.
  unfold handleWorkerExit. exec. rewrite busy.
  unfold handleReloading, createWorker. exec.
  match goal with |- context [bind syncWorkerMap ?k ?s2] =>
    destruct (syncWorkerMap_returns s2) as (o1 & E1 & chat1);
    rewrite (bind_Ret syncWorkerMap k s2 tt s2 o1 E1) end.
  exec.
  match goal with |- context [bind emitter_emit_reloaded ?k ?s2] =>
    destruct (emitter_emit_reloaded_returns s2) as (l & o2 & E2 & chat2);
    rewrite (bind_Ret emitter_emit_reloaded k s2 tt _ o2 E2) end.
  exec. fold last.
  pose proof (chatter_emitted "reload" _ chat1) as R1.
  pose proof (chatter_emitted "reload" _ chat2) as R2.
  pose proof (chatter_emitted "reload.reloading" _ chat1) as P1.
  pose proof (chatter_emitted "reload.reloading" _ chat2) as P2.
  pose proof (chatter_emitted "reload.complete" _ chat1) as C1.
  pose proof (chatter_emitted "reload.complete" _ chat2) as C2.
  pose proof (chatter_forked _ chat1) as F1.
  pose proof (chatter_forked _ chat2) as F2.
  destruct last; exec; eexists _, _; (split; [reflexivity|]); cbn;
    unfold emitted, forked in *; cbn;
    rewrite !omap_app, R1, R2, P1, P2, C1, C2, F1, F2;
    repeat split; exact busy.
Qed.

(** One replacement, in the event loop. *)
Lemma step_reloading (p : Proc) (w : Z) (code sig : JsVal) (suicide : bool) :
  status p = None ->
  is_Some (lookup_worker w (state p)) ->
  isReloading (state p) = true ->
  clusterExitListeners (state p) = 1%nat ->
  let s := state p in
  let last := reloaded s + 1 =? numOfWorkers s in
  let q := step host p (WorkerExited w code sig suicide) in
  status q = None /\
  numOfWorkers (state q) = numOfWorkers s /\
  clusterExitListeners (state q) = 1%nat /\
  nextId (state q) = nextId s + 1 /\
  isReloading (state q) = negb last /\
  reloaded (state q) = (if last then 0 else reloaded s + 1) /\
  exists o,
    history q = history p ++ o /\
    emitted "reload" o =
      reloading_event host (nextId s) :: (if last then [[JStr "complete"]] else []) /\
    emitted "reload.reloading" o = [[JUndefined; JNum (nextId s)]] /\
    emitted "reload.complete" o = (if last then [[]] else []) /\
    forked o = [nextWorker host s].
Proof.
  intros running [x found] busy once s last q. subst q.
  unfold step, perform. rewrite running. cbn [handle]. unfold onClusterExit.
  exec. rewrite found. exec. rewrite once. cbn [repeatM].
  match goal with |- context [bind (handleWorkerExit host ?wk code sig) ?k ?s1] =>
    destruct (handleWorkerExit_reloading s1 wk code sig busy)
      as (s' & o & E & H1 & H2 & H3 & _ & H5 & H6 & H7 & H8 & H9 & H10);
    rewrite (bind_Ret _ k s1 tt s' o E) end.
  cbn in *. rewrite app_nil_r.
  repeat split; try assumption; try congruence.
  exists o. repeat split; assumption.
Qed.

(** The replacements that are left when [reloaded] is that many short of
    [numOfWorkers]. *)
Lemma reload_runs_to_completion (inputs : list Input) : forall p : Proc,
  status p = None ->
  isReloading (state p) = true ->
  clusterExitListeners (state p) = 1%nat ->
  reloaded (state p) + Z.of_nat (length inputs) = numOfWorkers (state p) ->
  inputs <> [] ->
  live_exits host p inputs ->
  let q := run host p inputs in
  let ids := seqZ (nextId (state p)) (Z.of_nat (length inputs)) in
  status q = None /\
  isReloading (state q) = false /\
  reloaded (state q) = 0 /\
  numOfWorkers (state q) = numOfWorkers (state p) /\
  exists o,
    history q = history p ++ o /\
    emitted "reload" o = List.map (reloading_event host) ids ++ [[JStr "complete"]] /\
    emitted "reload.reloading" o = List.map reloading_alias ids /\
    emitted "reload.complete" o = [[]].
Proof.
  induction inputs as [|i rest IH]; intros p running busy once count some live;
    [contradiction|].
  destruct live as [(w & code & sig & suicide & -> & alive) live].
  destruct (step_reloading p w code sig suicide running alive busy once)
    as (R1 & R2 & R3 & R4 & R5 & R6 & o1 & H1 & E1 & E2 & E3 & _).
  change (run host p (WorkerExited w code sig suicide :: rest))
    with (run host (step host p (WorkerExited w code sig suicide)) rest).
  set (p1 := step host p (WorkerExited w code sig suicide)) in *.
  cbn [length] in *.
  rewrite seqZ_cons by lia.
  replace (Z.pred (Z.of_nat (S (length rest)))) with (Z.of_nat (length rest)) by lia.
  destruct rest as [|i2 rest].
  - cbn [length] in count.
    assert ((reloaded (state p) + 1 =? numOfWorkers (state p)) = true) as last
      by (apply Z.eqb_eq; lia).
    rewrite last in *. cbn.
    do 4 (split; [assumption|]).
    exists o1. repeat split; assumption.
  - assert ((reloaded (state p) + 1 =? numOfWorkers (state p)) = false) as more
      by (apply Z.eqb_neq; cbn [length] in count; lia).
    rewrite more in *. cbn [negb] in R5.
    destruct (IH p1 R1 R5 R3) as (Q1 & Q2 & Q3 & Q4 & o2 & H2 & F1 & F2 & F3);
      [cbn [length] in *; lia | discriminate | exact live |].
    do 4 (split; [first [assumption | congruence]|]).
    exists (o1 ++ o2). rewrite H2, H1, app_assoc, !emitted_app, E1, E2, E3, F1, F2, F3.
    rewrite R4. cbn [List.map app]. repeat split.
Qed.

Lemma since_app (p q : Proc) (o : list Output) :
  history q = history p ++ o -> since p q = o.
Proof. intros E. unfold since. rewrite E. apply drop_app_length. Qed.

(** The hang-up signal on a master that has started once. *)
Lemma step_sighup (p : Proc) :
  status p = None ->
  isMaster (state p) = true ->
  processListeners (state p) = 1%nat ->
  numOfWorkers (state p) <> 0 ->
  let q := step host p (Signalled SigHup) in
  status q = None /\
  isReloading (state q) = true /\
  reloaded (state q) = 0 /\
  numOfWorkers (state q) = numOfWorkers (state p) /\
  clusterExitListeners (state q) = clusterExitListeners (state p) /\
  nextId (state q) = nextId (state p) /\
  exists o, history q = history p ++ o /\ Forall chatter o.
Proof.
  intros running master once some q. subst q.
  unfold step, perform. rewrite running. cbn [handle]. exec. rewrite once.
  cbn [repeatM onSignal]. unfold reload. exec. rewrite master. exec.
  apply Z.eqb_neq in some. rewrite some. exec.
  unfold eachSeries_reload, worker_keys.
  destruct (cluster_workers (state p)) as [|w ws]; exec;
    (do 6 (split; [reflexivity|])); eexists; (split; [reflexivity|]);
    repeat constructor.
Qed.

End Reloading.

(** ** The series over the shutdown tasks, step by step *)

Lemma process_exit_halts (code : Z) (s : State) :
  exists o, process_exit code s = Halt (Exited code) s o /\ quiet o.
Proof.
  unfold process_exit. exec.
  generalize (processListeners s) as n.
  destruct (negb (code =? 0)); induction n as [|n (o & E & Ho)];
    cbn [repeatM when].
  - exec. eexists. split; [reflexivity | constructor].
  - rewrite bind_bind. exec. cbn [when] in E. rewrite E. cbn. eexists.
    split; [reflexivity | constructor; [exact I | exact Ho]].
  - exec. eexists. split; [reflexivity | constructor].
  - rewrite bind_bind. exec. cbn [when] in E. rewrite E. cbn. eexists.
    split; [reflexivity | exact Ho].
Qed.

(** [done] without an exit hook: the process exits with [code]. *)
Lemma shutdown_done_exits (k : nat) (r : Run) (err : JsVal) (s : State) :
  onExit s = None ->
  exists o,
    shutdown_done k r err s = Halt (Exited (exit_code err)) s o /\
    tasksRun o = [] /\
    emitted "exit" o = [[JNum (exit_code err); js_or (run_sig r) JNull]] /\
    (truthy (run_error r) = true -> logged LFatal o <> []).
Proof.
  intros none. unfold shutdown_done. fold (exit_code err).
  destruct (process_exit_halts (exit_code err) s) as (o & E & Ho).
  pose proof (quiet_tasksRun _ Ho) as T.
  pose proof (quiet_emitted "exit" _ Ho) as X.
  exec. destruct (truthy (run_error r)) eqn:fatal; exec;
    rewrite none, E; cbn; eexists; (split; [reflexivity|]);
    unfold printLevel; rewrite fatal;
    unfold tasksRun, emitted, logged in *; cbn; rewrite T, X;
    repeat split; intros; discriminate.
Qed.

(** [done] with an exit hook: the hook is called and the process waits. *)
Lemma shutdown_done_hooks (k : nat) (r : Run) (err : JsVal) (s : State) (h : HookId) :
  onExit s = Some h ->
  exists o,
    shutdown_done k r err s =
      Ret tt (set_runs (<[k := hooked (exit_code err) r]> (runs s)) s) o /\
    tasksRun o = [] /\
    emitted "exit" o = [[JNum (exit_code err); js_or (run_sig r) JNull]] /\
    (truthy (run_error r) = true -> logged LFatal o <> []).
Proof.
  intros hook. unfold shutdown_done. fold (exit_code err).
  exec. destruct (truthy (run_error r)) eqn:fatal; exec;
    rewrite hook; exec; eexists; (split; [reflexivity|]);
    unfold printLevel; rewrite fatal; cbn; repeat split; intros; discriminate.
Qed.

Lemma task_callback_next (k : nat) (r : Run) (err : JsVal) (s : State) item rest :
  runs s !! k = Some r -> run_phase r = AwaitTask -> falsy err ->
  run_rest r = item :: rest ->
  task_callback k err s =
    Ret tt (set_runs (<[k := advance 1 r]> (runs s)) s)
      [Log (printLevel (run_error r)) "Execute shutdown task";
       RunTask k (task item)].
Proof.
  intros found waiting ok more. unfold task_callback, eachSeries_tasks, advance.
  exec. rewrite found, waiting, ok, more. exec. reflexivity.
Qed.

Lemma task_callback_last (k : nat) (r : Run) (err : JsVal) (s : State) :
  runs s !! k = Some r -> run_phase r = AwaitTask -> falsy err ->
  run_rest r = [] ->
  task_callback k err s = shutdown_done k r JUndefined s.
Proof.
  intros found waiting ok none. unfold task_callback, eachSeries_tasks.
  exec. rewrite found, waiting, ok, none. reflexivity.
Qed.

Lemma task_callback_failed (k : nat) (r : Run) (err : JsVal) (s : State) :
  runs s !! k = Some r -> run_phase r = AwaitTask -> truthy err = true ->
  task_callback k err s = shutdown_done k r err s.
Proof.
  intros found waiting bad. unfold task_callback.
  exec. rewrite found, waiting, bad. reflexivity.
Qed.

Lemma hook_callback_exits (k : nat) (r : Run) (code : Z) (s : State) :
  runs s !! k = Some r -> run_phase r = AwaitHook code ->
  hook_callback k s = process_exit code s.
Proof.
  intros found waiting. unfold hook_callback.
  exec. rewrite found, waiting. reflexivity.
Qed.

Lemma advance_0 (r : Run) : run_phase r = AwaitTask -> advance 0 r = r.
Proof. destruct r; cbn. intros ->. reflexivity. Qed.

Lemma advance_advance (n : nat) (r : Run) :
  advance n (advance 1 r) = advance (S n) r.
Proof.
  unfold advance; cbn. f_equal; [lia|].
  rewrite drop_drop. f_equal.
Qed.

Lemma set_runs_id (s : State) : set_runs (runs s) s = s.
Proof. destruct s; reflexivity. Qed.

Section Series.

Variable host : Host.

Lemma run_cons (p : Proc) (i : Input) (inputs : list Input) :
  run host p (i :: inputs) = run host (step host p i) inputs.
Proof. reflexivity. Qed.

Lemma run_app (p : Proc) (l1 l2 : list Input) :
  run host p (l1 ++ l2) = run host (run host p l1) l2.
Proof. apply fold_left_app. Qed.

Lemma run_stopped (inputs : list Input) (p : Proc) :
  status p <> None -> run host p inputs = p.
Proof.
  intros halted. induction inputs as [|i inputs IH]; [reflexivity|].
  rewrite run_cons. unfold step, perform.
  destruct (status p); [exact IH | contradiction].
Qed.

(** While the tasks keep calling [next] without an error and there are
    tasks left, each call starts the following task, and nothing else. *)
Lemma series_advances (k : nat) (errs : list JsVal) : forall (p : Proc) (r : Run),
  status p = None ->
  runs (state p) !! k = Some r ->
  run_phase r = AwaitTask ->
  Forall falsy errs ->
  (length errs <= length (run_rest r))%nat ->
  let q := run host p (completions k errs) in
  status q = None /\
  state q = set_runs (<[k := advance (length errs) r]> (runs (state p))) (state p) /\
  exists o,
    history q = history p ++ o /\
    tasksRun o = List.map task (take (length errs) (run_rest r)) /\
    emitted "exit" o = [].
Proof.
  induction errs as [|err errs IH]; intros p r running found waiting ok enough.
  - cbn. split; [exact running|]. split.
    + rewrite advance_0 by exact waiting.
      rewrite list_insert_id by exact found. symmetry. apply set_runs_id.
    + exists []. rewrite app_nil_r. repeat split.
  - apply Forall_cons_1 in ok as [ok_err ok].
    destruct (run_rest r) as [|item rest] eqn:more; [cbn in enough; lia|].
    cbn [completions List.map]. rewrite run_cons.
    set (p1 := step host p (TaskCalledBack k err)).
    assert (step1 : p1 = {| state := set_runs (<[k := advance 1 r]> (runs (state p))) (state p);
                            history := history p ++
                              [Log (printLevel (run_error r)) "Execute shutdown task";
                               RunTask k (task item)];
                            status := None |}).
    { subst p1. unfold step, perform. rewrite running. cbn [handle].
      rewrite (task_callback_next k r err (state p) item rest found waiting ok_err more).
      reflexivity. }
    assert (k < length (runs (state p)))%nat as bound
      by (eapply lookup_lt_Some; exact found).
    destruct (IH p1 (advance 1 r)) as (Q1 & Q2 & o & H & T & X).
    + rewrite step1. reflexivity.
    + rewrite step1. cbn. apply list_lookup_insert_eq, bound.
    + reflexivity.
    + exact ok.
    + cbn. rewrite more. cbn. rewrite drop_0. cbn in enough. lia.
    + fold (completions k errs). split; [exact Q1|]. split.
      * rewrite Q2, step1. cbn.
        rewrite list_insert_insert_eq, advance_advance. reflexivity.
      * eexists. split; [rewrite H, step1; cbn; rewrite <- app_assoc; reflexivity|].
        cbn [advance run_rest] in T. rewrite more in T. cbn in T.
        rewrite ?drop_0 in T.
        split.
        -- rewrite tasksRun_app, T. reflexivity.
        -- rewrite emitted_app, X. reflexivity.
Qed.

(** The process reaches [done(err)] of run [k]: the 'exit' event is
    published once, with the code of [err], no task is called any more, and
    the process exits with that code, at once or when the exit hook calls
    back. *)
Lemma done_concludes (p : Proc) (m : M unit) (k : nat) (r : Run) (err : JsVal)
    (s0 : State) (o0 : list Output) :
  status p = None ->
  m (state p) = prefix o0 (shutdown_done k r err s0) ->
  runs s0 !! k = Some r ->
  tasksRun o0 = [] -> emitted "exit" o0 = [] ->
  let q := perform m p in
  (exists o,
     history q = history p ++ o /\
     tasksRun o = [] /\
     emitted "exit" o = [[JNum (exit_code err); js_or (run_sig r) JNull]] /\
     (truthy (run_error r) = true -> logged LFatal o <> [])) /\
  (onExit s0 = None -> status q = Some (Exited (exit_code err))) /\
  status (conclude host k q) = Some (Exited (exit_code err)) /\
  exists x,
    history (conclude host k q) = history q ++ x /\
    tasksRun x = [] /\ emitted "exit" x = [].
Proof.
  intros running Em found T0 X0 q. subst q. unfold perform. rewrite running, Em.
  destruct (onExit s0) as [h|] eqn:hook.
  - destruct (shutdown_done_hooks k r err s0 h hook) as (o & E & T & X & L).
    rewrite E. cbn. unfold conclude. cbn. rewrite hook.
    unfold step, perform. cbn [status state history handle].
    assert (k < length (runs s0))%nat as bound
      by (eapply lookup_lt_Some; exact found).
    rewrite (hook_callback_exits k (hooked (exit_code err) r) (exit_code err))
      by (cbn; first [apply list_lookup_insert_eq, bound | reflexivity]).
    destruct (process_exit_halts (exit_code err)
                (set_runs (<[k:=hooked (exit_code err) r]> (runs s0)) s0))
      as (o' & E' & quiet').
    rewrite E'. cbn.
    split; [|split; [discriminate | split; [reflexivity|]]].
    + exists (o0 ++ o). rewrite tasksRun_app, emitted_app, T0, X0, T, X.
      repeat split. intros fatal. specialize (L fatal).
      unfold logged in *. rewrite omap_app. intros [_ bad]%app_eq_nil. auto.
    + exists o'. split; [reflexivity|].
      split; [apply quiet_tasksRun | apply quiet_emitted]; exact quiet'.
  - destruct (shutdown_done_exits k r err s0 hook) as (o & E & T & X & L).
    rewrite E. cbn. unfold conclude. cbn. rewrite hook.
    split; [|split; [reflexivity | split; [reflexivity|]]].
    + exists (o0 ++ o). rewrite tasksRun_app, emitted_app, T0, X0, T, X.
      repeat split. intros fatal. specialize (L fatal).
      unfold logged in *. rewrite omap_app. intros [_ bad]%app_eq_nil. auto.
    + exists []. rewrite app_nil_r. repeat split.
Qed.

(** How a series ends.  After some calls of [next] without an error, the
    task then running either reports a failure, or it is the last one and
    reports none: [done] is reached, with the code of that last call, and
    the tasks that had not been started are never called. *)
Lemma series_ends (k : nat) (errs : list JsVal) (last : JsVal) (p : Proc) (r : Run) :
  status p = None ->
  runs (state p) !! k = Some r ->
  run_phase r = AwaitTask ->
  Forall falsy errs ->
  (length errs <= length (run_rest r))%nat ->
  truthy last = true \/ length errs = length (run_rest r) ->
  let code := exit_code last in
  let q := run host p (completions k (errs ++ [last])) in
  (exists o,
     history q = history p ++ o /\
     tasksRun o = List.map task (take (length errs) (run_rest r)) /\
     emitted "exit" o = [[JNum code; js_or (run_sig r) JNull]] /\
     (truthy (run_error r) = true -> logged LFatal o <> [])) /\
  (onExit (state p) = None -> status q = Some (Exited code)) /\
  status (conclude host k q) = Some (Exited code) /\
  exists x,
    history (conclude host k q) = history q ++ x /\
    tasksRun x = [] /\ emitted "exit" x = [].
Proof.
  intros running found waiting ok enough ending code q. subst q code.
  unfold completions. rewrite map_app, run_app. cbn [List.map].
  fold (completions k errs).
  destruct (series_advances k errs p r running found waiting ok enough)
    as (Q1 & Q2 & o1 & H1 & T1 & X1).
  set (p1 := run host p (completions k errs)) in *.
  assert (k < length (runs (state p)))%nat as bound
    by (eapply lookup_lt_Some; exact found).
  assert (found1 : runs (state p1) !! k = Some (advance (length errs) r))
    by (rewrite Q2; cbn; apply list_lookup_insert_eq, bound).
  assert (hook1 : onExit (state p1) = onExit (state p))
    by (rewrite Q2; reflexivity).
  assert (exists err, exit_code err = exit_code last /\
            task_callback k last (state p1) =
            prefix [] (shutdown_done k (advance (length errs) r) err (state p1)))
    as (err & same_code & Em).
  { destruct (truthy last) eqn:bad.
    - exists last. split; [reflexivity|]. rewrite prefix_nil.
      apply task_callback_failed; [exact found1 | reflexivity | exact bad].
    - destruct ending as [|all]; [discriminate|].
      exists JUndefined. split; [unfold exit_code; rewrite bad; reflexivity|].
      rewrite prefix_nil.
      apply task_callback_last; [exact found1 | reflexivity | exact bad |].
      cbn. rewrite all. apply drop_all. }
  cbn [run fold_left]. change (step host p1 (TaskCalledBack k last))
    with (perform (task_callback k last) p1).
  destruct (done_concludes p1 (task_callback k last) k _ err (state p1) []
              Q1 Em found1 eq_refl eq_refl)
    as ((o2 & H2 & T2 & X2 & L2) & S1 & S2 & S3).
  rewrite same_code in *. rewrite hook1 in S1.
  split; [|exact (conj S1 (conj S2 S3))].
  exists (o1 ++ o2). rewrite H2, H1, app_assoc, tasksRun_app, emitted_app.
  rewrite T1, T2, X1, X2, app_nil_r. repeat split.
  intros fatal. specialize (L2 fatal).
  unfold logged in *. rewrite omap_app. intros [_ bad]%app_eq_nil. auto.
Qed.

Lemma perform_prefix (m m' : M unit) (p : Proc) (o : list Output) (s' : State) :
  status p = None ->
  m (state p) = prefix o (m' s') ->
  perform m p =
  perform m' {| state := s'; history := history p ++ o; status := None |}.
Proof.
  intros running E. unfold perform. rewrite running, E. cbn.
  destruct (m' s'); cbn; rewrite app_assoc; reflexivity.
Qed.

Lemma shutdown_begins (e sg : JsVal) (s : State) item rest :
  taskList s = item :: rest ->
  exists s1,
    shutdown e sg s =
      Ret tt s1
        [Log LVerbose "Number of shutdown tasks before shutting down";
         Log (printLevel e) "Execute shutdown task";
         RunTask (length (runs s)) (task item)] /\
    runs s1 !! length (runs s) = Some (advance 1 (new_run e sg s)) /\
    onExit s1 = onExit s.
Proof.
  intros tasks. unfold shutdown, eachSeries_tasks. exec.
  fold (taskList s). rewrite tasks. exec.
  eexists. split; [reflexivity|]. split; [|reflexivity].
  cbn. unfold advance, new_run. cbn. rewrite tasks. cbn. rewrite drop_0.
  apply list_lookup_insert_eq. rewrite length_app. cbn. lia.
Qed.

Lemma shutdown_empty (e sg : JsVal) (s : State) :
  taskList s = [] ->
  exists s0,
    shutdown e sg s =
      prefix [Log LVerbose "Number of shutdown tasks before shutting down"]
        (shutdown_done (length (runs s)) (new_run e sg s) JUndefined s0) /\
    runs s0 !! length (runs s) = Some (new_run e sg s) /\
    onExit s0 = onExit s.
Proof.
  intros tasks. unfold shutdown, eachSeries_tasks. exec.
  fold (taskList s). rewrite tasks. cbn.
  eexists. split; [unfold new_run; rewrite tasks; reflexivity|].
  split; [|reflexivity].
  cbn. rewrite lookup_app_r, Nat.sub_diag by lia. unfold new_run.
  rewrite tasks. reflexivity.
Qed.

(** A call of [shutdown] when [taskList] is empty: [done()] at once. *)
Lemma shutdown_without_tasks (p : Proc) (e sg : JsVal) :
  status p = None ->
  taskList (state p) = [] ->
  let k := length (runs (state p)) in
  let q := perform (shutdown e sg) p in
  (exists o,
     history q = history p ++ o /\
     tasksRun o = [] /\
     emitted "exit" o = [[JNum 0; js_or sg JNull]] /\
     (truthy e = true -> logged LFatal o <> [])) /\
  (onExit (state p) = None -> status q = Some (Exited 0)) /\
  status (conclude host k q) = Some (Exited 0) /\
  exists x,
    history (conclude host k q) = history q ++ x /\
    tasksRun x = [] /\ emitted "exit" x = [].
Proof.
  intros running tasks k q. subst q k.
  destruct (shutdown_empty e sg (state p) tasks) as (s0 & E & found & hook).
  destruct (done_concludes p (shutdown e sg) _ _ JUndefined s0 _
              running E found eq_refl eq_refl) as (H1 & H2 & H3 & H4).
  rewrite hook in H2. exact (conj H1 (conj H2 (conj H3 H4))).
Qed.

(** A call of [shutdown] when [taskList] is not empty, followed by the calls
    of [next]: some without an error, then one that reports a failure or
    comes from the last task. *)
Lemma shutdown_with_tasks (p : Proc) (e sg : JsVal) (errs : list JsVal) (last : JsVal) :
  status p = None ->
  Forall falsy errs ->
  (length errs < length (taskList (state p)))%nat ->
  truthy last = true \/ S (length errs) = length (taskList (state p)) ->
  let k := length (runs (state p)) in
  let code := exit_code last in
  let q := run host (perform (shutdown e sg) p) (completions k (errs ++ [last])) in
  (exists o,
     history q = history p ++ o /\
     tasksRun o = List.map task (take (S (length errs)) (taskList (state p))) /\
     emitted "exit" o = [[JNum code; js_or sg JNull]] /\
     (truthy e = true -> logged LFatal o <> [])) /\
  (onExit (state p) = None -> status q = Some (Exited code)) /\
  status (conclude host k q) = Some (Exited code) /\
  exists x,
    history (conclude host k q) = history q ++ x /\
    tasksRun x = [] /\ emitted "exit" x = [].
Proof.
  intros running ok enough ending k code q. subst q code k.
  destruct (taskList (state p)) as [|item rest] eqn:tasks; [cbn in enough; lia|].
  destruct (shutdown_begins e sg (state p) item rest tasks)
    as (s1 & E & found & hook).
  assert (exists p1', perform (shutdown e sg) p = p1' /\
            p1' = {| state := s1;
                     history := history p ++
                       [Log LVerbose "Number of shutdown tasks before shutting down";
                        Log (printLevel e) "Execute shutdown task";
                        RunTask (length (runs (state p))) (task item)];
                     status := None |}) as (p1' & -> & Ep1).
  { eexists. split; [reflexivity|]. unfold perform. rewrite running, E. reflexivity. }
  assert (status p1' = None) as running1 by (rewrite Ep1; reflexivity).
  assert (runs (state p1') !! length (runs (state p)) =
          Some (advance 1 (new_run e sg (state p)))) as found1
    by (rewrite Ep1; exact found).
  assert (run_rest (advance 1 (new_run e sg (state p))) = rest) as left_over
    by (cbn; rewrite tasks; cbn; apply drop_0).
  assert (length errs <= length (run_rest (advance 1 (new_run e sg (state p)))))%nat
    as enough1 by (rewrite left_over; cbn in enough; lia).
  assert (truthy last = true \/
          length errs = length (run_rest (advance 1 (new_run e sg (state p)))))
    as ending1.
  { destruct ending as [bad | all]; [left; exact bad | right].
    rewrite left_over. cbn in all. lia. }
  destruct (series_ends (length (runs (state p))) errs last p1'
              (advance 1 (new_run e sg (state p)))
              running1 found1 eq_refl ok enough1 ending1)
    as ((o & H & T & X & L) & S1 & S2 & S3).
  - rewrite Ep1 in S1 at 1. cbn in S1. rewrite hook in S1.
    split; [|exact (conj S1 (conj S2 S3))].
    eexists. rewrite H. rewrite Ep1 at 1. cbn [history]. rewrite <- app_assoc.
    split; [reflexivity|].
    rewrite left_over in T.
    cbn [advance new_run run_rest run_error run_sig] in X, L.
    unfold tasksRun, emitted, logged in *. rewrite !omap_app, T, X.
    repeat split.
    intros fatal. specialize (L fatal). unfold printLevel. rewrite fatal. cbn.
    discriminate.
Qed.

(** A call of [shutdown] followed by calls of [next] without an error,
    fewer than there are tasks: the process is still running, and the tasks
    called so far are the first ones of [taskList], one more than the calls
    of [next]. *)
Lemma shutdown_in_order (p : Proc) (e sg : JsVal) (errs : list JsVal) :
  status p = None ->
  Forall falsy errs ->
  (length errs < length (taskList (state p)))%nat ->
  let k := length (runs (state p)) in
  let q := run host (perform (shutdown e sg) p) (completions k errs) in
  status q = None /\
  exists o,
    history q = history p ++ o /\
    tasksRun o = List.map task (take (S (length errs)) (taskList (state p))) /\
    emitted "exit" o = [].
Proof.
  intros running ok enough k q. subst q k.
  destruct (taskList (state p)) as [|item rest] eqn:tasks; [cbn in enough; lia|].
  destruct (shutdown_begins e sg (state p) item rest tasks)
    as (s1 & E & found & hook).
  assert (exists p1', perform (shutdown e sg) p = p1' /\
            p1' = {| state := s1;
                     history := history p ++
                       [Log LVerbose "Number of shutdown tasks before shutting down";
                        Log (printLevel e) "Execute shutdown task";
                        RunTask (length (runs (state p))) (task item)];
                     status := None |}) as (p1' & -> & Ep1).
  { eexists. split; [reflexivity|]. unfold perform. rewrite running, E. reflexivity. }
  assert (status p1' = None) as running1 by (rewrite Ep1; reflexivity).
  assert (runs (state p1') !! length (runs (state p)) =
          Some (advance 1 (new_run e sg (state p)))) as found1
    by (rewrite Ep1; exact found).
  assert (run_rest (advance 1 (new_run e sg (state p))) = rest) as left_over
    by (cbn; rewrite tasks; cbn; apply drop_0).
  destruct (series_advances (length (runs (state p))) errs p1'
              (advance 1 (new_run e sg (state p))) running1 found1 eq_refl ok)
    as (Q1 & _ & o & H & T & X).
  { rewrite left_over. cbn in enough. lia. }
  split; [exact Q1|].
  eexists. rewrite H. rewrite Ep1 at 1. cbn [history]. rewrite <- app_assoc.
  split; [reflexivity|]. rewrite left_over in T.
  unfold tasksRun, emitted in *. rewrite !omap_app, T, X. split; reflexivity.
Qed.

(** A call of [shutdown] followed by one call of [next] without an error per
    task of [taskList]: every task of the list is called, in order, the
    'exit' event carries code 0, and the process exits with code 0. *)
Lemma shutdown_runs_to_exit (p : Proc) (e sg : JsVal) (errs : list JsVal) :
  status p = None ->
  Forall falsy errs ->
  length errs = length (taskList (state p)) ->
  let k := length (runs (state p)) in
  let q := run host (perform (shutdown e sg) p) (completions k errs) in
  (exists o,
     history q = history p ++ o /\
     tasksRun o = List.map task (taskList (state p)) /\
     emitted "exit" o = [[JNum 0; js_or sg JNull]] /\
     (truthy e = true -> logged LFatal o <> [])) /\
  (onExit (state p) = None -> status q = Some (Exited 0)) /\
  status (conclude host k q) = Some (Exited 0) /\
  exists x,
    history (conclude host k q) = history q ++ x /\
    tasksRun x = [] /\ emitted "exit" x = [].
Proof.
  intros running ok all k q. subst q k.
  destruct errs as [|err errs _] using rev_ind.
  - symmetry in all. apply length_zero_iff_nil in all.
    pose proof (shutdown_without_tasks p e sg running all) as H.
    cbn in H. rewrite all. exact H.
  - apply Forall_app in ok as [ok last_ok]. apply Forall_inv in last_ok.
    rewrite length_app in all. cbn in all.
    pose proof (shutdown_with_tasks p e sg errs err running ok
                  ltac:(lia) ltac:(right; lia)) as H.
    cbn zeta in H. unfold exit_code in H. rewrite last_ok in H.
    replace (S (length errs)) with (length (taskList (state p))) in H by lia.
    rewrite firstn_all in H. exact H.
Qed.

End Series.

(** ** Final shutdown *)

Section FinalShutdown.

Variable host : Host.

Lemma filter_all {A} (l : list A) : List.filter (fun _ => true) l = l.
Proof. induction l as [|x l IH]; cbn; [|rewrite IH]; reflexivity. Qed.

Lemma taskList_unfold (s : State) :
  taskList s =
  if ee_isMaster s then List.filter runOnMaster (shutdownTasks s)
  else shutdownTasks s.
Proof.
  unfold taskList. destruct (ee_isMaster s); [reflexivity | apply filter_all].
Qed.

Lemma since_extended (p q q' : Proc) (o x : list Output) :
  history q = history p ++ o -> history q' = history q ++ x ->
  since p q' = o ++ x.
Proof.
  intros H1 H2. apply since_app. rewrite H2, H1, app_assoc. reflexivity.
Qed.

(** C3, amended.  The filter of [shutdown] asks [ee.isMaster()]: the primary
    flag and a worker count other than zero.  So when the process is the
    primary and [numOfWorkers] is not zero, which includes a master
    started with exactly one worker, the task list is the registered tasks
    with [runOnMaster] set, in registration order; otherwise (a worker, or a
    worker count of zero) it is all registered tasks.  And when each task
    signals completion without an error, exactly the tasks of that list are
    called, in that order, and the process exits with code 0, at once or
    when the exit hook calls back. *)
Theorem shutdown_runs_the_filtered_tasks
    (p : Proc) (e sg : JsVal) (errs : list JsVal) :
  status p = None ->
  Forall falsy errs ->
  length errs = length (taskList (state p)) ->
  let s := state p in
  let k := length (runs s) in
  let q := conclude host k
             (run host (perform (shutdown e sg) p) (completions k errs)) in
  ee_isMaster s = isMaster s && negb (numOfWorkers s =? 0) /\
  taskList s =
    (if ee_isMaster s then List.filter runOnMaster (shutdownTasks s)
     else shutdownTasks s) /\
  tasksRun (since p q) = List.map task (taskList s) /\
  status q = Some (Exited 0).
Proof.
  intros running ok all s k q.
  split; [unfold ee_isMaster; destruct (isMaster s && _); reflexivity|].
  split; [apply taskList_unfold|].
  destruct (shutdown_runs_to_exit host p e sg errs running ok all)
    as ((o & H & T & _) & _ & S2 & x & Hx & Tx & _).
  split; [|exact S2].
  subst q k s. rewrite (since_extended _ _ _ _ _ H Hx), tasksRun_app, T, Tx.
  apply app_nil_r.
Qed.

(** C2, amended.  After a call of [shutdown], the tasks of the list are
    called one at a time in registration order: when [n] tasks have
    signalled completion without an error and tasks are left, exactly the
    first [n + 1] tasks have been called and the process is running.  When
    the task then running reports a failure, no further task is called, then
    or later: the 'exit' event is published once, with code 1, and the
    process exits with code 1, at once or when the exit hook calls back. *)
Theorem shutdown_tasks_run_in_order_until_a_failure
    (p : Proc) (e sg : JsVal) (errs : list JsVal) :
  status p = None ->
  Forall falsy errs ->
  (length errs < length (taskList (state p)))%nat ->
  let s := state p in
  let k := length (runs s) in
  let started := List.map task (take (S (length errs)) (taskList s)) in
  let q := run host (perform (shutdown e sg) p) (completions k errs) in
  (status q = None /\ tasksRun (since p q) = started) /\
  forall (bad : JsVal) (later : list Input),
    truthy bad = true ->
    let q1 := conclude host k (step host q (TaskCalledBack k bad)) in
    status q1 = Some (Exited 1) /\
    (onExit s = None -> status (step host q (TaskCalledBack k bad)) = Some (Exited 1)) /\
    emitted "exit" (since p q1) = [[JNum 1; js_or sg JNull]] /\
    tasksRun (since p (run host q1 later)) = started.
Proof.
  intros running ok enough s k started q. subst started q k s.
  destruct (shutdown_in_order host p e sg errs running ok enough)
    as (Q1 & o & H & T & _).
  split; [split; [exact Q1 | rewrite (since_app _ _ _ H); exact T]|].
  intros bad later failed q1.
  destruct (shutdown_with_tasks host p e sg errs bad running ok enough
              (or_introl failed))
    as ((o1 & H1 & T1 & X1 & _) & S1 & S2 & x & Hx & Tx & Xx).
  unfold completions in S1, S2, H1, Hx. rewrite map_app, run_app in S1, S2, H1, Hx.
  cbn [List.map run fold_left] in S1, S2, H1, Hx.
  fold (completions (length (runs (state p))) errs) in S1, S2, H1, Hx.
  unfold exit_code in *. rewrite failed in *.
  split; [exact S2|]. split; [exact S1|].
  subst q1. split.
  - rewrite (since_extended _ _ _ _ _ H1 Hx), emitted_app, X1, Xx. reflexivity.
  - rewrite run_stopped by (rewrite S2; discriminate).
    rewrite (since_extended _ _ _ _ _ H1 Hx), tasksRun_app, T1, Tx.
    apply app_nil_r.
Qed.

Lemma ee_stop_standalone (s : State) (err : JsVal) :
  isMaster s = true -> shutdownLock s = false -> numOfWorkers s = 0 ->
  truthy err = true ->
  ee_stop host err s =
  prefix [Log LFatal "Exiting with an error"]
    (shutdown err (CODES_FATAL_ERROR host) (set_shutdownLock true s)).
Proof.
  intros primary unlocked none fatal. unfold ee_stop, exit, printLevel.
  rewrite fatal. exec. rewrite primary. exec. rewrite unlocked. exec.
  rewrite none. cbn. reflexivity.
Qed.

(** C1, amended.  [stop(error)] with a non-null error on a standalone
    process (the primary, with [numOfWorkers = 0], not yet shutting down):
    the error is logged at the fatal level, every registered task is called
    in order, and, when each task signals completion without an error, the
    'exit' event carries code 0, with [FATAL_ERROR] as its second argument,
    and the process exits with code 0.  The error given to [stop] does not
    reach the exit code; a task that reports a failure makes it 1. *)
Theorem stop_with_error_exits_by_the_tasks
    (p : Proc) (err : JsVal) (errs : list JsVal) :
  status p = None ->
  isMaster (state p) = true ->
  shutdownLock (state p) = false ->
  numOfWorkers (state p) = 0 ->
  truthy err = true ->
  Forall falsy errs ->
  length errs = length (shutdownTasks (state p)) ->
  let k := length (runs (state p)) in
  let q := conclude host k
             (run host (step host p (CallStop err)) (completions k errs)) in
  logged LFatal (since p q) <> [] /\
  tasksRun (since p q) = List.map task (shutdownTasks (state p)) /\
  emitted "exit" (since p q) = [[JNum 0; js_or (CODES_FATAL_ERROR host) JNull]] /\
  status q = Some (Exited 0) /\
  forall (some : list JsVal) (bad : JsVal),
    Forall falsy some ->
    (length some < length (shutdownTasks (state p)))%nat ->
    truthy bad = true ->
    status (conclude host k
              (run host (step host p (CallStop err))
                 (completions k (some ++ [bad])))) = Some (Exited 1).
Proof.
  intros running primary unlocked none fatal ok all k q. subst q k.
  unfold step. cbn [handle].
  rewrite (perform_prefix (ee_stop host err) _ p _ _ running
             (ee_stop_standalone (state p) err primary unlocked none fatal)).
  set (p1 := {| state := set_shutdownLock true (state p);
                history := history p ++ [Log LFatal "Exiting with an error"];
                status := None |}).
  assert (taskList (state p1) = shutdownTasks (state p)) as tasks.
  { rewrite taskList_unfold. unfold ee_isMaster. cbn. rewrite none.
    rewrite andb_false_r. reflexivity. }
  destruct (shutdown_runs_to_exit host p1 err (CODES_FATAL_ERROR host) errs
              eq_refl ok ltac:(rewrite tasks; exact all))
    as ((o & H & T & X & L) & _ & S2 & x & Hx & Tx & Xx).
  change (length (runs (state p1))) with (length (runs (state p))) in *.
  rewrite tasks in T. cbn [history p1] in H.
  rewrite <- app_assoc in H.
  rewrite (since_extended _ _ _ _ _ H Hx).
  split; [|split; [|split; [|split; [exact S2|]]]].
  - unfold logged. cbn. discriminate.
  - rewrite !tasksRun_app, T, Tx. cbn. apply app_nil_r.
  - rewrite !emitted_app, X, Xx. reflexivity.
  - intros some bad some_ok fewer failed.
    destruct (shutdown_with_tasks host p1 err (CODES_FATAL_ERROR host) some bad
                eq_refl some_ok ltac:(rewrite tasks; exact fewer)
                (or_introl failed))
      as (_ & _ & F & _).
    unfold exit_code in F. rewrite failed in F. exact F.
Qed.

End FinalShutdown.

(** ** The shutdown lock *)

Section Lock.

Variable host : Host.

(** On the primary, an exit request that finds the lock clear sets it. *)
Lemma exit_takes_the_lock (s : State) (e sg : JsVal) :
  isMaster s = true -> shutdownLock s = false ->
  shutdownLock (final (exit host e sg s)) = true.
Proof.
  intros primary unlocked. unfold exit. exec. rewrite primary. exec.
  rewrite unlocked. exec.
  destruct (truthy e); exec; rewrite final_prefix;
    match goal with |- context [final ((if ?c then ?a else ?b) ?s')] =>
      assert (within calm anything (if c then a else b)) as rest
        by (destruct c; summarise);
      destruct (rest s') as [[[locked _] _] _]; apply locked; reflexivity
    end.
Qed.

(** On the primary, an exit request that finds the lock set logs the error,
    if it carries one, and returns. *)
Lemma locked_exit_only_logs (s : State) (e sg : JsVal) :
  isMaster s = true -> shutdownLock s = true ->
  exit host e sg s =
  Ret tt s (if truthy e then [Log LFatal "Exit instruction by error"] else []).
Proof.
  intros primary locked. unfold exit, printLevel. exec. rewrite primary. exec.
  rewrite locked. exec. destruct (truthy e); reflexivity.
Qed.

(** The lock, once set, stays set, whatever the process handles. *)
Lemma lock_is_never_cleared (p : Proc) (inputs : list Input) :
  shutdownLock (state p) = true ->
  shutdownLock (state (run host p inputs)) = true.
Proof. intros locked. apply (run_keeps host inputs p), locked. Qed.

(** On the primary, after one exit request and whatever came next, another
    exit request leaves the state and the status of the process as they are
    and adds at most one log line: no task is called, no 'exit' event
    published. *)
Lemma later_exit_request_is_absorbed
    (p : Proc) (e1 sg1 e2 sg2 : JsVal) (between : list Input) :
  status p = None -> isMaster (state p) = true ->
  let p1 := run host (perform (exit host e1 sg1) p) between in
  let q := perform (exit host e2 sg2) p1 in
  state q = state p1 /\ status q = status p1 /\
  exists o, history q = history p1 ++ o /\ quiet o.
Proof.
  intros running primary p1 q.
  assert (isMaster (state p1) = true /\ shutdownLock (state p1) = true)
    as [primary1 locked1].
  { subst p1. split.
    - apply run_keeps. unfold perform. rewrite running. cbn.
      apply exit_calm, primary.
    - apply lock_is_never_cleared. unfold perform. rewrite running. cbn.
      destruct (shutdownLock (state p)) eqn:lock.
      + apply exit_calm, lock.
      + apply exit_takes_the_lock; assumption. }
  subst q. unfold perform. destruct (status p1) eqn:st.
  - rewrite st. repeat split. exists []. rewrite app_nil_r.
    split; [reflexivity | constructor].
  - rewrite (locked_exit_only_logs _ e2 sg2 primary1 locked1). cbn.
    repeat split. eexists. split; [reflexivity|].
    destruct (truthy e2); repeat constructor.
Qed.

End Lock.

(** * Scenarios *)


(** C1, as stated, fails: on a standalone process with one task that
    completes without an error, [stop(error)] ends in [process.exit(0)].
    The 'exit' event is [(0, 1)]: the fatal code travels as the signal. *)
Lemma stop_with_error_exits_with_code_zero :
  let p := run (demo true 1) standalone_with_task
             [CallStop boom; TaskCalledBack 0 JUndefined] in
  status p = Some (Exited 0) /\
  status p <> Some (Exited 1) /\
  emitted "exit" (history p) = [[JNum 0; JNum 1]].
Proof. vm_compute. repeat split. discriminate. Qed.

Lemma stop_with_error_witness :
  status standalone_with_task = None /\
  truthy boom = true /\
  status (conclude (demo true 1) 0
            (run (demo true 1)
               (step (demo true 1) standalone_with_task (CallStop boom))
               (completions 0 [JUndefined]))) = Some (Exited 0).
Proof.
  split; [reflexivity | split; [reflexivity|]].
  apply (stop_with_error_exits_by_the_tasks (demo true 1) standalone_with_task
           boom [JUndefined]); try reflexivity.
  repeat constructor.
Defined.

(** C2, as stated, fails: when task seven reports a failure, the process
    exits with code 1 and task eight has never been called. *)
Lemma failed_task_skips_the_remaining_tasks :
  let p := run (demo true 1) standalone_with_two_tasks
             [CallStop JUndefined; TaskCalledBack 0 (JStr "failed")] in
  status p = Some (Exited 1) /\
  tasksRun (history p) = [7%nat] /\
  ~ every_task_ran_before_exit standalone_with_two_tasks p.
Proof.
  split; [reflexivity | split; [reflexivity|]].
  intros claim.
  specialize (claim ltac:(discriminate) {| task := 8%nat; runOnMaster := true |}).
  vm_compute in claim.
  destruct claim as [bad | []]; [right; left; reflexivity | discriminate].
Qed.

Lemma shutdown_tasks_witness :
  status standalone_with_two_tasks = None /\
  (0 < length (taskList (state standalone_with_two_tasks)))%nat /\
  tasksRun (since standalone_with_two_tasks
              (perform (shutdown JNull JNull) standalone_with_two_tasks)) = [7%nat].
Proof.
  split; [reflexivity | split; [vm_compute; lia|]].
  apply (shutdown_tasks_run_in_order_until_a_failure (demo true 1)
           standalone_with_two_tasks JNull JNull []).
  - reflexivity.
  - constructor.
  - vm_compute. lia.
Defined.

(** C3, as stated, fails: a master that began with exactly one worker should
    run every registered task, but [shutdown] keeps only the tasks tagged
    [runOnMaster]; after [stop()] the process exits without having called
    task seven. *)
Lemma single_worker_master_skips_untagged_tasks :
  let p := run (demo true 1) single_worker_master
             [CallStop JUndefined; TaskCalledBack 0 JUndefined] in
  List.map task (taskList_as_specified (state single_worker_master)) = [7%nat; 8%nat] /\
  List.map task (taskList (state single_worker_master)) = [8%nat] /\
  taskList (state single_worker_master) <>
    taskList_as_specified (state single_worker_master) /\
  status p = Some (Exited 0) /\
  tasksRun (history p) = [8%nat].
Proof. vm_compute. repeat split. discriminate. Qed.

Lemma shutdown_filter_witness :
  status single_worker_master = None /\
  length [JUndefined] = length (taskList (state single_worker_master)) /\
  tasksRun (since single_worker_master
              (conclude (demo true 1) 0
                 (run (demo true 1)
                    (perform (shutdown JNull JNull) single_worker_master)
                    (completions 0 [JUndefined])))) = [8%nat].
Proof.
  split; [reflexivity | split; [reflexivity|]].
  apply (shutdown_runs_the_filtered_tasks (demo true 1) single_worker_master
           JNull JNull [JUndefined]).
  - reflexivity.
  - repeat constructor.
  - reflexivity.
Defined.

(** C4.  The final shutdown that the exit of the last worker starts on its
    own does not take [shutdownLock].  The [stop()] that arrives while its
    task is running is the first exit request: it finds the lock clear, sets
    it, and starts the shutdown tasks a second time.  Task seven is called
    twice and two 'exit' events are published in one process lifetime. *)
Theorem crash_shutdown_then_stop_runs_tasks_twice :
  let before := run (demo true 1) boot (take 5 stop_during_crash_shutdown) in
  let p := run (demo true 1) boot stop_during_crash_shutdown in
  isMaster (state before) = true /\
  shutdownLock (state before) = false /\
  tasksRun (history before) = [7%nat] /\
  status before = None /\
  shutdownLock (state p) = true /\
  tasksRun (history p) = [7%nat; 7%nat] /\
  emitted "exit" (history p) = [[JNum 0; JNum 1]; [JNum 0; JNull]].
Proof. vm_compute. repeat split. Qed.

Lemma respawn_policy_witness :
  workerMap (state (four_workers 5000)) !! 1 = Some {| started := 0; pid := 4001 |} /\
  MIN_LIFE <= clock (demo true 5000) (ticks (state (four_workers 5000))) - 0 /\
  numOfWorkers
    (final (handleWorkerExit (demo true 5000) first_worker (JNum 1) JNull
              (state (four_workers 5000)))) = 4 /\
  clock (demo true 1) (ticks (state (four_workers 1))) - 0 < MIN_LIFE /\
  numOfWorkers
    (final (handleWorkerExit (demo true 1) first_worker (JNum 1) JNull
              (state (four_workers 1)))) = 3.
Proof.
  split; [reflexivity|]. split; [vm_compute; discriminate 1|].
  split; [|split; [vm_compute; reflexivity|]].
  - apply (unintentional_exit_respawn_policy (demo true 5000)
             (state (four_workers 5000)) first_worker
             {| started := 0; pid := 4001 |} (JNum 1) JNull);
      try reflexivity.
    vm_compute. discriminate 1.
  - apply (unintentional_exit_respawn_policy (demo true 1)
             (state (four_workers 1)) first_worker
             {| started := 0; pid := 4001 |} (JNum 1) JNull);
      reflexivity.
Defined.

(** C6, as stated, fails: on a master configured for three workers of which
    two are alive, the reload replaces both, publishes two 'reloading'
    events, and stays open: no 'complete' follows, [isReloading] is still
    set and [reloaded], at 2, has not reached [numOfWorkers]. *)
Lemma reload_with_a_worker_missing_stays_open :
  let p := one_worker_missing in
  let q := run (demo true 1) p
             [Signalled SigHup; WorkerExited 2 (JNum 0) JNull true;
              WorkerExited 3 (JNum 0) JNull true] in
  status p = None /\
  isMaster (state p) = true /\
  List.map worker_id (cluster_workers (state p)) = [2; 3] /\
  numOfWorkers (state p) = 3 /\
  List.map worker_id (cluster_workers (state q)) = [4; 5] /\
  emitted "reload" (since p q) =
    [[JStr "reloading"; JNum 4004; JNum 4]; [JStr "reloading"; JNum 4005; JNum 5]] /\
  emitted "reload.complete" (since p q) = [] /\
  isReloading (state q) = true /\
  reloaded (state q) = 2 /\
  ~ reload_completed 2 p q.
Proof.
  cbv zeta. do 9 (split; [vm_compute; reflexivity|]).
  intros (_ & _ & over & _). vm_compute in over. discriminate over.
Qed.

Lemma reload_in_worker_witness :
  ee_isMaster (state worker_process) = false /\
  leaves_no_trace (state worker_process)
    (handle (demo false 1) (Signalled SigHup) (state worker_process)).
Proof.
  split; [reflexivity|].
  apply (reload_outside_master_is_noop (demo false 1) (state worker_process)).
  reflexivity.
Defined.



(** After a malformed message, the worker still obeys the EXIT envelope. *)
Example worker_exits_after_malformed_message :
  status (run (demo false 1) worker_process
            [MasterMessage "not json"; MasterMessage exit_document]) =
  Some (Exited 0).
Proof. reflexivity. Qed.

Lemma start_max_one_witness :
  cluster_isMaster (demo true 1) = true /\
  ee_isMaster (final (ee_start (demo true 1) (config 1 false) initial)) = true /\
  forked (outputs (ee_start (demo true 1) (config 1 false) initial)) = [].
Proof.
  split; [reflexivity|].
  split;
    apply (start_max_one_is_master_without_workers (demo true 1) initial
             (Some false) None eq_refl).
Defined.

(** The scenarios of the specification, run on the model. *)

(** [{max: 0}], one task that signals completion at once, [stop()]: the
    'exit' event is [(0, null)] and the process exits with code 0. *)
Example standalone_stop_exits_cleanly :
  let p := run (demo true 1) standalone_with_task
             [CallStop JUndefined; TaskCalledBack 0 JUndefined] in
  emitted "exit" (history p) = [[JNum 0; JNull]] /\
  tasksRun (history p) = [7%nat] /\
  status p = Some (Exited 0).
Proof. vm_compute. repeat split. Qed.

(** [{max: 4, autoSpawn: true}], a worker killed after fifteen seconds and
    more: one 'auto.spawn' event with a new pid, and four workers again. *)
Example killed_worker_is_respawned :
  let p := step (demo true 5000) (four_workers 5000)
             (WorkerExited 2 JNull (JStr SIGTERM) false) in
  emitted "auto.spawn" (history p) = [[JNum 4005; JNum 5]] /\
  List.map worker_id (cluster_workers (state p)) = [1; 3; 4; 5] /\
  numOfWorkers (state p) = 4.
Proof. vm_compute. repeat split. Qed.

(** [{max: 2}], a reload on the master: the workers are told to reload one
    after the other, each when the one before has been replaced, and two
    workers are left. *)
Example reload_of_two_workers :
  let p := run (demo true 1) two_workers
             [Signalled SigHup;
              WorkerExited 1 (JNum 0) JNull true;
              WorkerExited 2 (JNum 0) JNull true] in
  emitted "reload" (history p) =
    [[JStr "reloading"; JNum 4003; JNum 3]; [JStr "reloading"; JNum 4004; JNum 4];
     [JStr "complete"]] /\
  emitted "reload.complete" (history p) = [[]] /\
  List.map worker_id (cluster_workers (state p)) = [3; 4] /\
  isReloading (state p) = false.
Proof. vm_compute. repeat split. Qed.

(** Two overlapping calls of [stop()] on a standalone process: the task is
    called once and one 'exit' event is published. *)
Example overlapping_stops_run_tasks_once :
  let p := run (demo true 1) standalone_with_task
             [CallStop JUndefined; CallStop JUndefined;
              TaskCalledBack 0 JUndefined] in
  tasksRun (history p) = [7%nat] /\
  emitted "exit" (history p) = [[JNum 0; JNull]] /\
  status p = Some (Exited 0).
Proof. vm_compute. repeat split. Qed.

(** * Further properties *)

(** ** Exit requests outside the primary *)

Section Forwarding.

Variable host : Host.

Lemma exit_forwards (s : State) (e sg : JsVal) :
  isMaster s = false -> exit host e sg s = Ret tt s [forwarded e sg].
Proof. intros other. unfold exit. exec. rewrite other. reflexivity. Qed.

Lemma handle_exit_request (i : Input) (e sg : JsVal) (s : State) :
  exit_request host i = Some (e, sg) ->
  handle host i s = repeatM (exit_calls s i) (exit host e sg) s.
Proof.
  destruct i as [| | |err|[]| | | | |]; cbn; try discriminate;
    intros [= <- <-]; cbn [handle ee_stop onSignal exit_calls].
  - unfold ee_stop, repeatM. unfold bind.
    destruct (exit host err _ s) as [[] ? ?|]; cbn; rewrite ?app_nil_r; reflexivity.
  - exec. reflexivity.
  - exec. reflexivity.
  - exec. reflexivity.
Qed.

(** X1.  A process whose primary flag is not set never exits on request:
    [stop(error)] and the interrupt, quit and terminate signals leave the
    state as it is, call no shutdown task, publish no 'exit' event and do
    not stop the process.  All they do is send the EXIT envelope, without a
    target, carrying the error as [{message, stack}] (or null) and the
    signal: once for [stop], once per registered listener for a signal. *)
Theorem exit_request_outside_primary_is_forwarded
    (p : Proc) (i : Input) (e sg : JsVal) :
  status p = None ->
  isMaster (state p) = false ->
  exit_request host i = Some (e, sg) ->
  step host p i =
  {| state := state p;
     history := history p ++ replicate (exit_calls (state p) i) (forwarded e sg);
     status := None |}.
Proof.
  intros running other request. unfold step, perform. rewrite running.
  rewrite (handle_exit_request i e sg _ request).
  rewrite (repeatM_constant _ (state p) (forwarded e sg)); [reflexivity|].
  apply exit_forwards, other.
Qed.

End Forwarding.

Lemma exit_request_outside_primary_witness :
  status worker_process = None /\
  isMaster (state worker_process) = false /\
  step (demo false 1) worker_process (CallStop boom) =
  {| state := state worker_process;
     history := history worker_process ++ [forwarded boom (JNum 1)];
     status := None |}.
Proof.
  split; [reflexivity | split; [reflexivity|]].
  apply (exit_request_outside_primary_is_forwarded (demo false 1) worker_process
           (CallStop boom) boom (JNum 1)); reflexivity.
Defined.

(** ** Handlers that throw nothing *)

Lemma safe_ret {A} (x : A) : safe (ret x).
Proof. intros s what. discriminate. Qed.

Lemma safe_gets {A} (f : State -> A) : safe (gets f).
Proof. intros s what. discriminate. Qed.

Lemma safe_modify (f : State -> State) : safe (modify f).
Proof. intros s what. discriminate. Qed.

Lemma safe_out (o : Output) : safe (out o).
Proof. intros s what. discriminate. Qed.

Lemma safe_exited {A} (code : Z) : safe (halt (A:=A) (Exited code)).
Proof. intros s what. discriminate. Qed.

Lemma safe_bind {A B} (m : M A) (f : A -> M B) :
  safe m -> (forall x, safe (f x)) -> safe (bind m f).
Proof.
  intros Hm Hf s what. unfold bind. specialize (Hm s what).
  destruct (m s) as [x s1 o1 | w s1 o1]; [|exact Hm].
  rewrite stopped_prefix. apply Hf.
Qed.

Lemma safe_when (b : bool) (m : M unit) : safe m -> safe (when b m).
Proof. destruct b; [trivial | intros _; apply safe_ret]. Qed.

Lemma safe_repeatM (n : nat) (m : M unit) : safe m -> safe (repeatM n m).
Proof.
  intros Hm. induction n as [|n IH]; cbn.
  - apply safe_ret.
  - apply safe_bind; [exact Hm | intros _; exact IH].
Qed.

Lemma safe_forM {A} (l : list A) (f : A -> M unit) :
  (forall x, safe (f x)) -> safe (forM l f).
Proof.
  intros Hf. induction l as [|x l IH]; cbn.
  - apply safe_ret.
  - apply safe_bind; [apply Hf | intros _; exact IH].
Qed.

Create HintDb safe.

Ltac safe_step :=
  lazymatch goal with
  | |- safe (bind _ _) => apply safe_bind; [| intros ?]
  | |- safe (ret _) => apply safe_ret
  | |- safe (gets _) => apply safe_gets
  | |- safe (halt (Exited _)) => apply safe_exited
  | |- safe (modify _) => apply safe_modify
  | |- safe (out _) => apply safe_out
  | |- safe (log _ _) => apply safe_out
  | |- safe (emit _ _) => apply safe_out
  | |- safe (when _ _) => apply safe_when
  | |- safe (repeatM _ _) => apply safe_repeatM
  | |- safe (forM _ _) => apply safe_forM; intros ?
  | |- safe (if ?b then _ else _) => destruct b
  | |- safe (match ?x with _ => _ end) => destruct x
  end.

Ltac safety := repeat first [safe_step | solve [eauto with safe]].

Lemma noMoreWorkers_safe : safe noMoreWorkers.
Proof. unfold noMoreWorkers. safety. Qed.

Lemma process_exit_safe code : safe (process_exit code).
Proof. unfold process_exit. safety. Qed.
#[local] Hint Resolve noMoreWorkers_safe process_exit_safe : safe.

Lemma shutdown_done_safe k r err : safe (shutdown_done k r err).
Proof. unfold shutdown_done. safety. Qed.
#[local] Hint Resolve shutdown_done_safe : safe.

Lemma eachSeries_tasks_safe k r : safe (eachSeries_tasks k r).
Proof. unfold eachSeries_tasks. safety. Qed.
#[local] Hint Resolve eachSeries_tasks_safe : safe.

Lemma shutdown_safe e sg : safe (shutdown e sg).
Proof. unfold shutdown. safety. Qed.

Lemma task_callback_safe k err : safe (task_callback k err).
Proof. unfold task_callback. safety. Qed.

Lemma hook_callback_safe k : safe (hook_callback k).
Proof. unfold hook_callback. safety. Qed.

Lemma syncWorkerMap_safe : safe syncWorkerMap.
Proof. unfold syncWorkerMap. safety. Qed.

Lemma eachSeries_exit_safe c : safe (eachSeries_exit c).
Proof. unfold eachSeries_exit. safety. Qed.
#[local] Hint Resolve shutdown_safe task_callback_safe hook_callback_safe
  syncWorkerMap_safe eachSeries_exit_safe : safe.

Lemma emitter_emit_workerExit_safe : safe emitter_emit_workerExit.
Proof. unfold emitter_emit_workerExit. safety. Qed.
#[local] Hint Resolve emitter_emit_workerExit_safe : safe.

Lemma after_respawn_safe code : safe (after_respawn code).
Proof. unfold after_respawn. safety. Qed.

(** ** What the series leave alone *)

#[local] Instance parks_only_preorder : PreOrder parks_only.
Proof.
  split.
  - intros s. destruct s; reflexivity.
  - intros a b c H1 H2. unfold parks_only in *. rewrite H2, H1 at 1.
    destruct a; reflexivity.
Qed.

Ltac parked := cbn; unfold parks_only; cbn; try tauto; try reflexivity.

Create HintDb parks.

Ltac frame := repeat first [within_step ltac:(parked) | solve [eauto with parks]].

Lemma process_exit_parks code : within parks_only spawns_nothing (process_exit code).
Proof. unfold process_exit. frame. Qed.
#[local] Hint Resolve process_exit_parks : parks.

Lemma noMoreWorkers_parks : within parks_only spawns_nothing noMoreWorkers.
Proof. unfold noMoreWorkers. frame. Qed.
#[local] Hint Resolve noMoreWorkers_parks : parks.

Lemma shutdown_done_parks k r err :
  within parks_only spawns_nothing (shutdown_done k r err).
Proof. unfold shutdown_done. frame. Qed.
#[local] Hint Resolve shutdown_done_parks : parks.

Lemma eachSeries_tasks_parks k r :
  within parks_only spawns_nothing (eachSeries_tasks k r).
Proof. unfold eachSeries_tasks. frame. Qed.
#[local] Hint Resolve eachSeries_tasks_parks : parks.

Lemma shutdown_parks e sg : within parks_only spawns_nothing (shutdown e sg).
Proof. unfold shutdown. frame. Qed.
#[local] Hint Resolve shutdown_parks : parks.

Lemma syncWorkerMap_parks : within parks_only spawns_nothing syncWorkerMap.
Proof. unfold syncWorkerMap. frame. Qed.
#[local] Hint Resolve syncWorkerMap_parks : parks.

Lemma eachSeries_exit_parks c : within parks_only spawns_nothing (eachSeries_exit c).
Proof. unfold eachSeries_exit. frame. Qed.
#[local] Hint Resolve eachSeries_exit_parks : parks.

Lemma emitter_emit_workerExit_parks :
  within parks_only spawns_nothing emitter_emit_workerExit.
Proof. unfold emitter_emit_workerExit. frame. Qed.
#[local] Hint Resolve emitter_emit_workerExit_parks : parks.

Lemma after_respawn_parks code : within parks_only spawns_nothing (after_respawn code).
Proof. unfold after_respawn. frame. Qed.

(** ** Worker exits that call for no replacement *)

Section NoRespawn.

Variable host : Host.

Lemma handleWorkerExit_no_respawn (s : State) (worker : Worker) (code sig : JsVal) :
  isReloading s = false -> no_respawn_due s worker ->
  exists o,
    quiet o /\
    handleWorkerExit host worker code sig s =
    prefix o
      (after_respawn code
         (set_workerMap (delete (worker_id worker) (workerMap s)) s)).
Proof.
  intros idle reason. unfold handleWorkerExit, handleAutoSpawn. exec.
  rewrite idle. exec.
  destruct (negb (worker_suicide worker) && autoSpawn s) eqn:due; exec.
  - destruct reason as [intended | [off | down]].
    + rewrite intended in due. discriminate.
    + rewrite off, andb_false_r in due. discriminate.
    + rewrite down. exec. eexists. split; [|reflexivity]. repeat constructor.
  - eexists. split; [|reflexivity]. repeat constructor.
Qed.

(** X2.  Outside a reload, the exit of a worker that was intentional
    ([worker.suicide]), or comes with [autoSpawn] off, or while the master
    is shutting down, forks no worker and publishes no 'auto.spawn' event.
    It removes the worker's entry from [workerMap] and changes nothing else
    of the pool: [numOfWorkers], [cluster.workers] and the flags are as they
    were.  And it throws nothing, whether or not the worker had an entry. *)
Theorem exit_without_respawn
    (s : State) (worker : Worker) (code sig : JsVal) :
  isReloading s = false ->
  no_respawn_due s worker ->
  let r := handleWorkerExit host worker code sig s in
  forked (outputs r) = [] /\
  emitted "auto.spawn" (outputs r) = [] /\
  parks_only (set_workerMap (delete (worker_id worker) (workerMap s)) s) (final r) /\
  forall what, stopped r <> Some (Threw what).
Proof.
  intros idle reason r. subst r.
  destruct (handleWorkerExit_no_respawn s worker code sig idle reason)
    as (o & Ho & ->).
  rewrite final_prefix, outputs_prefix, stopped_prefix, forked_app, emitted_app.
  rewrite (quiet_forked _ Ho), (quiet_emitted _ _ Ho).
  destruct (after_respawn_parks code
              (set_workerMap (delete (worker_id worker) (workerMap s)) s))
    as [frame outs].
  rewrite (spawns_nothing_forked _ outs), (spawns_nothing_emitted _ outs).
  repeat split; [exact frame|]. apply after_respawn_safe.
Qed.

End NoRespawn.

Lemma exit_without_respawn_witness :
  isReloading (state (four_workers 1)) = false /\
  worker_suicide (departing first_worker true) = true /\
  forked (outputs (handleWorkerExit (demo true 1) (departing first_worker true)
                     (JNum 0) JNull (state (four_workers 1)))) = [].
Proof.
  split; [reflexivity | split; [reflexivity|]].
  apply (exit_without_respawn (demo true 1) (state (four_workers 1))
           (departing first_worker true) (JNum 0) JNull).
  - reflexivity.
  - left. reflexivity.
Defined.

(** ** The exit of the last worker *)

Section LastWorker.

Variable host : Host.

Lemma last_worker_exit_handled
    (s : State) (w : Worker) (code sig : JsVal) (suicide : bool) :
  cluster_workers s = [w] ->
  clusterExitListeners s = 1%nat ->
  isReloading s = false ->
  no_respawn_due s (departing w suicide) ->
  exists o,
    quiet o /\
    handle host (WorkerExited (worker_id w) code sig suicide) s =
    prefix o
      (when (isShutdown s || truthy code)
         (log LInfo "All worker processes have disconnected" >>
          shutdown JNull code)
         (set_workerMap (delete (worker_id w) (workerMap s))
            (set_cluster_workers [] s))).
Proof.
  intros alone single idle reason. cbn [handle]. unfold onClusterExit.
  exec. unfold lookup_worker. rewrite alone. cbn. rewrite Z.eqb_refl. cbn.
  exec. rewrite single. cbn [repeatM]. rewrite bind_unit.
  fold (departing w suicide). rewrite alone. cbn. rewrite Z.eqb_refl. cbn.
  destruct (handleWorkerExit_no_respawn host
              (set_cluster_workers [] s) (departing w suicide) code sig idle reason)
    as (o & Ho & ->).
  unfold after_respawn, noMoreWorkers, worker_keys. exec.
  change (negb (0 <? Z.of_nat 0)) with true. exec.
  eexists. split; [|reflexivity].
  apply quiet_app; [exact Ho | repeat constructor].
Qed.


End LastWorker.


(** ** The lookups of the worker map *)

Lemma indices_sorted (m : WorkerMap) :
  StronglySorted Z.le
    (merge_sort Z.le (List.filter array_index (fst <$> map_to_list m))).
Proof. apply StronglySorted_merge_sort; typeclasses eauto. Qed.

Lemma indices_listed (m : WorkerMap) (i : Z) :
  In i (merge_sort Z.le (List.filter array_index (fst <$> map_to_list m))) <->
  is_Some (m !! i) /\ array_index i = true.
Proof.
  rewrite <- list_elem_of_In, merge_sort_Permutation, list_elem_of_In, filter_In.
  rewrite <- list_elem_of_In, list_elem_of_fmap.
  split.
  - intros [([j wd] & -> & found%elem_of_map_to_list) index].
    split; [eexists; exact found | exact index].
  - intros [[wd found] index]. split; [|exact index].
    exists (i, wd). split; [reflexivity | apply elem_of_map_to_list, found].
Qed.

Lemma find_least (f : Z -> bool) (l : list Z) (j i : Z) :
  StronglySorted Z.le l -> List.find f l = Some j ->
  In i l -> f i = true -> j <= i.
Proof.
  induction 1 as [|x l sorted IH above]; cbn; [discriminate|].
  destruct (f x) eqn:fx.
  - intros [= ->] [-> | later] _; [lia|].
    rewrite Forall_forall in above. apply above, list_elem_of_In, later.
  - intros found [-> | later] fi; [congruence|]. apply IH; assumption.
Qed.

Lemma find_first_part (f : Z -> bool) (l1 l2 : list Z) (i : Z) :
  In i l1 -> f i = true ->
  exists j, List.find f (l1 ++ l2) = Some j /\ List.find f l1 = Some j.
Proof.
  intros listed hit. induction l1 as [|x l1 IH]; [contradiction|]. cbn.
  destruct (f x) eqn:fx; [eexists; split; reflexivity|].
  destruct listed as [-> | later]; [congruence | exact (IH later)].
Qed.

(** X4.  The two lookups of the worker map agree.  If [getWorkerIdByPid]
    answers [id] for a pid, [getWorkerPidById] answers that pid for [id].
    If [getWorkerPidById] answers [pid] for an id that the loop of
    [getWorkerIdByPid] visits (an array index, that is a whole number from
    0 to 2^32 - 2, as the ids of the cluster module are, or a key listed in
    the order of creation), [getWorkerIdByPid] finds an id for that pid,
    and [getWorkerPidById] answers [pid] for the id found.  When the given
    id is an array index, the id found is an array index too and the
    smallest one recorded with that pid: the given one, unless an earlier
    entry carries the same pid.  For the other keys the loop follows the
    order of their creation, and nothing is said of which comes first. *)
Theorem id_and_pid_lookups_agree (created : list Z) (s : State) (p i : Z) :
  (ee_getWorkerIdByPid created p s = Some i ->
   ee_getWorkerPidById i s = Some p) /\
  (ee_getWorkerPidById i s = Some p ->
   array_index i = true \/ i ∈ created ->
   exists j,
     ee_getWorkerIdByPid created p s = Some j /\
     ee_getWorkerPidById j s = Some p /\
     (array_index i = true -> array_index j = true /\ j <= i)).
Proof.
  unfold ee_getWorkerIdByPid, ee_getWorkerPidById, for_in.
  destruct (syncWorker s); cbn; [|split; discriminate].
  set (f := fun i0 => match workerMap s !! i0 with
                      | Some wd => p =? pid wd
                      | None => false
                      end).
  set (indices := merge_sort Z.le
                    (List.filter array_index (fst <$> map_to_list (workerMap s)))).
  set (others := List.filter
                   (fun k => negb (array_index k) &&
                             bool_decide (is_Some (workerMap s !! k))) created).
  assert (forall j, f j = true -> match workerMap s !! j with
                                  | Some wd => Some (pid wd)
                                  | None => None
                                  end = Some p) as answer.
  { intros j hit. subst f. cbn in hit.
    destruct (workerMap s !! j) as [wd|]; [|discriminate].
    apply Z.eqb_eq in hit. congruence. }
  split.
  - intros [_ hit]%find_some. apply answer, hit.
  - intros entry place.
    assert (is_Some (workerMap s !! i) /\ f i = true) as [present hit].
    { subst f. cbn. destruct (workerMap s !! i) as [wd|] eqn:found; [|discriminate].
      injection entry as <-. split; [eexists; reflexivity | apply Z.eqb_refl]. }
    destruct (array_index i) eqn:index.
    + assert (In i indices) as listed by (apply indices_listed; split; assumption).
      destruct (find_first_part f indices others i listed hit) as (j & first & early).
      exists j. split; [exact first|].
      pose proof (find_some _ _ early) as [placed hit_j].
      split; [apply answer, hit_j|]. intros _. split.
      * apply indices_listed in placed as [_ ok]. exact ok.
      * exact (find_least f indices j i (indices_sorted _) early listed hit).
    + destruct place as [|listed]; [discriminate|].
      assert (In i (indices ++ others)) as visited.
      { apply in_or_app. right. apply filter_In.
        split; [apply list_elem_of_In, listed|].
        rewrite index. cbn. apply bool_decide_eq_true, present. }
      destruct (List.find f (indices ++ others)) as [j|] eqn:first.
      * exists j. split; [reflexivity|].
        apply find_some in first as [_ hit_j].
        split; [apply answer, hit_j | discriminate].
      * pose proof (find_none _ _ first i visited). congruence.
Qed.

Lemma id_and_pid_lookups_witness :
  ee_getWorkerPidById 3 (state (four_workers 1)) = Some 4003 /\
  array_index 3 = true /\
  exists j,
    ee_getWorkerIdByPid [] 4003 (state (four_workers 1)) = Some j /\
    ee_getWorkerPidById j (state (four_workers 1)) = Some 4003 /\
    (array_index 3 = true -> array_index j = true /\ j <= 3).
Proof.
  split; [reflexivity | split; [reflexivity|]].
  apply (proj2 (id_and_pid_lookups_agree [] (state (four_workers 1)) 4003 3)).
  - reflexivity.
  - left. reflexivity.
Defined.

(** Beyond the array indices the loop follows the order of creation: of two
    such keys recorded with the same pid, the one created first is found,
    whichever is the smaller; and an array index comes before both. *)
Example lookup_follows_the_order_of_creation :
  let entry := {| started := 0; pid := 7 |} in
  let s := set_syncWorker true
             (set_workerMap {[ 4294967296 := entry; 4294967295 := entry ]}
                initial) in
  let s' := set_workerMap (<[ 5 := entry ]> (workerMap s)) s in
  ee_getWorkerIdByPid [4294967296; 4294967295] 7 s = Some 4294967296 /\
  ee_getWorkerIdByPid [4294967295; 4294967296] 7 s = Some 4294967295 /\
  ee_getWorkerIdByPid [4294967296; 4294967295] 7 s' = Some 5.
Proof. cbv zeta. repeat split; vm_compute; reflexivity. Qed.

Section Registry.

Variable host : Host.

(** X5.  Started with [max = 0], the process answers nothing from the
    worker map: whatever the configuration says about [sync] and whatever
    the map holds, [getWorkers] returns an empty object and the two lookups
    return null. *)
Theorem standalone_start_disables_the_lookups
    (s : State) (a b : option bool) (created : list Z) (p i : Z) :
  let s' := final (ee_start host
                     (Some {| max := Some 0; cfg_autoSpawn := a; sync := b |}) s) in
  ee_getWorkers s' = ∅ /\
  ee_getWorkerIdByPid created p s' = None /\
  ee_getWorkerPidById i s' = None.
Proof.
  assert (syncWorker
            (final (ee_start host
                      (Some {| max := Some 0; cfg_autoSpawn := a; sync := b |}) s))
          = false) as off.
  { unfold ee_start, start, startListeners, startClusterMode.
    destruct (cluster_isMaster host); exec; [reflexivity|].
    destruct (isMaster s) eqn:E; exec; rewrite ?E; exec; reflexivity. }
  cbn zeta. unfold ee_getWorkers, ee_getWorkerIdByPid, ee_getWorkerPidById.
  rewrite off. repeat split.
Qed.



End Registry.


(** ** A worker told to exit or to reload *)

Section Instructed.

Variable host : Host.


End Instructed.


(** ** Exit requests on a primary without workers *)

Section Alone.

Variable host : Host.

Lemma perform_keeps (m : M unit) (p : Proc) :
  within keeps anything m -> keeps (state p) (state (perform m p)).
Proof.
  intros Hm. unfold perform. destruct (status p); [reflexivity|]. apply Hm.
Qed.

Lemma conclude_keeps (k : nat) (q : Proc) :
  keeps (state q) (state (conclude host k q)).
Proof.
  unfold conclude. destruct (onExit (state q)); [apply step_keeps | reflexivity].
Qed.

Lemma exit_standalone (s : State) (e sg : JsVal) :
  isMaster s = true -> shutdownLock s = false -> numOfWorkers s = 0 ->
  exists text,
    exit host e sg s =
    prefix [Log (printLevel e) text] (shutdown e sg (set_shutdownLock true s)).
Proof.
  intros primary unlocked none. unfold exit. exec. rewrite primary. exec.
  rewrite unlocked. exec.
  destruct (truthy e); exec; rewrite none; cbn; eexists; reflexivity.
Qed.

Lemma exit_master_alone (s : State) (e sg : JsVal) :
  isMaster s = true -> shutdownLock s = false -> numOfWorkers s <> 0 ->
  cluster_isMaster host = true -> cluster_workers s = [] ->
  exists text,
    exit host e sg s =
    prefix [Log (printLevel e) text; Log (printLevel e) "Master is exiting"]
      (shutdown sg JUndefined (set_isShutdown true (set_shutdownLock true s))).
Proof.
  intros primary unlocked some cluster alone. unfold exit. exec.
  rewrite primary. exec. rewrite unlocked. exec.
  apply Z.eqb_neq in some.
  destruct (truthy e); exec; rewrite some, cluster; cbn; exec;
    unfold noMoreWorkers, worker_keys; exec; rewrite alone;
    change (negb (0 <? Z.of_nat (length (List.map worker_id [])))) with true;
    exec; eexists; reflexivity.
Qed.

(** X8.  An exit request ([stop(error)], or an interrupt, quit or terminate
    signal with one listener registered) on a primary that holds no lock and
    has no worker, when every task signals completion without an error.
    With [numOfWorkers = 0] the second argument of the request, the code
    [stop] derives from its error or the name of the signal, is the second
    argument of the 'exit' event.  With [numOfWorkers] other than zero, as
    after a start with [max = 1] or once the workers are gone, that argument
    takes the place of the error: the 'exit' event carries null in its
    second place, the request's own error is dropped, and the shutdown is
    logged at the fatal level exactly when the code or signal is truthy.
    Either way the tasks of the list run in order and the process exits
    with code 0, and the lock is taken. *)
Theorem exit_request_on_primary_without_workers
    (p : Proc) (i : Input) (e sg : JsVal) (errs : list JsVal) :
  status p = None ->
  isMaster (state p) = true ->
  shutdownLock (state p) = false ->
  exit_request host i = Some (e, sg) ->
  exit_calls (state p) i = 1%nat ->
  numOfWorkers (state p) = 0 \/
    (cluster_isMaster host = true /\ cluster_workers (state p) = []) ->
  Forall falsy errs ->
  length errs = length (taskList (state p)) ->
  let k := length (runs (state p)) in
  let q := conclude host k (run host (step host p i) (completions k errs)) in
  tasksRun (since p q) = List.map task (taskList (state p)) /\
  status q = Some (Exited 0) /\
  shutdownLock (state q) = true /\
  (numOfWorkers (state p) = 0 ->
     emitted "exit" (since p q) = [[JNum 0; js_or sg JNull]]) /\
  (numOfWorkers (state p) <> 0 ->
     emitted "exit" (since p q) = [[JNum 0; JNull]] /\
     (truthy sg = true -> logged LFatal (since p q) <> [])).
Proof.
  intros running primary unlocked request once shape ok all k q. subst q k.
  assert (exists o e' sg' s1,
            handle host i (state p) = prefix o (shutdown e' sg' s1) /\
            quiet o /\ shutdownLock s1 = true /\
            runs s1 = runs (state p) /\ taskList s1 = taskList (state p) /\
            (numOfWorkers (state p) = 0 -> sg' = sg) /\
            (numOfWorkers (state p) <> 0 -> sg' = JUndefined /\ e' = sg))
    as (o & e' & sg' & s1 & E & Ho & locked & same_runs & same_tasks & alone & master).
  { rewrite (handle_exit_request host i e sg _ request), once.
    cbn [repeatM]. rewrite bind_unit.
    destruct (Z.eq_dec (numOfWorkers (state p)) 0) as [none | some].
    - destruct (exit_standalone (state p) e sg primary unlocked none) as (text & ->).
      eexists _, _, _, _. split; [reflexivity|].
      split; [repeat constructor|]. do 3 (split; [reflexivity|]).
      split; [reflexivity | contradiction].
    - destruct shape as [none | [cluster alone]]; [contradiction|].
      destruct (exit_master_alone (state p) e sg primary unlocked some cluster alone)
        as (text & ->).
      eexists _, _, _, _. split; [reflexivity|].
      split; [repeat constructor|]. do 3 (split; [reflexivity|]).
      split; [contradiction | split; reflexivity]. }
  unfold step. rewrite (perform_prefix _ _ p _ _ running E).
  match goal with |- context [perform _ ?p0] => set (p1 := p0) end.
  destruct (shutdown_runs_to_exit host p1 e' sg' errs eq_refl ok
              ltac:(cbn; rewrite same_tasks; exact all))
    as ((o1 & H & T & X & L) & _ & S2 & x & Hx & Tx & Xx).
  cbn [state p1] in *. rewrite same_runs, same_tasks in *.
  cbn [history p1] in H. rewrite <- app_assoc in H.
  rewrite (since_extended _ _ _ _ _ H Hx).
  rewrite !tasksRun_app, !emitted_app, T, Tx, X, Xx.
  rewrite (quiet_tasksRun _ Ho), (quiet_emitted _ _ Ho), app_nil_r.
  split; [reflexivity|]. split; [exact S2|]. split.
  - match goal with |- shutdownLock (state ?q) = true =>
      assert (keeps (state p1) (state q)) as [kept _]
    end.
    { etransitivity; [|apply conclude_keeps].
      etransitivity; [|apply run_keeps].
      apply perform_keeps, calm_within_keeps, quiet_calm, shutdown_quiet. }
    apply kept, locked.
  - split.
    + intros none. rewrite (alone none). reflexivity.
    + intros some. destruct (master some) as [-> ->]. split; [reflexivity|].
      intros fatal. specialize (L fatal). unfold logged in *.
      rewrite !omap_app. intros [[_ bad]%app_eq_nil _]%app_eq_nil. auto.
Qed.

End Alone.

Lemma exit_request_on_primary_witness :
  status single_worker_master = None /\
  isMaster (state single_worker_master) = true /\
  shutdownLock (state single_worker_master) = false /\
  numOfWorkers (state single_worker_master) <> 0 /\
  cluster_workers (state single_worker_master) = [] /\
  length [JUndefined] = length (taskList (state single_worker_master)) /\
  emitted "exit"
    (since single_worker_master
       (conclude (demo true 1) 0
          (run (demo true 1)
             (step (demo true 1) single_worker_master (Signalled SigTerm))
             (completions 0 [JUndefined])))) = [[JNum 0; JNull]].
Proof.
  do 3 (split; [reflexivity|]). split; [discriminate|].
  do 2 (split; [reflexivity|]).
  apply (exit_request_on_primary_without_workers (demo true 1)
           single_worker_master (Signalled SigTerm) JNull (JStr SIGTERM)
           [JUndefined]); try reflexivity.
  - right. split; reflexivity.
  - repeat constructor.
  - discriminate.
Defined.

(** ** The trace of a shutdown that ends in the exit hook *)

Section Trace.

Variable host : Host.

Lemma series_trace (k : nat) (errs : list JsVal) : forall (p : Proc) (r : Run),
  status p = None ->
  runs (state p) !! k = Some r ->
  run_phase r = AwaitTask ->
  Forall falsy errs ->
  (length errs <= length (run_rest r))%nat ->
  history (run host p (completions k errs)) =
  history p ++
  task_calls (printLevel (run_error r)) k (take (length errs) (run_rest r)).
Proof.
  induction errs as [|err errs IH]; intros p r running found waiting ok enough.
  - cbn. rewrite app_nil_r. reflexivity.
  - apply Forall_cons_1 in ok as [ok_err ok].
    destruct (run_rest r) as [|item rest] eqn:more; [cbn in enough; lia|].
    cbn [completions List.map]. rewrite run_cons.
    set (p1 := step host p (TaskCalledBack k err)).
    assert (step1 : p1 = {| state := set_runs (<[k := advance 1 r]> (runs (state p))) (state p);
                            history := history p ++
                              [Log (printLevel (run_error r)) "Execute shutdown task";
                               RunTask k (task item)];
                            status := None |}).
    { subst p1. unfold step, perform. rewrite running. cbn [handle].
      rewrite (task_callback_next k r err (state p) item rest found waiting ok_err more).
      reflexivity. }
    assert (k < length (runs (state p)))%nat as bound
      by (eapply lookup_lt_Some; exact found).
    fold (completions k errs).
    rewrite (IH p1 (advance 1 r)).
    + rewrite step1. cbn [history advance run_rest run_error]. rewrite more.
      cbn. rewrite drop_0, <- app_assoc. reflexivity.
    + rewrite step1. reflexivity.
    + rewrite step1. cbn. apply list_lookup_insert_eq, bound.
    + reflexivity.
    + exact ok.
    + cbn. rewrite more. cbn. rewrite drop_0. cbn in enough. lia.
Qed.

Lemma shutdown_done_trace (k : nat) (r : Run) (err : JsVal) (s : State) (h : HookId) :
  onExit s = Some h ->
  shutdown_done k r err s =
  Ret tt (set_runs (<[k := hooked (exit_code err) r]> (runs s)) s)
    (done_outputs (run_error r) (run_sig r) (exit_code err) k h).
Proof.
  intros hook. unfold shutdown_done, done_outputs. fold (exit_code err).
  exec. destruct (truthy (run_error r)); exec; rewrite hook; exec; reflexivity.
Qed.

(** X9.  A shutdown whose tasks all signal completion without an error, in
    a process with an exit hook, outputs exactly this, in this order: the
    line that counts the tasks; for each task of the list, in order, one
    line and the call of the task; the exit line, and the error line when
    the shutdown carries an error; the 'exit' event with code 0; and last
    the call of the exit hook.  The process is then still running: it exits,
    with code 0 and nothing but log lines, when the hook calls back. *)
Theorem clean_shutdown_ends_in_the_exit_hook
    (p : Proc) (e sg : JsVal) (errs : list JsVal) (h : HookId) :
  status p = None ->
  onExit (state p) = Some h ->
  Forall falsy errs ->
  length errs = length (taskList (state p)) ->
  let k := length (runs (state p)) in
  let q := run host (perform (shutdown e sg) p) (completions k errs) in
  since p q =
    [Log LVerbose "Number of shutdown tasks before shutting down"] ++
    task_calls (printLevel e) k (taskList (state p)) ++
    done_outputs e sg 0 k h /\
  status q = None /\
  status (step host q (HookCalledBack k)) = Some (Exited 0) /\
  quiet (since q (step host q (HookCalledBack k))).
Proof.
  intros running hook ok all k q.
  assert (exists s2 r2,
            state q = set_runs (<[k := hooked 0 r2]> (runs s2)) s2 /\
            (k < length (runs s2))%nat /\
            status q = None /\
            history q = history p ++
              [Log LVerbose "Number of shutdown tasks before shutting down"] ++
              task_calls (printLevel e) k (taskList (state p)) ++
              done_outputs e sg 0 k h)
    as (s2 & r2 & Eq & bound & Sq & Hq).
  { subst q k. destruct (taskList (state p)) as [|item rest] eqn:tasks.
    - destruct errs; [|discriminate]. cbn [completions List.map run fold_left].
      destruct (shutdown_empty e sg (state p) tasks) as (s0 & E & found & hook0).
      rewrite hook in hook0.
      rewrite (shutdown_done_trace _ _ _ _ h hook0) in E.
      unfold perform. rewrite running, E. cbn.
      eexists _, _. split; [reflexivity|].
      split; [eapply lookup_lt_Some; exact found|]. split; reflexivity.
    - destruct (shutdown_begins e sg (state p) item rest tasks)
        as (s1 & E & found & hook1).
      rewrite hook in hook1.
      destruct errs as [|last errs _] using rev_ind; [discriminate|].
      rewrite length_app in all. cbn in all.
      apply Forall_app in ok as [ok last_ok]. apply Forall_inv in last_ok.
      set (p1 := perform (shutdown e sg) p).
      assert (Ep1 : p1 = {| state := s1;
                            history := history p ++
                              [Log LVerbose "Number of shutdown tasks before shutting down";
                               Log (printLevel e) "Execute shutdown task";
                               RunTask (length (runs (state p))) (task item)];
                            status := None |}).
      { subst p1. unfold perform. rewrite running, E. reflexivity. }
      set (r1 := advance 1 (new_run e sg (state p))) in *.
      assert (run_rest r1 = rest) as left_over
        by (subst r1; cbn; rewrite tasks; cbn; apply drop_0).
      assert (status p1 = None) as running1 by (rewrite Ep1; reflexivity).
      assert (runs (state p1) !! length (runs (state p)) = Some r1) as found1
        by (rewrite Ep1; exact found).
      assert (length errs <= length (run_rest r1))%nat as enough
        by (rewrite left_over; lia).
      destruct (series_advances host _ errs p1 r1 running1 found1 eq_refl ok enough)
        as (Q1 & Q2 & _).
      pose proof (series_trace _ errs p1 r1 running1 found1 eq_refl ok enough) as H2.
      unfold completions. rewrite map_app, run_app. cbn [List.map run fold_left].
      fold (completions (length (runs (state p))) errs).
      set (p2 := run host p1 (completions (length (runs (state p))) errs)) in *.
      assert (length (runs (state p)) < length (runs (state p1)))%nat as bound1
        by (eapply lookup_lt_Some; exact found1).
      assert (found2 : runs (state p2) !! length (runs (state p)) =
                       Some (advance (length errs) r1))
        by (rewrite Q2; cbn; apply list_lookup_insert_eq, bound1).
      assert (hook2 : onExit (state p2) = Some h)
        by (rewrite Q2, Ep1; exact hook1).
      unfold step, perform. rewrite Q1. cbn [handle].
      rewrite (task_callback_last _ _ last (state p2) found2 eq_refl last_ok)
        by (unfold advance; cbn [run_rest]; rewrite left_over;
            apply drop_ge; lia).
      rewrite (shutdown_done_trace _ _ _ _ h hook2). cbn.
      eexists _, _. split; [reflexivity|].
      split; [eapply lookup_lt_Some; exact found2|]. split; [reflexivity|].
      rewrite H2, Ep1. cbn [history]. rewrite left_over.
      rewrite firstn_all2 by lia.
      subst r1. cbn. rewrite <- !app_assoc. reflexivity. }
  clearbody q.
  split; [apply since_app, Hq|]. split; [exact Sq|].
  unfold step, perform. rewrite Sq. cbn [handle].
  rewrite (hook_callback_exits k (hooked 0 r2) 0)
    by first [rewrite Eq; cbn; apply list_lookup_insert_eq, bound | reflexivity].
  destruct (process_exit_halts 0 (state q)) as (o' & -> & quiet').
  cbn. split; [reflexivity|].
  unfold since. cbn. rewrite drop_app_length. exact quiet'.
Qed.

End Trace.

Lemma clean_shutdown_witness :
  status standalone_with_hook = None /\
  onExit (state standalone_with_hook) = Some 3%nat /\
  length [JUndefined] = length (taskList (state standalone_with_hook)) /\
  since standalone_with_hook
    (run (demo true 1) (perform (shutdown JNull JNull) standalone_with_hook)
       (completions 0 [JUndefined])) =
  [Log LVerbose "Number of shutdown tasks before shutting down";
   Log LInfo "Execute shutdown task"; RunTask 0 7%nat;
   Log LInfo "Exit"; Emit "exit" [JNum 0; JNull]; RunExitHook 0 3%nat].
Proof.
  do 3 (split; [reflexivity|]).
  apply (clean_shutdown_ends_in_the_exit_hook (demo true 1) standalone_with_hook
           JNull JNull [JUndefined] 3%nat); try reflexivity.
  repeat constructor.
Defined.

(** ** A reload that is not over *)

Section OpenReload.

Variable host : Host.



End OpenReload.


(** ** The pool a master starts with *)

Section Pool.

Variable host : Host.

Lemma createWorker_returns (s : State) :
  exists o,
    createWorker host s =
      Ret (worker_numbered host (nextId s)) (with_new_worker host s) o /\
    forked o = [worker_numbered host (nextId s)] /\
    forall event, emitted event o = [].
Proof.
  unfold createWorker. exec.
  match goal with |- context [bind syncWorkerMap ?k ?s2] =>
    destruct (syncWorkerMap_returns s2) as (o & E & chat);
    rewrite (bind_Ret syncWorkerMap k s2 tt s2 o E) end.
  exec. eexists. split; [reflexivity|].
  pose proof (chatter_forked _ chat) as no_fork.
  split.
  - unfold forked in *. cbn. rewrite ?omap_app, no_fork. reflexivity.
  - intros event. pose proof (chatter_emitted event _ chat) as no_event.
    unfold emitted in *. cbn. rewrite ?omap_app, no_event. reflexivity.
Qed.

Lemma pool_created (n : nat) : forall s : State,
  exists o,
    repeatM n (let! w := createWorker host in ret tt) s = Ret tt (pool host n s) o /\
    forked o =
      List.map (worker_numbered host) (seqZ (nextId s) (Z.of_nat n)) /\
    forall event, emitted event o = [].
Proof.
  induction n as [|n IH]; intros s.
  - exists []. repeat split.
  - cbn [repeatM pool].
    destruct (createWorker_returns s) as (o1 & E1 & F1 & X1).
    destruct (IH (with_new_worker host s)) as (o2 & E2 & F2 & X2).
    rewrite bind_bind, (bind_Ret _ _ _ _ _ _ E1). exec. rewrite E2.
    eexists. split; [reflexivity|]. split.
    + rewrite forked_app, F1, F2. rewrite (seqZ_cons (nextId s)) by lia.
      replace (Z.pred (Z.of_nat (S n))) with (Z.of_nat n) by lia. reflexivity.
    + intros event. rewrite emitted_app, X1, X2. reflexivity.
Qed.

Lemma pool_frame (n : nat) : forall s : State,
  let s' := pool host n s in
  nextId s' = nextId s + Z.of_nat n /\
  ticks s' = (ticks s + n)%nat /\
  cluster_workers s' =
    cluster_workers s ++
    List.map (worker_numbered host) (seqZ (nextId s) (Z.of_nat n)) /\
  s' = set_workerMap (workerMap s')
         (set_ticks (ticks s')
            (set_nextId (nextId s')
               (set_cluster_workers (cluster_workers s') s))).
Proof.
  induction n as [|n IH]; intros s; cbn [pool].
  - cbn. rewrite Z.add_0_r, Nat.add_0_r, app_nil_r.
    repeat split. destruct s; reflexivity.
  - destruct (IH (with_new_worker host s)) as (I1 & I2 & I3 & I4).
    cbn zeta. rewrite I1, I2, I3. cbn.
    rewrite (seqZ_cons (nextId s)) by lia.
    replace (Z.pred (Z.of_nat (S n))) with (Z.of_nat n) by lia.
    rewrite <- app_assoc. cbn. split; [lia|]. split; [lia|]. split; [reflexivity|].
    rewrite I4 at 1. rewrite I1, I2, I3. cbn.
    rewrite <- app_assoc.
    replace (nextId s + 1 + Z.of_nat n) with (nextId s + Z.pos (Pos.of_succ_nat n))
      by lia.
    replace (S (ticks s) + n)%nat with (ticks s + S n)%nat by lia.
    reflexivity.
Qed.

Lemma pool_keeps_older_entries (n : nat) : forall (s : State) (i : Z),
  i < nextId s -> workerMap (pool host n s) !! i = workerMap s !! i.
Proof.
  induction n as [|n IH]; intros s i older; cbn [pool]; [reflexivity|].
  rewrite IH by (cbn; lia). cbn. apply lookup_insert_ne. lia.
Qed.

Lemma pool_records_each_worker (n : nat) : forall (s : State) (j : nat),
  (j < n)%nat ->
  workerMap (pool host n s) !! (nextId s + Z.of_nat j) =
  Some {| started := clock host (ticks s + j);
          pid := fork_pid host (nextId s + Z.of_nat j) |}.
Proof.
  induction n as [|n IH]; intros s j bound; [lia|]. cbn [pool].
  destruct j as [|j].
  - rewrite Z.add_0_r, Nat.add_0_r.
    rewrite pool_keeps_older_entries by (cbn; lia).
    cbn. apply lookup_insert_eq.
  - specialize (IH (with_new_worker host s) j ltac:(lia)). cbn in IH.
    replace (nextId s + Z.of_nat (S j)) with (nextId s + 1 + Z.of_nat j) by lia.
    replace (ticks s + S j)%nat with (S (ticks s + j)) by lia.
    exact IH.
Qed.

(** X11.  A start with [max = N], [N > 1], in the primary process forks
    exactly [N] workers, numbered consecutively from the cluster module's
    counter, and nothing stops it.  Afterwards [cluster.workers] holds them
    in that order after the workers it held, [workerMap] has for each of
    them an entry with its pid and the time of its creation, and the entries
    of earlier workers are untouched; [numOfWorkers] is [N] and the process
    is a master.  One 'cluster' event with state 'master.ready' and one
    'cluster.master.ready' event are published, both with the pid of the
    process, and no other event. *)
Theorem start_forks_the_pool (s : State) (N : Z) (a b : option bool) :
  cluster_isMaster host = true ->
  1 < N ->
  let r := ee_start host (Some {| max := Some N; cfg_autoSpawn := a; sync := b |}) s in
  let ids := seqZ (nextId s) N in
  stopped r = None /\
  forked (outputs r) = List.map (worker_numbered host) ids /\
  cluster_workers (final r) =
    cluster_workers s ++ List.map (worker_numbered host) ids /\
  (forall j : nat, Z.of_nat j < N ->
     workerMap (final r) !! (nextId s + Z.of_nat j) =
     Some {| started := clock host (ticks s + j);
             pid := fork_pid host (nextId s + Z.of_nat j) |}) /\
  (forall i, i < nextId s -> workerMap (final r) !! i = workerMap s !! i) /\
  numOfWorkers (final r) = N /\
  ee_isMaster (final r) = true /\
  emitted "cluster" (outputs r) = [[JStr "master.ready"; JNum (process_pid host)]] /\
  emitted "cluster.master.ready" (outputs r) = [[JNum (process_pid host)]].
Proof.
  intros primary many r ids. subst r ids.
  unfold ee_start, start, startListeners, startClusterMode, startMaster.
  rewrite primary. exec.
  assert (match N with 0 => 0 | _ => N end = N) as -> by (destruct N; reflexivity).
  unfold ee_isCluster. cbn.
  assert ((N =? 0) = false) as -> by (apply Z.eqb_neq; lia).
  cbn. exec.
  assert ((1 <? N) = true) as -> by (apply Z.ltb_lt; lia).
  exec.
  match goal with |- context [bind (repeatM ?n ?m) ?k ?s1] =>
    destruct (pool_created n s1) as (o & E & F & X);
    rewrite (bind_Ret _ k s1 tt _ o E);
    destruct (pool_frame n s1) as (_ & _ & P3 & P4);
    pose proof (pool_records_each_worker n s1) as P5;
    pose proof (pool_keeps_older_entries n s1) as P6;
    set (s2 := pool host n s1) in *
  end.
  cbn in F, P3, P4, P5, P6. rewrite Z2Nat.id in F, P3 by lia.
  exec.
  assert (isMaster s2 = true /\ numOfWorkers s2 = N) as [master count]
    by (rewrite P4; split; reflexivity).
  rewrite master. exec.
  split; [reflexivity|].
  split; [unfold forked in *; cbn; rewrite !omap_app, F; cbn;
          rewrite !app_nil_r; reflexivity|].
  split; [exact P3|].
  split; [intros j bound; apply P5; lia|].
  split; [exact P6|].
  split; [exact count|].
  split.
  { unfold ee_isMaster. cbn. rewrite master, count.
    assert ((N =? 0) = false) as -> by (apply Z.eqb_neq; lia). reflexivity. }
  pose proof (X "cluster") as X1. pose proof (X "cluster.master.ready") as X2.
  unfold emitted in *. cbn. rewrite !omap_app, X1, X2. split; reflexivity.
Qed.

End Pool.

Lemma start_forks_the_pool_witness :
  cluster_isMaster (demo true 1) = true /\
  forked (outputs (ee_start (demo true 1) (config 2 false) initial)) =
  [first_worker; second_worker].
Proof.
  split; [reflexivity|].
  destruct (start_forks_the_pool (demo true 1) initial 2 (Some false) None
              eq_refl eq_refl) as (_ & F & _).
  exact F.
Defined.

(** ** Outputs that stay in the process *)

Lemma local_told h : Forall local h -> told_to_exit h = [].
Proof.
  induction 1 as [|o h Ho _ IH]; [reflexivity|].
  destruct o; try contradiction; exact IH.
Qed.

Lemma local_forked h : Forall local h -> forked h = [].
Proof.
  induction 1 as [|o h Ho _ IH]; [reflexivity|].
  destruct o; try contradiction; exact IH.
Qed.

Lemma quiet_local h : quiet h -> Forall local h.
Proof. intros H. eapply Forall_impl; [exact H|]. intros []; cbn; tauto. Qed.

Lemma told_to_exit_app h1 h2 :
  told_to_exit (h1 ++ h2) = told_to_exit h1 ++ told_to_exit h2.
Proof. apply omap_app. Qed.

#[local] Instance pool_only_preorder : PreOrder pool_only.
Proof.
  split.
  - intros s. destruct s; reflexivity.
  - intros a b c H1 H2. unfold pool_only in *. rewrite H2, H1 at 1.
    destruct a; reflexivity.
Qed.

Create HintDb locals.

Ltac pooled := cbn; unfold parks_only, local; cbn; try tauto; try reflexivity.

Ltac localise := repeat first [within_step ltac:(pooled) | solve [eauto with locals]].

Lemma process_exit_local code : within parks_only local (process_exit code).
Proof. unfold process_exit. localise. Qed.
#[local] Hint Resolve process_exit_local : locals.

Lemma shutdown_done_local k r err : within parks_only local (shutdown_done k r err).
Proof. unfold shutdown_done. localise. Qed.
#[local] Hint Resolve shutdown_done_local : locals.

Lemma eachSeries_tasks_local k r : within parks_only local (eachSeries_tasks k r).
Proof. unfold eachSeries_tasks. localise. Qed.
#[local] Hint Resolve eachSeries_tasks_local : locals.

Lemma shutdown_local e sg : within parks_only local (shutdown e sg).
Proof. unfold shutdown. localise. Qed.

Lemma task_callback_local k err : within parks_only local (task_callback k err).
Proof. unfold task_callback. localise. Qed.

Lemma hook_callback_local k : within parks_only local (hook_callback k).
Proof. unfold hook_callback. localise. Qed.

Section Local.

Variable host : Host.

Lemma perform_local (m : M unit) (p : Proc) :
  within parks_only local m ->
  parks_only (state p) (state (perform m p)) /\
  exists o, history (perform m p) = history p ++ o /\ Forall local o.
Proof.
  intros Hm. unfold perform. destruct (status p).
  - split; [reflexivity|]. exists []. rewrite app_nil_r. split; [reflexivity | constructor].
  - destruct (Hm (state p)) as [frame outs]. split; [exact frame|].
    eexists. split; [reflexivity | exact outs].
Qed.

Lemma series_is_local (k : nat) (errs : list JsVal) : forall p : Proc,
  parks_only (state p) (state (run host p (completions k errs))) /\
  exists o,
    history (run host p (completions k errs)) = history p ++ o /\ Forall local o.
Proof.
  induction errs as [|err errs IH]; intros p.
  - split; [reflexivity|]. exists []. rewrite app_nil_r. split; [reflexivity | constructor].
  - cbn [completions List.map]. rewrite run_cons. fold (completions k errs).
    destruct (perform_local (task_callback k err) p (task_callback_local k err))
      as (frame1 & o1 & H1 & L1).
    change (perform (task_callback k err) p)
      with (step host p (TaskCalledBack k err)) in *.
    destruct (IH (step host p (TaskCalledBack k err))) as (frame2 & o2 & H2 & L2).
    split; [etransitivity; eassumption|].
    exists (o1 ++ o2). rewrite H2, H1, app_assoc.
    split; [reflexivity | apply Forall_app_2; assumption].
Qed.

Lemma conclude_local (k : nat) (q : Proc) :
  exists o, history (conclude host k q) = history q ++ o /\ Forall local o.
Proof.
  unfold conclude. destruct (onExit (state q)).
  - apply (perform_local (hook_callback k) q (hook_callback_local k)).
  - exists []. rewrite app_nil_r. split; [reflexivity | constructor].
Qed.

End Local.

(** ** The graceful shutdown of a master with workers *)

Lemma syncWorkerMap_tells_no_one (s : State) :
  exists o,
    syncWorkerMap s = Ret tt s o /\
    told_to_exit o = [] /\ tasksRun o = [] /\ forked o = [] /\
    emitted "exit" o = [].
Proof.
  unfold syncWorkerMap. exec. destruct (syncWorker s); exec;
    eexists; (split; [reflexivity|]); repeat split.
Qed.

Lemma some_workers (n : nat) : negb (0 <? Z.of_nat (S n)) = false.
Proof. reflexivity. Qed.

Lemma filter_others (w : Worker) (l : list Worker) :
  worker_id w ∉ List.map worker_id l ->
  List.filter (fun x => negb (worker_id x =? worker_id w)) l = l.
Proof.
  induction l as [|x l IH]; [reflexivity|]. cbn.
  intros fresh. apply not_elem_of_cons in fresh as [differs fresh].
  assert ((worker_id x =? worker_id w) = false) as -> by (apply Z.eqb_neq; congruence).
  cbn. rewrite IH by exact fresh. reflexivity.
Qed.

Section Drain.

Variable host : Host.

(** The exit request that starts the drain. *)
Lemma exit_master_with_workers (s : State) (e sg : JsVal) (w : Worker) (rest : list Worker) :
  isMaster s = true -> shutdownLock s = false -> numOfWorkers s <> 0 ->
  cluster_isMaster host = true -> cluster_workers s = w :: rest ->
  exists o,
    exit host e sg s =
      Ret tt
        (set_onceWorkerExit
           (onceWorkerExit s ++
            [{| ec_keys := List.map worker_id rest; ec_error := e |}])
           (set_isShutdown true (set_shutdownLock true s))) o /\
    told_to_exit o = [Some w] /\ tasksRun o = [] /\ forked o = [] /\
    emitted "exit" o = [].
Proof.
  intros primary unlocked some cluster pool. unfold exit. exec.
  rewrite primary. exec. rewrite unlocked. exec.
  apply Z.eqb_neq in some.
  destruct (truthy e); exec; rewrite some, cluster; cbn; exec;
    unfold noMoreWorkers, worker_keys; exec; rewrite pool; cbn;
    rewrite some_workers; exec; rewrite pool;
    unfold eachSeries_exit; cbn; exec;
    unfold lookup_worker; cbn; rewrite pool; cbn; rewrite Z.eqb_refl; cbn;
    eexists; (split; [reflexivity|]); repeat split.
Qed.

Lemma filter_departed (w : Worker) (l : list Worker) :
  worker_id w ∉ List.map worker_id l ->
  List.filter (fun x => negb (worker_id x =? worker_id w)) (w :: l) = l.
Proof.
  intros fresh. cbn. rewrite Z.eqb_refl. cbn. apply filter_others, fresh.
Qed.

(** One worker of the drain exits while others are left: the next one is
    told to exit. *)
Lemma drain_step (p : Proc) (e : JsVal) (w w2 : Worker) (rest : list Worker)
    (code sig : JsVal) (suicide : bool) :
  draining e (w :: w2 :: rest) p ->
  let q := step host p (WorkerExited (worker_id w) code sig suicide) in
  draining e (w2 :: rest) q /\
  pool_only (state p) (state q) /\
  exists o,
    history q = history p ++ o /\
    told_to_exit o = [Some w2] /\ tasksRun o = [] /\ forked o = [] /\
    emitted "exit" o = [].
Proof.
  intros (running & down & idle & single & pool & parked & distinct) q. subst q.
  assert (lookup_worker (worker_id w) (state p) = Some w) as found
    by (unfold lookup_worker; rewrite pool; cbn; rewrite Z.eqb_refl; reflexivity).
  apply NoDup_cons in distinct as [fresh distinct].
  unfold step, perform. rewrite running. cbn [handle]. unfold onClusterExit.
  exec. rewrite found. exec. rewrite single. cbn [repeatM]. rewrite bind_unit.
  fold (departing w suicide). rewrite pool, (filter_departed w (w2 :: rest) fresh).
  destruct (handleWorkerExit_no_respawn host
              (set_cluster_workers (w2 :: rest) (state p)) (departing w suicide)
              code sig idle (or_intror (or_intror down)))
    as (o & Ho & ->).
  unfold after_respawn, noMoreWorkers, worker_keys. exec.
  rewrite some_workers. exec.
  match goal with |- context [bind syncWorkerMap ?k ?s2] =>
    destruct (syncWorkerMap_tells_no_one s2) as (o1 & E1 & T1 & R1 & F1 & X1);
    rewrite (bind_Ret syncWorkerMap k s2 tt s2 o1 E1) end.
  unfold emitter_emit_workerExit. exec. rewrite parked. cbn [forM tail List.map].
  rewrite bind_unit. unfold eachSeries_exit. cbn. exec.
  unfold lookup_worker. cbn. rewrite Z.eqb_refl. cbn.
  split; [unfold draining; cbn; repeat split; assumption|].
  split; [unfold pool_only; cbn; destruct (state p); reflexivity|].
  eexists. split; [reflexivity|].
  rewrite !told_to_exit_app, !tasksRun_app, !forked_app, !emitted_app.
  rewrite T1, R1, F1, X1, (local_told _ (quiet_local _ Ho)).
  rewrite (quiet_tasksRun _ Ho), (quiet_forked _ Ho), (quiet_emitted _ _ Ho).
  repeat split.
Qed.

(** The first [j] workers of the drain exit in turn. *)
Lemma drain (j : nat) : forall (p : Proc) (e : JsVal) (ws : list Worker)
    (exits : list Input),
  draining e ws p ->
  Forall2 departs ws exits ->
  (j < length ws)%nat ->
  let q := run host p (take j exits) in
  draining e (drop j ws) q /\
  pool_only (state p) (state q) /\
  exists o,
    history q = history p ++ o /\
    told_to_exit o = List.map Some (take j (tail ws)) /\
    tasksRun o = [] /\ forked o = [] /\ emitted "exit" o = [].
Proof.
  induction j as [|j IH]; intros p e ws exits invariant turn bound.
  - cbn. rewrite drop_0. split; [exact invariant|]. split; [reflexivity|].
    exists []. rewrite app_nil_r. repeat split.
  - destruct ws as [|w [|w2 rest]]; cbn in bound; try lia.
    apply Forall2_cons_inv_l in turn
      as (x & exits' & (code & sig & suicide & ->) & turn & ->).
    cbn [take]. rewrite run_cons.
    destruct (drain_step p e w w2 rest code sig suicide invariant)
      as (invariant1 & frame1 & o1 & H1 & T1 & R1 & F1 & X1).
    destruct (IH _ e (w2 :: rest) exits' invariant1 turn ltac:(cbn; lia))
      as (invariant2 & frame2 & o2 & H2 & T2 & R2 & F2 & X2).
    split; [exact invariant2|]. split; [etransitivity; eassumption|].
    exists (o1 ++ o2). rewrite H2, H1, app_assoc.
    rewrite told_to_exit_app, tasksRun_app, forked_app, emitted_app.
    rewrite T1, T2, R1, R2, F1, F2, X1, X2. repeat split.
Qed.

(** The last worker of the drain exits: the final shutdown runs. *)
Lemma last_of_the_drain (p : Proc) (e : JsVal) (w : Worker) (x : Input)
    (errs : list JsVal) :
  draining e [w] p ->
  departs w x ->
  Forall falsy errs ->
  length errs = length (taskList (state p)) ->
  let k := length (runs (state p)) in
  let q := conclude host k (run host (step host p x) (completions k errs)) in
  exists o,
    history q = history p ++ o /\
    told_to_exit o = [] /\ forked o = [] /\
    tasksRun o = List.map task (taskList (state p)) /\
    status q = Some (Exited 0).
Proof.
  intros (running & down & idle & single & pool & _ & _)
    (code & sig & suicide & ->) ok all k q. subst q k.
  destruct (last_worker_exit_handled host (state p) w code sig suicide
              pool single idle (or_intror (or_intror down))) as (o & Ho & E).
  rewrite down in E. cbn [orb when] in E. revert E. exec. intros E.
  unfold step. cbn [handle]. rewrite (perform_prefix _ _ p _ _ running E).
  match goal with |- context [perform _ ?p0] => set (p1 := p0) end.
  destruct (shutdown_runs_to_exit host p1 JNull code errs eq_refl ok all)
    as ((o1 & H & T & _) & _ & S2 & x & Hx & Tx & _).
  change (length (runs (state p1))) with (length (runs (state p))) in *.
  change (taskList (state p1)) with (taskList (state p)) in *.
  destruct (perform_local (shutdown JNull code) p1 (shutdown_local _ _))
    as (_ & oa & Ha & La).
  destruct (series_is_local host (length (runs (state p))) errs
              (perform (shutdown JNull code) p1)) as (_ & ob & Hb & Lb).
  destruct (conclude_local host (length (runs (state p)))
              (run host (perform (shutdown JNull code) p1)
                 (completions (length (runs (state p))) errs)))
    as (oc & Hc & Lc).
  rewrite Hb, Ha in H. rewrite <- app_assoc in H. apply app_inv_head in H.
  rewrite Hx in Hc. apply app_inv_head in Hc. subst o1 x.
  assert (Forall local
            ((o ++ [Log LInfo "All worker processes have disconnected"]) ++
             oa ++ ob ++ oc)) as all_local.
  { repeat apply Forall_app_2; try assumption;
      [apply quiet_local, Ho | repeat constructor]. }
  eexists. split; [rewrite Hx, Hb, Ha; cbn [history p1];
                   rewrite <- !app_assoc; reflexivity|].
  rewrite <- !app_assoc in all_local.
  split; [apply local_told, all_local|].
  split; [apply local_forked, all_local|].
  split; [|exact S2].
  rewrite tasksRun_app in T.
  rewrite !tasksRun_app, (quiet_tasksRun _ Ho), (app_assoc (tasksRun oa)), T, Tx.
  cbn. apply app_nil_r.
Qed.

Lemma handle_requests_exit (s : State) (i : Input) (e sg : JsVal) :
  requests_exit host s i e sg ->
  exists o, quiet o /\ handle host i s = prefix o (exit host e sg s).
Proof.
  intros [[request once] | (j & data & d & -> & [w found] & parsed & cmd & -> & ->)].
  - exists []. split; [constructor|].
    rewrite (handle_exit_request host i e sg _ request), once.
    cbn [repeatM]. rewrite bind_unit, prefix_nil. reflexivity.
  - destruct (parse_or_keep_received host data s) as (o1 & Ho1 & E1).
    exists (o1 ++ [Log LInfo "Exit instruction from worker"]).
    split; [apply quiet_app; [exact Ho1 | repeat constructor]|].
    cbn [handle]. rewrite bind_gets, found. unfold onWorkerMessage.
    rewrite (bind_Ret _ _ _ _ _ _ E1), parsed, cmd.
    change (String.eqb CMD_EXIT CMD_MSG) with false.
    change (String.eqb CMD_EXIT CMD_EXIT) with true.
    cbv iota. exec. reflexivity.
Qed.

(** X12.  A graceful shutdown of a master with workers, begun while nothing
    else is under way: the master is unlocked, no reload is in progress
    ([isReloading] is false), no earlier exit is waiting for a worker (no
    series of [exit] is parked on 'workerExit'), the cluster's 'exit' event
    has its one listener and the workers have distinct ids.  An exit
    request ([stop], a signal with one listener registered, or the EXIT
    envelope a worker has forwarded) then tells the first worker, in
    creation order, to exit, and no other.  Each time the worker that was
    told exits, the next one is told; no worker is told twice, none is
    replaced, and as long as a worker is left no shutdown task is called
    and no 'exit' event published.  When the workers have exited in that
    order and the last one is gone, the final shutdown runs the tasks of
    the master's list in order and, when each signals completion without an
    error, the process exits with code 0.  (During a reload the exit of the
    worker is answered by a fork instead, and the series stays parked.) *)
Theorem graceful_stop_drains_the_workers_in_order
    (p : Proc) (i : Input) (e sg : JsVal) (ws : list Worker)
    (exits : list Input) (errs : list JsVal) :
  status p = None ->
  isMaster (state p) = true ->
  shutdownLock (state p) = false ->
  numOfWorkers (state p) <> 0 ->
  cluster_isMaster host = true ->
  isReloading (state p) = false ->
  clusterExitListeners (state p) = 1%nat ->
  onceWorkerExit (state p) = [] ->
  cluster_workers (state p) = ws ->
  ws <> [] ->
  NoDup (List.map worker_id ws) ->
  requests_exit host (state p) i e sg ->
  Forall2 departs ws exits ->
  let p1 := step host p i in
  (forall j : nat, (j < length ws)%nat ->
     let q := run host p1 (take j exits) in
     status q = None /\
     told_to_exit (since p q) = List.map Some (take (S j) ws) /\
     tasksRun (since p q) = [] /\
     forked (since p q) = [] /\
     emitted "exit" (since p q) = []) /\
  (Forall falsy errs ->
   length errs = length (taskList (state p)) ->
   let k := length (runs (state p)) in
   let q := conclude host k (run host (run host p1 exits) (completions k errs)) in
   told_to_exit (since p q) = List.map Some ws /\
   forked (since p q) = [] /\
   tasksRun (since p q) = List.map task (taskList (state p)) /\
   status q = Some (Exited 0)).
Proof.
  intros running primary unlocked some cluster idle single unparked pool
    nonempty distinct request turn p1.
  destruct ws as [|w rest]; [contradiction|]. clear nonempty.
  destruct (handle_requests_exit (state p) i e sg request) as (o_req & Hreq & E).
  destruct (exit_master_with_workers (state p) e sg w rest
              primary unlocked some cluster pool)
    as (o0' & E0 & T0 & R0 & F0 & X0).
  set (o0 := o_req ++ o0').
  assert (told_to_exit o0 = [Some w] /\ tasksRun o0 = [] /\ forked o0 = [] /\
          emitted "exit" o0 = []) as (T0' & R0' & F0' & X0').
  { subst o0. rewrite told_to_exit_app, tasksRun_app, forked_app, emitted_app.
    rewrite (local_told _ (quiet_local _ Hreq)), (quiet_tasksRun _ Hreq),
      (quiet_forked _ Hreq), (quiet_emitted _ _ Hreq), T0, R0, F0, X0.
    repeat split. }
  clear T0 R0 F0 X0. rename T0' into T0, R0' into R0, F0' into F0, X0' into X0.
  assert (Ep1 : p1 = {| state :=
                          set_onceWorkerExit
                            [{| ec_keys := List.map worker_id rest; ec_error := e |}]
                            (set_isShutdown true (set_shutdownLock true (state p)));
                        history := history p ++ o0;
                        status := None |}).
  { subst p1. unfold step, perform. rewrite running, E, E0, unparked.
    reflexivity. }
  clearbody o0. clear Hreq E E0.
  assert (draining e (w :: rest) p1) as invariant.
  { rewrite Ep1. unfold draining. cbn. repeat split; assumption. }
  split.
  - intros j bound q.
    destruct (drain j p1 e (w :: rest) exits invariant turn bound)
      as ((Q1 & _) & _ & o & H & T & R & F & X).
    fold q in Q1, H. split; [exact Q1|].
    assert (history q = history p ++ o0 ++ o) as Hq
      by (rewrite H, Ep1; cbn; rewrite <- app_assoc; reflexivity).
    rewrite (since_app _ _ _ Hq).
    rewrite told_to_exit_app, tasksRun_app, forked_app, emitted_app.
    rewrite T0, T, R0, R, F0, F, X0, X. repeat split.
  - intros ok all k q.
    destruct exits as [|x front _] using rev_ind;
      [apply Forall2_length in turn; discriminate|].
    apply Forall2_app_inv_r in turn as (ws1 & ws2 & turn1 & turn2 & split_ws).
    apply Forall2_cons_inv_r in turn2 as (w_last & nil & last_turn & turn2 & ->).
    apply Forall2_nil_inv_r in turn2 as ->.
    pose proof (Forall2_length _ _ _ turn1) as same_length.
    assert (Forall2 departs (w :: rest) (front ++ [x])) as turn.
    { rewrite split_ws. apply Forall2_app; [exact turn1 | repeat constructor; exact last_turn]. }
    assert (length rest = length front) as count.
    { apply (f_equal length) in split_ws. rewrite length_app in split_ws.
      cbn in split_ws. lia. }
    destruct (drain (length front) p1 e (w :: rest) (front ++ [x]) invariant turn
                ltac:(cbn; lia))
      as (invariant1 & frame & o & H & T & R & F & X).
    rewrite take_app_length in invariant1, frame, H.
    rewrite split_ws, <- same_length, drop_app_length in invariant1.
    set (q1 := run host p1 front) in *.
    assert (taskList (state q1) = taskList (state p) /\
            runs (state q1) = runs (state p)) as [same_tasks same_runs].
    { unfold pool_only in frame. rewrite frame, Ep1. split; reflexivity. }
    destruct (last_of_the_drain q1 e w_last x errs invariant1 last_turn ok
                ltac:(rewrite same_tasks; exact all))
      as (o1 & H1 & T1 & F1 & R1 & S1).
    rewrite same_runs, same_tasks in *.
    subst q k. rewrite run_app. cbn [run fold_left]. fold q1.
    assert (history (conclude host (length (runs (state p)))
                       (run host (step host q1 x)
                          (completions (length (runs (state p))) errs))) =
            history p ++ o0 ++ o ++ o1) as Hq
      by (rewrite H1, H, Ep1; cbn; rewrite <- !app_assoc; reflexivity).
    rewrite (since_app _ _ _ Hq).
    rewrite !told_to_exit_app, !tasksRun_app, !forked_app.
    rewrite T0, T, T1, R0, R, R1, F0, F, F1. cbn [tail].
    rewrite <- count, firstn_all, app_nil_r. repeat split. exact S1.
Qed.

End Drain.

Lemma graceful_stop_witness :
  status two_workers = None /\
  isMaster (state two_workers) = true /\
  shutdownLock (state two_workers) = false /\
  cluster_workers (state two_workers) = [first_worker; second_worker] /\
  told_to_exit
    (since two_workers
       (conclude (demo true 1) 0
          (run (demo true 1)
             (run (demo true 1)
                (step (demo true 1) two_workers (CallStop JUndefined))
                [WorkerExited 1 (JNum 0) JNull true;
                 WorkerExited 2 (JNum 0) JNull true])
             (completions 0 [])))) =
  [Some first_worker; Some second_worker].
Proof.
  do 4 (split; [reflexivity|]).
  apply (graceful_stop_drains_the_workers_in_order (demo true 1) two_workers
           (CallStop JUndefined) JUndefined (JNum 0)
           [first_worker; second_worker]
           [WorkerExited 1 (JNum 0) JNull true; WorkerExited 2 (JNum 0) JNull true]
           []); try reflexivity; try discriminate.
  - apply (bool_decide_unpack _). vm_compute. exact I.
  - left. split; reflexivity.
  - repeat constructor; eexists _, _, _; reflexivity.
  - constructor.
Defined.

(** ** What is never taken back *)

#[local] Instance grows_preorder : PreOrder grows.
Proof.
  split.
  - intros s. unfold grows. repeat split; auto; lia.
  - intros a b c (A1 & A2 & A3 & A4 & A5 & A6) (B1 & B2 & B3 & B4 & B5 & B6).
    unfold grows. repeat split; auto; try lia.
    etransitivity; eassumption.
Qed.

Ltac grown :=
  cbn; unfold grows, anything; cbn;
  try tauto;
  try (repeat split; auto; try lia; try discriminate;
       try (apply prefix_app_r; reflexivity); try (rewrite length_insert; lia);
       try (rewrite length_app; lia)).

Create HintDb grows.

Ltac growth := repeat first [within_step ltac:(grown) | solve [eauto with grows]].

Section Grows.

Variable host : Host.

Lemma Date_now_grows : within grows anything (Date_now host).
Proof. intros s. split; [grown | constructor]. Qed.

Lemma cluster_fork_grows : within grows anything (cluster_fork host).
Proof. intros s. split; [grown | repeat constructor]. Qed.
Hint Resolve Date_now_grows cluster_fork_grows : grows.

Lemma process_exit_grows code : within grows anything (process_exit code).
Proof. unfold process_exit. growth. Qed.
Hint Resolve process_exit_grows : grows.

Lemma shutdown_done_grows k r err : within grows anything (shutdown_done k r err).
Proof. unfold shutdown_done. growth. Qed.
Hint Resolve shutdown_done_grows : grows.

Lemma eachSeries_tasks_grows k r : within grows anything (eachSeries_tasks k r).
Proof. unfold eachSeries_tasks. growth. Qed.
Hint Resolve eachSeries_tasks_grows : grows.

Lemma shutdown_grows e sg : within grows anything (shutdown e sg).
Proof. unfold shutdown. growth. Qed.
Hint Resolve shutdown_grows : grows.

Lemma syncWorkerMap_grows : within grows anything syncWorkerMap.
Proof. unfold syncWorkerMap. growth. Qed.
Hint Resolve syncWorkerMap_grows : grows.

Lemma createWorker_grows : within grows anything (createWorker host).
Proof. unfold createWorker. growth. Qed.
Hint Resolve createWorker_grows : grows.

Lemma eachSeries_exit_grows c : within grows anything (eachSeries_exit c).
Proof. unfold eachSeries_exit. growth. Qed.
Hint Resolve eachSeries_exit_grows : grows.

Lemma eachSeries_reload_grows keys : within grows anything (eachSeries_reload keys).
Proof. unfold eachSeries_reload. growth. Qed.
Hint Resolve eachSeries_reload_grows : grows.

Lemma handleWorkerExit_grows w code sg :
  within grows anything (handleWorkerExit host w code sg).
Proof.
  unfold handleWorkerExit, handleAutoSpawn, handleReloading,
    emitter_emit_reloaded, emitter_emit_workerExit, noMoreWorkers.
  growth.
Qed.
Hint Resolve handleWorkerExit_grows : grows.

Lemma exit_grows e sg : within grows anything (exit host e sg).
Proof. unfold exit, noMoreWorkers. growth. Qed.
Hint Resolve exit_grows : grows.

Lemma handle_grows i : within grows anything (handle host i).
Proof.
  destruct i; cbn [handle];
    unfold ee_addShutdownTask, ee_onExit, ee_start, start, startListeners,
      startClusterMode, startMaster, startWorker, ee_stop, onSignal, reload,
      onClusterExit, onWorkerMessage, onMasterMessage, parse_or_keep,
      task_callback,
      hook_callback;
    growth.
Qed.

Lemma step_grows (p : Proc) (i : Input) : grows (state p) (state (step host p i)).
Proof.
  unfold step, perform. destruct (status p); [reflexivity|]. apply handle_grows.
Qed.

(** X13.  Whatever a process handles, calls of [ee.start] included, nothing
    registered is taken back.  The shutdown tasks registered before are still
    registered afterwards, in the same order and before any later one; the
    shutdown flag, once set, is still set, and so is the exit hook; the
    signal listeners are still registered; and the cluster module's worker
    counter and the number of calls of [shutdown] have not gone down. *)
Theorem registrations_are_never_taken_back (p : Proc) (inputs : list Input) :
  let q := run host p inputs in
  shutdownTasks (state p) `prefix_of` shutdownTasks (state q) /\
  (isShutdown (state p) = true -> isShutdown (state q) = true) /\
  (is_Some (onExit (state p)) -> is_Some (onExit (state q))) /\
  (processListeners (state p) <= processListeners (state q))%nat /\
  nextId (state p) <= nextId (state q) /\
  (length (runs (state p)) <= length (runs (state q)))%nat.
Proof.
  revert p. induction inputs as [|i inputs IH]; intros p.
  - apply (reflexivity (R := grows)).
  - apply (transitivity (R := grows) (step_grows p i)), IH.
Qed.

End Grows.

(** ** The books of a master *)

#[local] Instance settles_preorder : PreOrder settles.
Proof.
  split.
  - intros s gone H. exact H.
  - intros a b c H1 H2 gone H. apply H2, H1, H.
Qed.

Ltac settled :=
  cbn; unfold settles, anything; cbn; try tauto; try (intros gone H; exact H).

Create HintDb settles.

Ltac settling :=
  repeat first [within_step ltac:(settled) | solve [eauto with settles]].

Lemma registry_weaken (i : Z) (gone : list Z) (s : State) :
  registry (i :: gone) s -> registry gone s.
Proof.
  intros (H1 & H2 & H3 & H4 & H5 & H6 & H7 & H8).
  apply Forall_cons_1 in H8 as [_ H8]. repeat split; assumption.
Qed.

Lemma listed_after_filter (i j : Z) (ws : list Worker) :
  j ∈ List.map worker_id (List.filter (fun x => negb (worker_id x =? i)) ws) <->
  j ∈ List.map worker_id ws /\ j <> i.
Proof.
  rewrite !list_elem_of_fmap. split.
  - intros (x & -> & [listed kept]%list_elem_of_In%filter_In).
    apply negb_true_iff, Z.eqb_neq in kept.
    split; [|exact kept]. exists x. split; [reflexivity|].
    apply list_elem_of_In, listed.
  - intros [(x & -> & listed) other]. exists x. split; [reflexivity|].
    apply list_elem_of_In, filter_In. split; [apply list_elem_of_In, listed|].
    apply negb_true_iff, Z.eqb_neq, other.
Qed.

Lemma NoDup_after_filter (i : Z) (ws : list Worker) :
  NoDup (List.map worker_id ws) ->
  NoDup (List.map worker_id (List.filter (fun x => negb (worker_id x =? i)) ws)).
Proof.
  induction ws as [|w ws IH]; cbn; [trivial|].
  intros [fresh distinct]%NoDup_cons.
  destruct (negb (worker_id w =? i)); cbn; [|apply IH, distinct].
  apply NoDup_cons. split; [|apply IH, distinct].
  intros [listed _]%listed_after_filter. exact (fresh listed).
Qed.

Lemma registry_departure (gone : list Z) (s : State) (i : Z) (w : Worker) :
  registry gone s -> lookup_worker i s = Some w ->
  worker_id w = i /\
  is_Some (workerMap s !! i) /\
  registry (i :: gone)
    (set_workerMap (delete i (workerMap s))
       (set_cluster_workers
          (List.filter (fun x => negb (worker_id x =? i)) (cluster_workers s)) s)).
Proof.
  intros (H1 & H2 & H3 & H4 & H5 & H6 & H7 & H8) [listed same%Z.eqb_eq]%find_some.
  apply list_elem_of_In in listed.
  rewrite Forall_forall in H3, H7.
  split; [exact same|]. split.
  { destruct (H3 w listed) as (wd & entry & _). rewrite <- same. eexists. exact entry. }
  unfold registry, recorded. cbn.
  split; [exact H1|]. split; [exact H2|]. split.
  { apply Forall_forall. intros x [kept other%negb_true_iff%Z.eqb_neq]%list_elem_of_In%filter_In.
    apply list_elem_of_In in kept.
    destruct (H3 x kept) as (wd & entry & pid_ok). exists wd.
    split; [rewrite <- entry; apply lookup_delete_ne; congruence | exact pid_ok]. }
  split.
  { intros j [other entry]%lookup_delete_is_Some.
    apply listed_after_filter. split; [apply H4, entry | congruence]. }
  split; [apply NoDup_after_filter, H5|].
  split; [exact H6|]. split.
  { apply Forall_forall. intros x [kept _]%list_elem_of_In%filter_In.
    apply H7, list_elem_of_In, kept. }
  apply Forall_cons. split.
  - split; [pose proof (H7 w listed); lia|].
    intros [_ other]%listed_after_filter. congruence.
  - eapply Forall_impl; [exact H8|]. cbn. intros j [below absent].
    split; [exact below|]. intros [old _]%listed_after_filter. exact (absent old).
Qed.

Section Books.

Variable host : Host.

Lemma registry_with_new_worker (gone : list Z) (s : State) :
  registry gone s -> registry gone (with_new_worker host s).
Proof.
  intros (H1 & H2 & H3 & H4 & H5 & H6 & H7 & H8).
  assert (nextId s ∉ List.map worker_id (cluster_workers s)) as fresh.
  { intros (w & same & listed)%list_elem_of_fmap.
    rewrite Forall_forall in H7. specialize (H7 w listed). lia. }
  unfold registry, recorded, with_new_worker in *. cbn.
  split; [exact H1|]. split; [exact H2|]. split.
  { apply Forall_app_2.
    - rewrite Forall_forall in H3, H7. apply Forall_forall. intros w listed.
      destruct (H3 w listed) as (wd & entry & same).
      pose proof (H7 w listed) as below.
      exists wd. cbn. split; [rewrite <- entry; apply lookup_insert_ne; lia | exact same].
    - repeat constructor. eexists. cbn.
      split; [apply lookup_insert_eq | reflexivity]. }
  split.
  { intros i [wd entry]. rewrite map_app. cbn. apply elem_of_app.
    destruct (decide (i = nextId s)) as [-> | other].
    - right. left.
    - left. apply H4. exists wd. rewrite <- entry. symmetry.
      apply lookup_insert_ne. congruence. }
  split.
  { rewrite map_app. cbn. apply NoDup_app. split; [exact H5|].
    split; [|apply NoDup_singleton].
    intros i listed ->%list_elem_of_singleton. exact (fresh listed). }
  split; [lia|]. split.
  { apply Forall_app_2.
    - eapply Forall_impl; [exact H7|]. cbn. intros w ?. lia.
    - repeat constructor; cbn; lia. }
  eapply Forall_impl; [exact H8|]. cbn. intros i [below absent].
  split; [lia|]. rewrite map_app. cbn. intros [old | ->%list_elem_of_singleton]%elem_of_app.
  - exact (absent old).
  - lia.
Qed.

Lemma Date_now_settles : within settles anything (Date_now host).
Proof. intros s. split; [settled | constructor]. Qed.

Lemma createWorker_settles : within settles anything (createWorker host).
Proof.
  intros s. destruct (createWorker_returns host s) as (o & -> & _). cbn.
  split; [|apply Forall_forall; intros; exact I].
  intros gone. apply registry_with_new_worker.
Qed.
Hint Resolve Date_now_settles createWorker_settles : settles.

Lemma process_exit_settles code : within settles anything (process_exit code).
Proof. unfold process_exit. settling. Qed.
Hint Resolve process_exit_settles : settles.

Lemma shutdown_done_settles k r err : within settles anything (shutdown_done k r err).
Proof. unfold shutdown_done. settling. Qed.
Hint Resolve shutdown_done_settles : settles.

Lemma eachSeries_tasks_settles k r : within settles anything (eachSeries_tasks k r).
Proof. unfold eachSeries_tasks. settling. Qed.
Hint Resolve eachSeries_tasks_settles : settles.

Lemma shutdown_settles e sg : within settles anything (shutdown e sg).
Proof. unfold shutdown. settling. Qed.
Hint Resolve shutdown_settles : settles.

Lemma syncWorkerMap_settles : within settles anything syncWorkerMap.
Proof. unfold syncWorkerMap. settling. Qed.
Hint Resolve syncWorkerMap_settles : settles.

Lemma eachSeries_exit_settles c : within settles anything (eachSeries_exit c).
Proof. unfold eachSeries_exit. settling. Qed.
Hint Resolve eachSeries_exit_settles : settles.

Lemma eachSeries_reload_settles keys : within settles anything (eachSeries_reload keys).
Proof. unfold eachSeries_reload. settling. Qed.
Hint Resolve eachSeries_reload_settles : settles.

Lemma noMoreWorkers_settles : within settles anything noMoreWorkers.
Proof. unfold noMoreWorkers. settling. Qed.

Lemma emitter_emit_workerExit_settles :
  within settles anything emitter_emit_workerExit.
Proof. unfold emitter_emit_workerExit. settling. Qed.
Hint Resolve noMoreWorkers_settles emitter_emit_workerExit_settles : settles.

Lemma handleReloading_settles : within settles anything (handleReloading host).
Proof. unfold handleReloading, emitter_emit_reloaded. settling. Qed.
Hint Resolve handleReloading_settles : settles.

Lemma handleAutoSpawn_settles w wd code sg :
  within settles anything (handleAutoSpawn host w (Some wd) code sg).
Proof. unfold handleAutoSpawn. settling. Qed.
Hint Resolve handleAutoSpawn_settles : settles.

Lemma exit_settles e sg : within settles anything (exit host e sg).
Proof. unfold exit, noMoreWorkers. settling. Qed.
Hint Resolve exit_settles : settles.

Lemma reload_settles : within settles anything reload.
Proof. unfold reload. settling. Qed.
Hint Resolve reload_settles : settles.

Lemma onWorkerMessage_settles w data :
  within settles anything (onWorkerMessage host w data).
Proof. unfold onWorkerMessage, parse_or_keep. settling. Qed.
Hint Resolve onWorkerMessage_settles : settles.

(** Safety of the same handlers. *)

Lemma Date_now_safe : safe (Date_now host).
Proof. intros s what. discriminate. Qed.

Lemma cluster_fork_safe : safe (cluster_fork host).
Proof. intros s what. discriminate. Qed.
Hint Resolve Date_now_safe cluster_fork_safe : safe.

Lemma createWorker_safe : safe (createWorker host).
Proof. unfold createWorker. safety. Qed.
Hint Resolve createWorker_safe : safe.

Lemma eachSeries_reload_safe keys : safe (eachSeries_reload keys).
Proof. unfold eachSeries_reload. safety. Qed.
Hint Resolve eachSeries_reload_safe : safe.

Lemma handleReloading_safe : safe (handleReloading host).
Proof. unfold handleReloading, emitter_emit_reloaded. safety. Qed.
Hint Resolve handleReloading_safe : safe.

Lemma handleAutoSpawn_safe w wd code sg :
  safe (handleAutoSpawn host w (Some wd) code sg).
Proof. unfold handleAutoSpawn. safety. Qed.
Hint Resolve handleAutoSpawn_safe : safe.

Lemma exit_safe e sg : safe (exit host e sg).
Proof. unfold exit. safety. Qed.
Hint Resolve exit_safe : safe.

Lemma reload_safe : safe reload.
Proof. unfold reload. safety. Qed.
Hint Resolve reload_safe : safe.

(** The exit of a worker that has just left [cluster.workers] and still has
    its entry. *)
Lemma handleWorkerExit_settles (gone : list Z) (s : State) (w : Worker)
    (code sig : JsVal) :
  is_Some (workerMap s !! worker_id w) ->
  registry gone (set_workerMap (delete (worker_id w) (workerMap s)) s) ->
  let r := handleWorkerExit host w code sig s in
  registry gone (final r) /\ forall what, stopped r <> Some (Threw what).
Proof.
  intros [wd entry] books r. subst r. unfold handleWorkerExit. exec.
  rewrite entry, final_prefix, stopped_prefix.
  match goal with |- context [final (?m ?s')] =>
    assert (within settles anything m /\ safe m) as [rest harmless]
  end.
  { split; [settling | safety]. }
  split; [|apply harmless].
  exact (proj1 (rest _) gone books).
Qed.

Lemma onClusterExit_settles (gone : list Z) (s : State) (i : Z) (w : Worker)
    (code sig : JsVal) (suicide : bool) :
  registry gone s -> lookup_worker i s = Some w ->
  let r := onClusterExit host i code sig suicide s in
  registry (i :: gone) (final r) /\ forall what, stopped r <> Some (Threw what).
Proof.
  intros books found r. subst r.
  destruct (registry_departure gone s i w books found) as (same & entry & books').
  destruct books as (_ & single & _).
  unfold onClusterExit. exec. rewrite found. exec. rewrite single.
  cbn [repeatM]. rewrite bind_unit. rewrite same.
  apply handleWorkerExit_settles; cbn; assumption.
Qed.

Lemma handle_settles (gone : list Z) (s : State) (i : Input) :
  registry gone s -> not_start i -> parses host i ->
  let r := handle host i s in
  registry gone (final r) /\ forall what, stopped r <> Some (Threw what).
Proof.
  intros books other parsed r. subst r.
  assert (forall m : M unit, within settles anything m -> safe m ->
            registry gone (final (m s)) /\
            forall what, stopped (m s) <> Some (Threw what)) as framed.
  { intros m rest harmless. split; [exact (proj1 (rest s) gone books) | apply harmless]. }
  destruct i as [t b|t|cfg|err|sg|j code sig suicide|j data|data|k err|k];
    cbn [handle].
  - apply framed; unfold ee_addShutdownTask; [settling | safety].
  - apply framed; unfold ee_onExit; [settling | safety].
  - contradiction.
  - apply framed; unfold ee_stop; auto with settles safe.
  - apply framed; unfold onSignal; [settling | safety].
  - destruct (lookup_worker j s) as [w|] eqn:found.
    + destruct (onClusterExit_settles gone s j w code sig suicide books found)
        as [books' harmless].
      split; [eapply registry_weaken; exact books' | exact harmless].
    + unfold onClusterExit. exec. rewrite found. cbn.
      split; [exact books | discriminate].
  - cbn in parsed. rewrite bind_gets.
    destruct (lookup_worker j s) as [w|]; [|split; [exact books | discriminate]].
    unfold onWorkerMessage.
    destruct (parse_or_keep_received host data s) as (o1 & _ & E1).
    rewrite (bind_Ret _ _ _ _ _ _ E1), final_prefix, stopped_prefix.
    destruct (received host data) as [| |d];
      [contradiction | split; [exact books | discriminate] |].
    apply framed; [settling | safety].
  - pose proof books as (none & _). exec. rewrite none. cbn.
    split; [exact books | discriminate].
  - apply framed; unfold task_callback; [settling | safety].
  - apply framed; unfold hook_callback; [settling | safety].
Qed.

Lemma step_registry (gone : list Z) (p : Proc) (i : Input) :
  registry gone (state p) -> not_start i -> parses host i ->
  (forall what, status p <> Some (Threw what)) ->
  registry gone (state (step host p i)) /\
  forall what, status (step host p i) <> Some (Threw what).
Proof.
  intros books other parsed harmless. unfold step, perform.
  destruct (status p) eqn:st; [split; [exact books | rewrite st; exact harmless]|].
  apply handle_settles; assumption.
Qed.

Lemma run_registry (gone : list Z) (inputs : list Input) : forall p : Proc,
  registry gone (state p) ->
  Forall not_start inputs -> Forall (parses host) inputs ->
  (forall what, status p <> Some (Threw what)) ->
  registry gone (state (run host p inputs)) /\
  forall what, status (run host p inputs) <> Some (Threw what).
Proof.
  induction inputs as [|i inputs IH]; intros p books other parsed harmless.
  - split; assumption.
  - apply Forall_cons_1 in other as [other_i other].
    apply Forall_cons_1 in parsed as [parsed_i parsed].
    destruct (step_registry gone p i books other_i parsed_i harmless)
      as [books1 harmless1].
    rewrite run_cons. apply IH; assumption.
Qed.

Lemma registry_pool (gone : list Z) (n : nat) : forall s : State,
  registry gone s -> registry gone (pool host n s).
Proof.
  induction n as [|n IH]; intros s books; [exact books|].
  cbn [pool]. apply IH, registry_with_new_worker, books.
Qed.

(** The first start of a master of more than one worker. *)
Lemma start_registry (N : Z) (a b : option bool) :
  cluster_isMaster host = true -> 1 < N ->
  let r := ee_start host (Some {| max := Some N; cfg_autoSpawn := a; sync := b |})
             initial in
  registry [] (final r) /\ stopped r = None /\ isMaster (final r) = true.
Proof.
  intros primary many r. subst r.
  unfold ee_start, start, startListeners, startClusterMode, startMaster.
  rewrite primary. exec.
  assert (match N with 0 => 0 | _ => N end = N) as -> by (destruct N; reflexivity).
  unfold ee_isCluster. cbn.
  assert ((N =? 0) = false) as -> by (apply Z.eqb_neq; lia).
  cbn. exec.
  assert ((1 <? N) = true) as -> by (apply Z.ltb_lt; lia).
  exec.
  match goal with |- context [bind (repeatM ?n ?m) ?k ?s1] =>
    destruct (pool_created host n s1) as (o & E & _);
    rewrite (bind_Ret _ k s1 tt _ o E);
    destruct (pool_frame host n s1) as (_ & _ & _ & P4);
    assert (registry [] (pool host n s1)) as books;
    [apply registry_pool|];
    [|set (s2 := pool host n s1) in *]
  end.
  { unfold registry, recorded. cbn.
    repeat split; try constructor; try lia.
    intros i [wd entry]. cbv in entry. discriminate. }
  exec.
  assert (isMaster s2 = true) as master by (rewrite P4; reflexivity).
  rewrite master. exec.
  split; [exact books | split; [reflexivity | exact master]].
Qed.

(** X14.  A master started once, with [max = N > 1], keeps its books in
    order whatever it handles afterwards, as long as no listener is left
    with [null] for an inbound payload (one that is [null] or parses to
    it): no handler reads a property of a missing value, every
    worker in [cluster.workers] has an entry in [workerMap] with its pid,
    [workerMap] has no entry for anything else, and no two workers share an
    id.  In particular [handleAutoSpawn] always finds the entry of the
    worker that has exited, and with [sync] on [getWorkerPidById] answers
    the pid of every live worker. *)
Theorem master_keeps_its_books
    (N : Z) (a b : option bool) (inputs : list Input) :
  cluster_isMaster host = true ->
  1 < N ->
  Forall not_start inputs ->
  Forall (parses host) inputs ->
  let q := run host boot
             (CallStart (Some {| max := Some N; cfg_autoSpawn := a; sync := b |})
              :: inputs) in
  (forall what, status q <> Some (Threw what)) /\
  Forall (recorded (state q)) (cluster_workers (state q)) /\
  (forall i, is_Some (workerMap (state q) !! i) ->
             i ∈ List.map worker_id (cluster_workers (state q))) /\
  NoDup (List.map worker_id (cluster_workers (state q))) /\
  (syncWorker (state q) = true ->
   forall w, w ∈ cluster_workers (state q) ->
     ee_getWorkerPidById (worker_id w) (state q) = Some (worker_process_pid w)).
Proof.
  intros primary many other parsed q. subst q. rewrite run_cons.
  destruct (start_registry N a b primary many) as (books0 & running0 & _).
  set (p0 := step host boot (CallStart (Some {| max := Some N; cfg_autoSpawn := a; sync := b |}))).
  assert (registry [] (state p0) /\ status p0 = None) as [books1 running1]
    by (split; [exact books0 | exact running0]).
  destruct (run_registry [] inputs p0 books1 other parsed
              ltac:(rewrite running1; discriminate))
    as [(_ & _ & H3 & H4 & H5 & _) harmless].
  split; [exact harmless|]. split; [exact H3|]. split; [exact H4|].
  split; [exact H5|].
  intros on w listed. rewrite Forall_forall in H3.
  destruct (H3 w listed) as (wd & entry & same).
  unfold ee_getWorkerPidById. rewrite on, entry. cbn. congruence.
Qed.

Lemma absent_worker (i : Z) (s : State) :
  i ∉ List.map worker_id (cluster_workers s) -> lookup_worker i s = None.
Proof.
  intros absent. unfold lookup_worker.
  destruct (List.find _ _) as [w|] eqn:found; [|reflexivity].
  apply find_some in found as [listed same%Z.eqb_eq].
  exfalso. apply absent, list_elem_of_fmap. exists w.
  split; [congruence | apply list_elem_of_In, listed].
Qed.

Section Forgotten.

Variable createMsgData : string -> option Z -> JsVal -> Envelope.
Variable cluster_worker : option Z.

(** X15.  Worker ids are never used again.  On a master started once with
    [max = N > 1], once a worker has exited, whatever the master handles
    afterwards (no further start, no inbound payload that is or parses to
    [null]), its id belongs to no worker and to no entry of [workerMap]:
    [getWorkerPidById] answers null for it, and [ee.send] to it logs an
    error, sends nothing and returns false. *)
Theorem departed_worker_is_forgotten
    (N : Z) (a b : option bool) (before after : list Input)
    (i : Z) (code sig : JsVal) (suicide : bool) (payload : JsVal) :
  cluster_isMaster host = true ->
  1 < N ->
  Forall not_start before -> Forall (parses host) before ->
  Forall not_start after -> Forall (parses host) after ->
  let p := run host boot
             (CallStart (Some {| max := Some N; cfg_autoSpawn := a; sync := b |})
              :: before) in
  status p = None ->
  is_Some (lookup_worker i (state p)) ->
  let q := run host (step host p (WorkerExited i code sig suicide)) after in
  lookup_worker i (state q) = None /\
  workerMap (state q) !! i = None /\
  ee_getWorkerPidById i (state q) = None /\
  ee_send createMsgData cluster_worker (Some i) payload (state q) =
    Ret false (state q) [Log LError "Message target worker no longer exists"].
Proof.
  intros primary many other1 parsed1 other2 parsed2 p running [w found] q.
  subst q p. rewrite run_cons in *.
  destruct (start_registry N a b primary many) as (books0 & running0 & master0).
  set (p0 := step host boot (CallStart (Some {| max := Some N; cfg_autoSpawn := a; sync := b |}))) in *.
  assert (registry [] (state p0) /\ status p0 = None /\ isMaster (state p0) = true)
    as (books1 & running1 & master1)
    by (split; [exact books0 | split; [exact running0 | exact master0]]).
  destruct (run_registry [] before p0 books1 other1 parsed1
              ltac:(rewrite running1; discriminate)) as [books2 _].
  set (p := run host p0 before) in *.
  assert (0 < i) as positive.
  { destruct books2 as (_ & _ & _ & _ & _ & _ & H7 & _).
    rewrite Forall_forall in H7.
    apply find_some in found as [listed same%Z.eqb_eq].
    pose proof (H7 w (proj2 (list_elem_of_In _ _) listed)). lia. }
  assert (registry [i] (state (step host p (WorkerExited i code sig suicide))) /\
          forall what,
            status (step host p (WorkerExited i code sig suicide)) <> Some (Threw what))
    as [books3 harmless3].
  { unfold step, perform. rewrite running. cbn [handle state status].
    apply (onClusterExit_settles [] (state p) i w); assumption. }
  destruct (run_registry [i] after _ books3 other2 parsed2 harmless3)
    as [(_ & _ & _ & H4 & _ & _ & _ & H8) _].
  apply Forall_cons_1 in H8 as [[_ absent] _].
  set (q := run host (step host p (WorkerExited i code sig suicide)) after) in *.
  assert (isMaster (state q) = true) as master.
  { assert (keeps (state p0) (state q)) as [_ kept].
    { etransitivity; [apply run_keeps|]. fold p.
      etransitivity; [apply step_keeps | apply run_keeps]. }
    apply kept, master1. }
  assert (workerMap (state q) !! i = None) as no_entry.
  { destruct (workerMap (state q) !! i) as [wd|] eqn:entry; [|reflexivity].
    exfalso. apply absent, H4. rewrite entry. eexists. reflexivity. }
  pose proof (absent_worker i (state q) absent) as not_found.
  split; [exact not_found|]. split; [exact no_entry|]. split.
  - unfold ee_getWorkerPidById. rewrite no_entry. destruct (syncWorker (state q)); reflexivity.
  - unfold ee_send. exec. rewrite master. exec. rewrite not_found.
    assert ((i =? 0) = false) as -> by (apply Z.eqb_neq; lia).
    cbn. exec. reflexivity.
Qed.

End Forgotten.

End Books.

Lemma master_keeps_its_books_witness :
  cluster_isMaster (demo true 1) = true /\
  forall what,
    status (run (demo true 1) boot
              [CallStart (config 2 false); WorkerExited 1 (JNum 1) JNull false;
               WorkerMessage 2 exit_document]) <> Some (Threw what).
Proof.
  split; [reflexivity|].
  apply (master_keeps_its_books (demo true 1) 2 (Some false) None
           [WorkerExited 1 (JNum 1) JNull false; WorkerMessage 2 exit_document]).
  - reflexivity.
  - reflexivity.
  - repeat constructor.
  - repeat constructor. cbn. discriminate.
Defined.

Lemma departed_worker_witness :
  cluster_isMaster (demo true 1) = true /\
  status two_workers = None /\
  lookup_worker 1 (state two_workers) = Some first_worker /\
  lookup_worker 1
    (state (run (demo true 1)
              (step (demo true 1) two_workers (WorkerExited 1 (JNum 0) JNull true))
              [Signalled SigHup])) = None.
Proof.
  do 3 (split; [reflexivity|]).
  destruct (departed_worker_is_forgotten (demo true 1)
              (fun _ _ _ => envelope CMD_MSG) None
              2 (Some false) None [] [Signalled SigHup] 1 (JNum 0) JNull true JNull
              eq_refl eq_refl ltac:(constructor) ltac:(constructor)
              ltac:(repeat constructor) ltac:(repeat constructor)
              eq_refl ltac:(eexists; reflexivity)) as [forgotten _].
  exact forgotten.
Defined.

(** ** The rolling reload, worker by worker *)

Lemma syncWorkerMap_outputs (s : State) :
  syncWorkerMap s =
  Ret tt s
    (if syncWorker s
     then [Log LVerbose "Dispatch synchronize worker command";
           Send {| command := Some CMD_SYNC; error := JUndefined;
                   sig := JUndefined; map := workerMap s; from := JUndefined;
                   msg := JUndefined |} None]
     else []).
Proof. unfold syncWorkerMap. exec. destruct (syncWorker s); exec; reflexivity. Qed.

Lemma told_to_reload_app h1 h2 :
  told_to_reload (h1 ++ h2) = told_to_reload h1 ++ told_to_reload h2.
Proof. apply omap_app. Qed.

Lemma fresh_id (i : Z) (ws : list Worker) :
  Forall (fun w => worker_id w < i) ws -> i ∉ List.map worker_id ws.
Proof.
  intros below (w & -> & listed)%list_elem_of_fmap.
  rewrite Forall_forall in below. specialize (below w listed). lia.
Qed.

Section Rolling.

Variable host : Host.

(** The reload request on a master with workers. *)
Lemma reload_master_with_workers (s : State) (w : Worker) (rest : list Worker) :
  isMaster s = true -> numOfWorkers s <> 0 -> cluster_workers s = w :: rest ->
  reload s =
  Ret tt
    (set_onceReloaded (onceReloaded s ++ [List.map worker_id rest])
       (set_reloaded 0 (set_isReloading true s)))
    [Log LInfo "Reloading"; Send (envelope CMD_RELOAD) (Some w)].
Proof.
  intros primary some pool. unfold reload. exec. rewrite primary. exec.
  apply Z.eqb_neq in some. rewrite some. exec.
  unfold worker_keys. rewrite pool. cbn. exec.
  unfold lookup_worker. cbn. rewrite pool. cbn. rewrite Z.eqb_refl. reflexivity.
Qed.

(** One worker of the reload is replaced while others wait: the next one is
    told to reload. *)
Lemma rolling_step (p : Proc) (w w2 : Worker) (rest : list Worker)
    (code sig : JsVal) (suicide : bool) :
  rolling (w :: w2 :: rest) p ->
  let q := step host p (WorkerExited (worker_id w) code sig suicide) in
  rolling (w2 :: rest) q /\
  nextId (state q) = nextId (state p) + 1 /\
  exists o,
    history q = history p ++ o /\
    told_to_reload o = [Some w2] /\
    forked o = [worker_numbered host (nextId (state p))].
Proof.
  intros (running & busy & single & (news & pool) & parked & distinct & below & count) q.
  subst q.
  assert (lookup_worker (worker_id w) (state p) = Some w) as found
    by (unfold lookup_worker; rewrite pool; cbn; rewrite Z.eqb_refl; reflexivity).
  rewrite pool in distinct, below.
  change ((w :: w2 :: rest) ++ news) with (w :: (w2 :: rest) ++ news) in *.
  cbn [List.map] in distinct.
  apply NoDup_cons in distinct as [fresh distinct].
  apply Forall_cons_1 in below as [below_w below].
  unfold step, perform. rewrite running. cbn [handle]. unfold onClusterExit.
  exec. rewrite found. exec. rewrite single. cbn [repeatM]. rewrite bind_unit.
  fold (departing w suicide). rewrite pool.
  change ((w :: w2 :: rest) ++ news) with (w :: (w2 :: rest) ++ news).
  rewrite (filter_departed w ((w2 :: rest) ++ news) fresh).
  unfold handleWorkerExit. exec. rewrite busy.
  unfold handleReloading, createWorker. exec.
  rewrite (bind_Ret _ _ _ _ _ _ (syncWorkerMap_outputs _)). exec.
  unfold emitter_emit_reloaded. exec. rewrite parked. cbn [forM tail List.map].
  unfold eachSeries_reload. exec.
  unfold lookup_worker. cbn. rewrite Z.eqb_refl. cbn. exec.
  assert ((reloaded (state p) + 1 =? numOfWorkers (state p)) = false) as ->
    by (apply Z.eqb_neq; cbn [length] in count; lia).
  cbn.
  split.
  { unfold rolling. cbn.
    split; [reflexivity|]. split; [exact busy|]. split; [exact single|].
    split; [exists (news ++ [worker_numbered host (nextId (state p))]);
            rewrite app_assoc; reflexivity|].
    split; [reflexivity|].
    change (w2 :: (rest ++ news) ++ [worker_numbered host (nextId (state p))])
      with (((w2 :: rest) ++ news) ++ [worker_numbered host (nextId (state p))]).
    split.
    { rewrite map_app.
      apply (NoDup_app (List.map worker_id ((w2 :: rest) ++ news))
               [nextId (state p)]).
      split; [exact distinct|]. split; [|apply NoDup_singleton].
      intros i listed ->%list_elem_of_singleton.
      exact (fresh_id _ _ below listed). }
    split.
    { apply (Forall_app_2 _ ((w2 :: rest) ++ news)
               [worker_numbered host (nextId (state p))]).
      - eapply Forall_impl; [exact below|]. cbn. intros x ?. lia.
      - repeat constructor. cbn. lia. }
    cbn [length] in *. lia. }
  split; [reflexivity|].
  eexists. split; [reflexivity|].
  split; destruct (syncWorker (state p)); reflexivity.
Qed.

(** The first [j] workers of the reload are replaced in turn. *)
Lemma rolling_progress (j : nat) : forall (p : Proc) (ws : list Worker)
    (exits : list Input),
  rolling ws p ->
  Forall2 departs ws exits ->
  (j < length ws)%nat ->
  let q := run host p (take j exits) in
  rolling (drop j ws) q /\
  nextId (state q) = nextId (state p) + Z.of_nat j /\
  exists o,
    history q = history p ++ o /\
    told_to_reload o = List.map Some (take j (tail ws)) /\
    forked o = List.map (worker_numbered host) (seqZ (nextId (state p)) (Z.of_nat j)).
Proof.
  induction j as [|j IH]; intros p ws exits invariant turn bound.
  - cbn. rewrite drop_0, Z.add_0_r. split; [exact invariant|]. split; [reflexivity|].
    exists []. rewrite app_nil_r. repeat split.
  - destruct ws as [|w [|w2 rest]]; cbn in bound; try lia.
    apply Forall2_cons_inv_l in turn
      as (x & exits' & (code & sig & suicide & ->) & turn & ->).
    cbn [take]. rewrite run_cons.
    destruct (rolling_step p w w2 rest code sig suicide invariant)
      as (invariant1 & N1 & o1 & H1 & T1 & F1).
    destruct (IH _ (w2 :: rest) exits' invariant1 turn ltac:(cbn; lia))
      as (invariant2 & N2 & o2 & H2 & T2 & F2).
    split; [exact invariant2|]. split; [lia|].
    exists (o1 ++ o2). rewrite H2, H1, app_assoc.
    rewrite told_to_reload_app, forked_app, T1, T2, F1, F2, N1.
    rewrite (seqZ_cons (nextId (state p))) by lia.
    replace (Z.pred (Z.of_nat (S j))) with (Z.of_nat j) by lia.
    repeat split.
Qed.

(** X16.  The reload of a master goes worker by worker, when it begins
    while no other reload is waiting for a worker to exit (no series of
    [reload] is parked on 'reloaded'), on a master that holds no more
    workers than [numOfWorkers], with one listener on the hang-up signal
    and one on the cluster's 'exit' event, and whose workers have distinct
    ids, all below the id of the next fork.  The hang-up signal sends the
    RELOAD envelope to the first worker, in creation order, and to no
    other.  Each time the worker that was told has exited and its
    replacement has been forked, the next of the original workers is told;
    no worker is told twice, and the replacements are never told.  So after
    [j] exits, [j] less than the number of workers, exactly the first
    [j + 1] of the original workers have been told and exactly [j] workers
    have been forked.  (A second hang-up signal during the reload parks a
    second series, and the next worker is then told twice.) *)
Theorem reload_tells_one_worker_at_a_time
    (p : Proc) (ws : list Worker) (exits : list Input) :
  status p = None ->
  isMaster (state p) = true ->
  processListeners (state p) = 1%nat ->
  clusterExitListeners (state p) = 1%nat ->
  onceReloaded (state p) = [] ->
  cluster_workers (state p) = ws ->
  NoDup (List.map worker_id ws) ->
  Forall (fun w => worker_id w < nextId (state p)) ws ->
  Z.of_nat (length ws) <= numOfWorkers (state p) ->
  Forall2 departs ws exits ->
  let p1 := step host p (Signalled SigHup) in
  forall j : nat, (j < length ws)%nat ->
    let q := run host p1 (take j exits) in
    status q = None /\
    told_to_reload (since p q) = List.map Some (take (S j) ws) /\
    forked (since p q) =
      List.map (worker_numbered host) (seqZ (nextId (state p)) (Z.of_nat j)).
Proof.
  intros running primary once single unparked pool distinct below count turn
    p1 j bound q.
  destruct ws as [|w rest]; [cbn in bound; lia|].
  assert (numOfWorkers (state p) <> 0) as some by (cbn [length] in count; lia).
  assert (Ep1 : p1 = {| state :=
                          set_onceReloaded [List.map worker_id rest]
                            (set_reloaded 0 (set_isReloading true (state p)));
                        history := history p ++
                          [Log LInfo "Reloading"; Send (envelope CMD_RELOAD) (Some w)];
                        status := None |}).
  { subst p1. unfold step, perform. rewrite running. cbn [handle].
    rewrite bind_gets, once. cbn [repeatM onSignal]. rewrite bind_unit.
    rewrite (reload_master_with_workers (state p) w rest primary some pool), unparked.
    reflexivity. }
  assert (rolling (w :: rest) p1) as invariant.
  { rewrite Ep1. unfold rolling. cbn.
    split; [reflexivity|]. split; [reflexivity|]. split; [exact single|].
    split; [exists []; rewrite app_nil_r; exact pool|].
    split; [reflexivity|]. rewrite pool.
    split; [exact distinct|]. split; [exact below | exact count]. }
  destruct (rolling_progress j p1 (w :: rest) exits invariant turn bound)
    as ((Q1 & _) & N & o & H & T & F).
  fold q in Q1, H. split; [exact Q1|].
  assert (history q = history p ++
            [Log LInfo "Reloading"; Send (envelope CMD_RELOAD) (Some w)] ++ o) as Hq
    by (rewrite H, Ep1; cbn; rewrite <- app_assoc; reflexivity).
  rewrite (since_app _ _ _ Hq), told_to_reload_app, forked_app, T, F.
  rewrite Ep1. split; reflexivity.
Qed.

End Rolling.

Lemma rolling_reload_witness :
  status two_workers = None /\
  isMaster (state two_workers) = true /\
  cluster_workers (state two_workers) = [first_worker; second_worker] /\
  told_to_reload
    (since two_workers
       (run (demo true 1) (step (demo true 1) two_workers (Signalled SigHup))
          (take 1 [WorkerExited 1 (JNum 0) JNull true;
                   WorkerExited 2 (JNum 0) JNull true]))) =
  [Some first_worker; Some second_worker].
Proof.
  do 3 (split; [reflexivity|]).
  apply (reload_tells_one_worker_at_a_time (demo true 1) two_workers
           [first_worker; second_worker]
           [WorkerExited 1 (JNum 0) JNull true; WorkerExited 2 (JNum 0) JNull true]);
    try reflexivity.
  - apply (bool_decide_unpack _). vm_compute. exact I.
  - repeat constructor.
  - repeat constructor; eexists _, _, _; reflexivity.
  - cbn. lia.
Defined.

(** ** The whole reload *)

Section Reloaded.

Variable host : Host.

(** While a reload goes worker by worker, every worker that exits in its
    turn is still in [cluster.workers]. *)
Lemma rolling_live : forall (ws : list Worker) (exits : list Input) (p : Proc),
  rolling ws p -> Forall2 departs ws exits -> live_exits host p exits.
Proof.
  induction ws as [|w ws IH]; intros exits p invariant turn.
  - apply Forall2_nil_inv_l in turn as ->. exact I.
  - apply Forall2_cons_inv_l in turn
      as (x & exits' & (code & sig & suicide & ->) & turn & ->).
    cbn [live_exits]. split.
    + exists (worker_id w), code, sig, suicide. split; [reflexivity|].
      destruct invariant as (_ & _ & _ & (news & pool) & _).
      exists w. unfold lookup_worker. rewrite pool. cbn.
      rewrite Z.eqb_refl. reflexivity.
    + destruct ws as [|w2 rest].
      * apply Forall2_nil_inv_l in turn as ->. exact I.
      * apply IH; [|exact turn].
        apply (rolling_step host p w w2 rest code sig suicide invariant).
Qed.

Lemma whole_reload (p : Proc) (N : nat) (inputs : list Input) :
  status p = None ->
  isMaster (state p) = true ->
  processListeners (state p) = 1%nat ->
  clusterExitListeners (state p) = 1%nat ->
  (0 < N)%nat ->
  numOfWorkers (state p) = Z.of_nat N ->
  length inputs = N ->
  let p1 := step host p (Signalled SigHup) in
  live_exits host p1 inputs ->
  let q := run host p1 inputs in
  let ids := seqZ (nextId (state p)) (Z.of_nat N) in
  status q = None /\
  emitted "reload" (since p q) =
    List.map (reloading_event host) ids ++ [[JStr "complete"]] /\
  emitted "reload.reloading" (since p q) = List.map reloading_alias ids /\
  emitted "reload.complete" (since p q) = [[]] /\
  isReloading (state q) = false /\
  reloaded (state q) = 0.
Proof.
  intros running master once listener some count len p1 live q ids.
  destruct (step_sighup host p running master once ltac:(lia))
    as (S1 & S2 & S3 & S4 & S5 & S6 & o1 & H1 & chat).
  fold p1 in S1, S2, S3, S4, S5, S6, H1.
  destruct (reload_runs_to_completion host inputs p1 S1 S2)
    as (Q1 & Q2 & Q3 & _ & o2 & H2 & E1 & E2 & E3);
    [congruence | rewrite S3, S4, len; lia
    | intros ->; cbn in len; lia | exact live |].
  rewrite S6, len in E1, E2. fold ids in E1, E2.
  rewrite H1, <- app_assoc in H2. subst q. rewrite (since_app _ _ _ H2).
  rewrite !emitted_app, !(chatter_emitted _ _ chat). cbn [app].
  repeat split; assumption.
Qed.

(** C6.  First, one replacement: in a running master with [isReloading]
    set, the exit of a worker that is in [cluster.workers] forks one worker
    and publishes one 'reload' event with state 'reloading' and the pid and id
    of that new worker; [reloaded] goes up by one, unless it now equals
    [numOfWorkers]: then [isReloading] is false again, [reloaded] is 0, and
    one 'reload' event with state 'complete' and one 'reload.complete' event
    follow.  Second, the count: the completion is tested against
    [numOfWorkers], so on a master with [numOfWorkers = N], a hang-up
    signal followed by [N] exits of workers publishes on 'reload' exactly
    [N] 'reloading' events, for the [N] workers forked in turn, and then
    exactly one 'complete'; on the dotted names, [N] 'reload.reloading'
    events and one 'reload.complete'; and the reload state is reset.  (The
    'reload.reloading' events carry [worker.pid], which is undefined, in
    place of the pid.)  Third, the whole reload of a master that has all its
    workers: when [cluster.workers] holds [N] workers, [N] is
    [numOfWorkers] and no earlier reload is waiting for a worker to exit, a
    hang-up signal followed by the exits of these [N] workers, in creation
    order, as the reload asks for them, completes the reload with exactly
    [N] 'reloading' events before exactly one 'complete'. *)
Theorem reload_replaces_workers_one_by_one :
  (forall (p : Proc) (w : Z) (code sig : JsVal) (suicide : bool),
     status p = None ->
     is_Some (lookup_worker w (state p)) ->
     isReloading (state p) = true ->
     clusterExitListeners (state p) = 1%nat ->
     let s := state p in
     let last := reloaded s + 1 =? numOfWorkers s in
     let q := step host p (WorkerExited w code sig suicide) in
     forked (since p q) = [nextWorker host s] /\
     emitted "reload" (since p q) =
       [JStr "reloading"; JNum (worker_process_pid (nextWorker host s));
        JNum (worker_id (nextWorker host s))]
       :: (if last then [[JStr "complete"]] else []) /\
     emitted "reload.complete" (since p q) = (if last then [[]] else []) /\
     reloaded (state q) = (if last then 0 else reloaded s + 1) /\
     isReloading (state q) = negb last) /\
  (forall (p : Proc) (N : nat) (inputs : list Input),
     status p = None ->
     isMaster (state p) = true ->
     processListeners (state p) = 1%nat ->
     clusterExitListeners (state p) = 1%nat ->
     (0 < N)%nat ->
     numOfWorkers (state p) = Z.of_nat N ->
     length inputs = N ->
     let p1 := step host p (Signalled SigHup) in
     live_exits host p1 inputs ->
     let q := run host p1 inputs in
     let ids := seqZ (nextId (state p)) (Z.of_nat N) in
     status q = None /\
     emitted "reload" (since p q) =
       List.map (reloading_event host) ids ++ [[JStr "complete"]] /\
     emitted "reload.reloading" (since p q) = List.map reloading_alias ids /\
     emitted "reload.complete" (since p q) = [[]] /\
     isReloading (state q) = false /\
     reloaded (state q) = 0) /\
  (forall (p : Proc) (ws : list Worker) (exits : list Input),
     status p = None ->
     isMaster (state p) = true ->
     processListeners (state p) = 1%nat ->
     clusterExitListeners (state p) = 1%nat ->
     onceReloaded (state p) = [] ->
     cluster_workers (state p) = ws ->
     ws <> [] ->
     numOfWorkers (state p) = Z.of_nat (length ws) ->
     NoDup (List.map worker_id ws) ->
     Forall (fun w => worker_id w < nextId (state p)) ws ->
     Forall2 departs ws exits ->
     let q := run host (step host p (Signalled SigHup)) exits in
     let ids := seqZ (nextId (state p)) (Z.of_nat (length ws)) in
     status q = None /\
     reload_completed (length ws) p q /\
     emitted "reload" (since p q) =
       List.map (reloading_event host) ids ++ [[JStr "complete"]]).
Proof.
  split; [|split].
  - intros p w code sig suicide running alive busy once s last q.
    destruct (step_reloading host p w code sig suicide running alive busy once)
      as (_ & _ & _ & _ & R5 & R6 & o & H & E1 & _ & E3 & F).
    subst q. rewrite (since_app _ _ _ H). repeat split; assumption.
  - apply whole_reload.
  - intros p ws exits running primary once single unparked pool some count
      distinct below turn q ids.
    destruct ws as [|w rest]; [contradiction|].
    assert (numOfWorkers (state p) <> 0) as positive by (cbn [length] in count; lia).
    set (p1 := step host p (Signalled SigHup)) in *.
    assert (Ep1 : p1 = {| state :=
                            set_onceReloaded [List.map worker_id rest]
                              (set_reloaded 0 (set_isReloading true (state p)));
                          history := history p ++
                            [Log LInfo "Reloading"; Send (envelope CMD_RELOAD) (Some w)];
                          status := None |}).
    { subst p1. unfold step, perform. rewrite running. cbn [handle].
      rewrite bind_gets, once. cbn [repeatM onSignal]. rewrite bind_unit.
      rewrite (reload_master_with_workers (state p) w rest primary positive pool),
        unparked.
      reflexivity. }
    assert (rolling (w :: rest) p1) as invariant.
    { rewrite Ep1. unfold rolling. cbn.
      split; [reflexivity|]. split; [reflexivity|]. split; [exact single|].
      split; [exists []; rewrite app_nil_r; exact pool|].
      split; [reflexivity|]. rewrite pool.
      split; [exact distinct|]. split; [exact below|]. cbn [length] in *. lia. }
    pose proof (rolling_live (w :: rest) exits p1 invariant turn) as live.
    pose proof (Forall2_length _ _ _ turn) as len. symmetry in len.
    destruct (whole_reload p (length (w :: rest)) exits running primary once single
                ltac:(cbn; lia) count len live)
      as (Q1 & Q2 & _ & Q4 & Q5 & Q6).
    fold p1 q ids in Q1, Q2, Q4, Q5, Q6.
    split; [exact Q1|]. split; [|exact Q2].
    split; [|split; [exact Q4 | split; [exact Q5 | exact Q6]]].
    exists (List.map (reloading_event host) ids).
    split; [unfold ids; rewrite length_map, length_seqZ; lia|].
    split; [apply Forall_forall; intros args (i & -> & _)%list_elem_of_fmap;
            reflexivity | exact Q2].
Qed.

End Reloaded.

Lemma reload_witness :
  status two_workers = None /\
  isMaster (state two_workers) = true /\
  numOfWorkers (state two_workers) = 2 /\
  cluster_workers (state two_workers) = [first_worker; second_worker] /\
  emitted "reload"
    (since two_workers
       (run (demo true 1) (step (demo true 1) two_workers (Signalled SigHup))
          [WorkerExited 1 (JNum 0) JNull true; WorkerExited 2 (JNum 0) JNull true])) =
  [[JStr "reloading"; JNum 4003; JNum 3]; [JStr "reloading"; JNum 4004; JNum 4];
   [JStr "complete"]] /\
  reload_completed 2 two_workers
    (run (demo true 1) (step (demo true 1) two_workers (Signalled SigHup))
       [WorkerExited 1 (JNum 0) JNull true; WorkerExited 2 (JNum 0) JNull true]).
Proof.
  do 4 (split; [reflexivity|]). split.
  - apply (proj1 (proj2 (reload_replaces_workers_one_by_one (demo true 1)))
             two_workers 2%nat
             [WorkerExited 1 (JNum 0) JNull true; WorkerExited 2 (JNum 0) JNull true]);
      try reflexivity.
    + lia.
    + split; [|split; [|exact I]];
        (eexists _, _, _, _; split; [reflexivity | vm_compute; eexists; reflexivity]).
  - apply (proj2 (proj2 (reload_replaces_workers_one_by_one (demo true 1)))
             two_workers [first_worker; second_worker]
             [WorkerExited 1 (JNum 0) JNull true; WorkerExited 2 (JNum 0) JNull true]);
      try reflexivity.
    + discriminate.
    + apply (bool_decide_unpack _). vm_compute. exact I.
    + repeat constructor.
    + repeat constructor; eexists _, _, _; reflexivity.
Defined.

(** ** Tasks registered while a shutdown is running *)

Section Late.

Variable host : Host.

Lemma registrations_only (regs : list (option TaskId * option bool)) :
  forall p : Proc,
  status p = None ->
  let p' := run host p (List.map register regs) in
  status p' = None /\
  history p' = history p /\
  runs (state p') = runs (state p) /\
  onExit (state p') = onExit (state p) /\
  shutdownTasks (state p') = shutdownTasks (state p) ++ omap registered regs.
Proof.
  induction regs as [|[t b] regs IH]; intros p running.
  - cbn. rewrite app_nil_r. repeat split. exact running.
  - cbn [List.map]. rewrite run_cons.
    change (register (t, b)) with (CallAddShutdownTask t b).
    set (p1 := step host p (CallAddShutdownTask t b)).
    assert (status p1 = None /\ history p1 = history p /\
            runs (state p1) = runs (state p) /\
            onExit (state p1) = onExit (state p) /\
            shutdownTasks (state p1) =
              shutdownTasks (state p) ++ omap registered [(t, b)])
      as (S1 & H1 & R1 & X1 & T1).
    { subst p1. unfold step, perform. rewrite running. cbn [handle].
      unfold ee_addShutdownTask. destruct t as [f|]; exec; cbn;
        rewrite !app_nil_r; repeat split. }
    destruct (IH p1 S1) as (S2 & H2 & R2 & X2 & T2).
    cbn zeta. rewrite S2, H2, R2, X2, T2, H1, R1, X1, T1.
    repeat split. rewrite <- app_assoc. f_equal.
    cbn. destruct (registered (t, b)); reflexivity.
Qed.

(** X17.  The tasks of a shutdown are fixed when it begins.  Tasks
    registered while a task of the shutdown is running are added to the
    registered tasks but are not called by that shutdown: it calls the tasks
    of the list it began with, in order, and when each of them signals
    completion without an error the process exits with code 0. *)
Theorem late_registrations_miss_the_running_shutdown
    (p : Proc) (e sg : JsVal) (regs : list (option TaskId * option bool))
    (errs : list JsVal) :
  status p = None ->
  taskList (state p) <> [] ->
  Forall falsy errs ->
  length errs = length (taskList (state p)) ->
  let k := length (runs (state p)) in
  let p1 := perform (shutdown e sg) p in
  let p2 := run host p1 (List.map register regs) in
  let q := conclude host k (run host p2 (completions k errs)) in
  shutdownTasks (state p2) = shutdownTasks (state p) ++ omap registered regs /\
  tasksRun (since p q) = List.map task (taskList (state p)) /\
  status q = Some (Exited 0).
Proof.
  intros running some ok all k p1 p2 q.
  destruct (taskList (state p)) as [|item rest] eqn:tasks; [contradiction|].
  destruct (shutdown_begins e sg (state p) item rest tasks)
    as (s1 & E & found & hook).
  assert (Ep1 : p1 = {| state := s1;
                        history := history p ++
                          [Log LVerbose "Number of shutdown tasks before shutting down";
                           Log (printLevel e) "Execute shutdown task";
                           RunTask (length (runs (state p))) (task item)];
                        status := None |}).
  { subst p1. unfold perform. rewrite running, E. reflexivity. }
  assert (shutdownTasks s1 = shutdownTasks (state p)) as same_tasks.
  { destruct (shutdown_parks e sg (state p)) as [frame _].
    rewrite E in frame. cbn in frame. rewrite frame. reflexivity. }
  destruct (registrations_only regs p1 ltac:(rewrite Ep1; reflexivity))
    as (S2 & H2 & R2 & X2 & T2).
  fold p2 in S2, H2, R2, X2, T2.
  rewrite Ep1 in H2, R2, X2, T2. cbn in H2, R2, X2, T2.
  split; [rewrite T2, same_tasks; reflexivity|].
  set (r1 := advance 1 (new_run e sg (state p))) in *.
  assert (run_rest r1 = rest) as left_over
    by (subst r1; cbn; rewrite tasks; cbn; apply drop_0).
  assert (runs (state p2) !! k = Some r1) as found2 by (rewrite R2; exact found).
  destruct errs as [|last errs _] using rev_ind; [discriminate|].
  rewrite length_app in all. cbn in all.
  apply Forall_app in ok as [ok last_ok]. apply Forall_inv in last_ok.
  destruct (series_ends host k errs last p2 r1 S2 found2 eq_refl ok
              ltac:(rewrite left_over; lia)
              ltac:(right; rewrite left_over; lia))
    as ((o & H & T & _) & _ & S3 & x & Hx & Tx & _).
  fold q in S3, Hx.
  unfold exit_code in S3. rewrite last_ok in S3.
  split; [|exact S3].
  rewrite H, H2, <- !app_assoc in Hx.
  rewrite (since_app _ _ _ Hx). rewrite !tasksRun_app, T, Tx, left_over.
  rewrite firstn_all2 by lia. cbn. rewrite app_nil_r. reflexivity.
Qed.

End Late.

Lemma late_registration_witness :
  status standalone_with_task = None /\
  taskList (state standalone_with_task) <> [] /\
  tasksRun
    (since standalone_with_task
       (conclude (demo true 1) 0
          (run (demo true 1)
             (run (demo true 1)
                (perform (shutdown JNull JNull) standalone_with_task)
                (List.map register [(Some 9%nat, None)]))
             (completions 0 [JUndefined])))) = [7%nat].
Proof.
  split; [reflexivity|]. split; [discriminate|].
  apply (late_registrations_miss_the_running_shutdown (demo true 1)
           standalone_with_task JNull JNull [(Some 9%nat, None)] [JUndefined]).
  - reflexivity.
  - discriminate.
  - repeat constructor.
  - reflexivity.
Defined.
